(** * Leuphana knowledge graph: scraper helpers and RDF generator

    A shallow embedding of [src/scraper/scraper.py] (URI canonicalisation,
    name parsing, person classification, registration into the scraper's
    dictionaries) and of [src/scraper/rdf_generator.py] (the triple-emitting
    graph builder and its organisation resolver), followed by the properties
    the specification states about them. *)

From Stdlib Require Import List NArith ZArith Bool Lia String Ascii.
Import ListNotations.

Set Implicit Arguments.

(* ===================================================================== *)
(** ** Python strings *)
(* ===================================================================== *)

(** A Python [str] is a sequence of Unicode code points. *)
Module PyStr.

Definition pystr := list N.

(** ASCII literals of the source, written as Rocq strings. *)
Definition str (s : string) : pystr := map N_of_ascii (list_ascii_of_string s).

(** Non-ASCII letters used in literals and examples. *)
Definition sharp_s : N := 223.   (* U+00DF *)
Definition a_uml : N := 228.     (* U+00E4 *)
Definition u_uml : N := 252.     (* U+00FC *)
Definition O_uml : N := 214.     (* U+00D6 *)

Definition hyphen : N := 45.
Definition underscore : N := 95.
Definition slash : N := 47.
Definition space : N := 32.

(** [a == b] on strings. *)
Fixpoint eqb (a b : pystr) : bool :=
  match a, b with
  | [], [] => true
  | x :: a', y :: b' => N.eqb x y && eqb a' b'
  | _, _ => false
  end.

(** [s.startswith(t)] *)
Fixpoint startswith (s t : pystr) : bool :=
  match t, s with
  | [], _ => true
  | _ :: _, [] => false
  | y :: t', x :: s' => N.eqb x y && startswith s' t'
  end.

(** [s.endswith(t)] *)
Definition endswith (s t : pystr) : bool := startswith (rev s) (rev t).

(** [t in s]: [t] occurs as a contiguous substring of [s]. *)
Fixpoint contains (t s : pystr) : bool :=
  startswith s t ||
  match s with
  | [] => false
  | _ :: s' => contains t s'
  end.

(** The part of the interpreter's Unicode database the source relies on and
    that is not fixed by ASCII: the character classes of code points from
    128 on, and case mapping of strings that are not pure ASCII (case mapping
    is not character-wise there: final sigma, sharp s). *)
Class UnicodeDB := {
  uni_isspace : N -> bool;
  uni_isalnum : N -> bool;
  uni_lower : pystr -> pystr;
  uni_upper : pystr -> pystr
}.

Definition is_ascii (c : N) : bool := (c <? 128)%N.

Definition in_range (lo hi c : N) : bool := ((lo <=? c) && (c <=? hi))%N.

Definition ascii_isspace (c : N) : bool :=
  in_range 9 13 c || in_range 28 32 c.

Definition ascii_isalnum (c : N) : bool :=
  in_range 48 57 c || in_range 65 90 c || in_range 97 122 c.

Definition ascii_lower (c : N) : N :=
  if in_range 65 90 c then (c + 32)%N else c.

Definition ascii_upper (c : N) : N :=
  if in_range 97 122 c then (c - 32)%N else c.

Section WithUnicode.
Context {U : UnicodeDB}.

(** [c.isspace()], which is also the class [\s] of [re] on [str] patterns. *)
Definition isspace (c : N) : bool :=
  if is_ascii c then ascii_isspace c else uni_isspace c.

(** [c.isalnum()] *)
Definition isalnum (c : N) : bool :=
  if is_ascii c then ascii_isalnum c else uni_isalnum c.

(** The class [\w] of [re] on [str] patterns: alphanumerics and underscore. *)
Definition is_word (c : N) : bool := isalnum c || N.eqb c underscore.

(** [s.lower()] *)
Definition lower (s : pystr) : pystr :=
  if forallb is_ascii s then map ascii_lower s else uni_lower s.

(** [s.upper()] *)
Definition upper (s : pystr) : pystr :=
  if forallb is_ascii s then map ascii_upper s else uni_upper s.

End WithUnicode.

Fixpoint dropwhile (p : N -> bool) (s : pystr) : pystr :=
  match s with
  | [] => []
  | c :: s' => if p c then dropwhile p s' else s
  end.

(** [s.lstrip(chars)], [s.rstrip(chars)] and [s.strip(chars)] with the
    stripped set given as a predicate. *)
Definition lstrip_by (p : N -> bool) (s : pystr) : pystr := dropwhile p s.
Definition rstrip_by (p : N -> bool) (s : pystr) : pystr :=
  rev (dropwhile p (rev s)).
Definition strip_by (p : N -> bool) (s : pystr) : pystr :=
  rstrip_by p (lstrip_by p s).

(** [s.strip()] *)
Definition strip {U : UnicodeDB} (s : pystr) : pystr := strip_by isspace s.

(** [s.split()]: the maximal runs of non-whitespace characters.  [cur] holds
    the current token, reversed. *)
Fixpoint split_ws (p : N -> bool) (cur : pystr) (s : pystr) : list pystr :=
  match s with
  | [] => match cur with [] => [] | _ => [rev cur] end
  | c :: s' =>
      if p c then
        match cur with
        | [] => split_ws p [] s'
        | _ => rev cur :: split_ws p [] s'
        end
      else split_ws p (c :: cur) s'
  end.

Definition split {U : UnicodeDB} (s : pystr) : list pystr := split_ws isspace [] s.

(** [s.split(sep)] for a one-character separator: never the empty list. *)
Fixpoint split_on (sep : N) (cur : pystr) (s : pystr) : list pystr :=
  match s with
  | [] => [rev cur]
  | c :: s' =>
      if N.eqb c sep then rev cur :: split_on sep [] s'
      else split_on sep (c :: cur) s'
  end.

(** [sep.join(parts)] *)
Fixpoint join (sep : pystr) (parts : list pystr) : pystr :=
  match parts with
  | [] => []
  | [x] => x
  | x :: rest => x ++ sep ++ join sep rest
  end.

(** [re.sub('[^...]', '', s)]: every character outside the class is
    deleted. *)
Definition re_delete_outside (keep : N -> bool) (s : pystr) : pystr :=
  filter keep s.

(** [re.sub('C+', r, s)] for a character class [C]: every maximal run of
    characters of the class is replaced by [r].  [in_run] tells whether the
    previous character belonged to the class. *)
Fixpoint re_sub_runs (p : N -> bool) (r : pystr) (in_run : bool) (s : pystr)
  : pystr :=
  match s with
  | [] => []
  | c :: s' =>
      if p c then
        if in_run then re_sub_runs p r true s'
        else r ++ re_sub_runs p r true s'
      else c :: re_sub_runs p r false s'
  end.

End PyStr.

Import PyStr.

(** The character tables of the Latin-1 block (code points below 256), as
    CPython has them; code points from 256 on are left without class and
    case.  Used to evaluate the functions on concrete Latin-1 text. *)
Module Latin1.

Definition l1_isspace (c : N) : bool := N.eqb c 133 || N.eqb c 160.

Definition l1_isalnum (c : N) : bool :=
  N.eqb c 170 || N.eqb c 178 || N.eqb c 179 || N.eqb c 181 ||
  N.eqb c 185 || N.eqb c 186 || in_range 188 190 c ||
  in_range 192 214 c || in_range 216 246 c || in_range 248 255 c.

Definition l1_lower_char (c : N) : N :=
  if in_range 65 90 c then (c + 32)%N
  else if in_range 192 222 c && negb (N.eqb c 215) then (c + 32)%N
  else c.

Definition l1_upper_char (c : N) : pystr :=
  if in_range 97 122 c then [(c - 32)%N]
  else if N.eqb c 223 then [83; 83]%N
  else if N.eqb c 255 then [376]%N
  else if N.eqb c 181 then [924]%N
  else if in_range 224 254 c && negb (N.eqb c 247) then [(c - 32)%N]
  else [c].

#[export] Instance db : UnicodeDB := {|
  uni_isspace := l1_isspace;
  uni_isalnum := l1_isalnum;
  uni_lower := map l1_lower_char;
  uni_upper := fun s => flat_map l1_upper_char s
|}.

End Latin1.

(* ===================================================================== *)
(** ** scraper.py: helper functions *)
(* ===================================================================== *)

Module Scraper.

(** The closed enumeration of person categories, and the class names the
    source returns for them. *)
Inductive Category :=
  | JuniorProfessor | HonoraryProfessor | EmeritusProfessor
  | VisitingProfessor | AdjunctProfessor | Professor | PostDoc | PhDStudent
  | Lecturer | ResearchAssistant | VisitingScientist | StudentAssistant
  | AdministrativeStaff | AcademicStaff.

Definition category_name (c : Category) : pystr :=
  match c with
  | JuniorProfessor => str "JuniorProfessor"
  | HonoraryProfessor => str "HonoraryProfessor"
  | EmeritusProfessor => str "EmeritusProfessor"
  | VisitingProfessor => str "VisitingProfessor"
  | AdjunctProfessor => str "AdjunctProfessor"
  | Professor => str "Professor"
  | PostDoc => str "PostDoc"
  | PhDStudent => str "PhDStudent"
  | Lecturer => str "Lecturer"
  | ResearchAssistant => str "ResearchAssistant"
  | VisitingScientist => str "VisitingScientist"
  | StudentAssistant => str "StudentAssistant"
  | AdministrativeStaff => str "AdministrativeStaff"
  | AcademicStaff => str "AcademicStaff"
  end.

Definition is_hyphen (c : N) : bool := N.eqb c hyphen.

(** The academic title tokens of [extract_name_parts], in source order. *)
Definition titles : list pystr :=
  map str ["Prof."; "Dr."; "Dr.-Ing."; "Jun.-Prof."; "Apl."; "rer."; "nat.";
           "phil."; "habil."; "PD"; "M.A."; "M.Sc."; "MBA"; "LL.M.";
           "Dipl.-"]%string.

(** [any(tok.startswith(t) or tok == t for t in titles)] *)
Definition is_title_token (tok : pystr) : bool :=
  existsb (fun t => startswith tok t || eqb tok t) titles.

(** The [while] loop of [extract_name_parts] on its two variables:
    [title_parts.append(name_parts.pop(0))] as long as the first remaining
    token is a title. *)
Fixpoint strip_titles (title_parts name_parts : list pystr)
  : list pystr * list pystr :=
  match name_parts with
  | [] => (title_parts, [])
  | tok :: rest =>
      if is_title_token tok then strip_titles (title_parts ++ [tok]) rest
      else (title_parts, name_parts)
  end.

(** The marker of [determine_person_category] that is not ASCII: "au",
    sharp s, "erplanm", a-umlaut, sharp s, "ig". *)
Definition ausserplanmaessig : pystr :=
  str "au" ++ sharp_s :: str "erplanm" ++ a_uml :: sharp_s :: str "ig".

Section WithUnicode.
Context {U : UnicodeDB}.

(** The class [[^\w\s-]] is deleted: word characters, whitespace and the
    hyphen are kept. *)
Definition keep_word_space_hyphen (c : N) : bool :=
  is_word c || isspace c || is_hyphen c.

Definition INSTANCE_NS : pystr := str "http://leuphana.de/resource/".

Definition create_uri (entity_type name : pystr) : pystr :=
  let clean_name := re_delete_outside keep_word_space_hyphen (lower name) in
  let clean_name := re_sub_runs isspace (str "-") false (strip clean_name) in
  let clean_name := re_sub_runs is_hyphen (str "-") false clean_name in
  str "http://leuphana.de/resource/" ++ entity_type ++ str "/" ++ clean_name.

(** Returns [(first_name, last_name, title)]; [None] is Python's [None]. *)
Definition extract_name_parts (full_name : pystr)
  : option pystr * pystr * option pystr :=
  let '(title_parts, name_parts) := strip_titles [] (split full_name) in
  let title :=
    match title_parts with
    | [] => None
    | _ => Some (join (str " ") title_parts)
    end in
  if (2 <=? List.length name_parts)%nat then
    (Some (join (str " ") (removelast name_parts)), last name_parts [], title)
  else
    match name_parts with
    | [only] => (None, only, title)
    | _ => (None, full_name, title)
    end.

(** [f"{text} {url} {title}".lower()] *)
Definition combined_text (text url title : pystr) : pystr :=
  lower (text ++ str " " ++ url ++ str " " ++ title).

Definition determine_person_category (text url title : pystr) : Category :=
  let combined := combined_text text url title in
  let has := fun marker => contains marker combined in
  if has (str "juniorprof") || has (str "junior professor")
     || has (str "jun.-prof") then JuniorProfessor
  else if has (str "honorar") || has (str "honorary") then HonoraryProfessor
  else if has (str "emerit") then EmeritusProfessor
  else if has (str "gastprof") || has (str "visiting prof")
  then VisitingProfessor
  else if has (str "apl.") || has (str "adjunct") || has ausserplanmaessig
  then AdjunctProfessor
  else if has (str "prof.") || has (str "professor") then Professor
  else if has (str "post-doc") || has (str "postdoc") then PostDoc
  else if has (str "phd") || has (str "doktorand") || has (str "doctoral")
  then PhDStudent
  else if has (str "lecturer") || has (str "lektor")
          || has (str "lehrbeauft") then Lecturer
  else if has (str "research assistant") || has (str "wissenschaftl")
  then ResearchAssistant
  else if has (str "visiting scientist") || has (str "gastwissenschaft")
  then VisitingScientist
  else if has (str "hiwi") || has (str "student assistant")
          || has (str "hilfskraft") then StudentAssistant
  else if has (str "dr.") && negb (has (str "prof")) then PostDoc
  else AcademicStaff.

End WithUnicode.

(** *** The data classes and the scraper's dictionaries *)

Record Person := {
  p_uri : pystr;
  p_name : pystr;
  p_first_name : option pystr;
  p_last_name : option pystr;
  p_title : option pystr;
  p_category : option pystr;
  p_email : option pystr;
  p_phone : option pystr;
  p_office : option pystr;
  p_webpage : option pystr;
  p_institute : option pystr;
  p_school : option pystr;
  p_research_areas : list pystr;
  p_image_url : option pystr;
  p_source_url : pystr
}.

Record Organization := {
  o_uri : pystr;
  o_name : pystr;
  o_org_type : pystr;
  o_abbreviation : option pystr;
  o_description : option pystr;
  o_parent : option pystr;
  o_webpage : option pystr;
  o_address : option pystr;
  o_members : list pystr;
  o_source_url : pystr
}.

Record Chair := {
  c_uri : pystr;
  c_name : pystr;
  c_description : option pystr;
  c_parent : option pystr;
  c_headed_by : option pystr;
  c_webpage : option pystr;
  c_team_members : list pystr;
  c_source_url : pystr
}.

Record HiwiPosition := {
  h_uri : pystr;
  h_title : pystr;
  h_description : option pystr;
  h_department : option pystr;
  h_contact_person : option pystr;
  h_contact_email : option pystr;
  h_posted_date : option pystr;
  h_hours_per_week : option pystr;
  h_webpage : option pystr;
  h_source_url : pystr
}.

Record StudyProgram := {
  sp_uri : pystr;
  sp_name : pystr;
  sp_program_type : pystr;
  sp_description : option pystr;
  sp_duration : option pystr;
  sp_language : option pystr;
  sp_offered_by : option pystr;
  sp_webpage : option pystr;
  sp_source_url : pystr
}.

Record Course := {
  co_uri : pystr;
  co_name : pystr;
  co_description : option pystr;
  co_credit_points : option Z;
  co_course_type : option pystr;
  co_part_of_program : option pystr;
  co_taught_by : list pystr;
  co_semester : option pystr;
  co_language : option pystr;
  co_webpage : option pystr;
  co_source_url : pystr
}.

Record Minor := {
  m_uri : pystr;
  m_name : pystr;
  m_name_de : option pystr;
  m_description : option pystr;
  m_credit_points : option Z;
  m_part_of_program : option pystr;
  m_offered_by : option pystr;
  m_webpage : option pystr;
  m_source_url : pystr
}.

Record ResearchProject := {
  rp_uri : pystr;
  rp_name : pystr;
  rp_description : option pystr;
  rp_conducted_by : option pystr;
  rp_principal_investigator : option pystr;
  rp_funding_source : option pystr;
  rp_start_date : option pystr;
  rp_end_date : option pystr;
  rp_webpage : option pystr;
  rp_source_url : pystr
}.

(** A Python [dict] with [str] keys: iteration follows insertion order, and
    assigning to a key that is present keeps its position. *)
Definition dict (V : Type) := list (pystr * V).

Fixpoint dict_get {V} (d : dict V) (k : pystr) : option V :=
  match d with
  | [] => None
  | (k', v) :: d' => if eqb k' k then Some v else dict_get d' k
  end.

(** [k in d] *)
Definition dict_mem {V} (d : dict V) (k : pystr) : bool :=
  match dict_get d k with Some _ => true | None => false end.

(** [d[k] = v] *)
Fixpoint dict_set {V} (d : dict V) (k : pystr) (v : V) : dict V :=
  match d with
  | [] => [(k, v)]
  | (k', v') :: d' =>
      if eqb k' k then (k', v) :: d' else (k', v') :: dict_set d' k v
  end.

(** A [set] of strings: [s.add(x)] and [x in s]. *)
Definition set_mem (s : list pystr) (x : pystr) : bool := existsb (eqb x) s.
Definition set_add (s : list pystr) (x : pystr) : list pystr :=
  if set_mem s x then s else s ++ [x].

(** The fields of [LeuphanaScaper] the registration paths read and write. *)
Record state := {
  visited_urls : list pystr;
  persons : dict Person;
  organizations : dict Organization;
  chairs : dict Chair;
  hiwi_positions : dict HiwiPosition
}.

Definition empty_state : state :=
  {| visited_urls := []; persons := []; organizations := []; chairs := [];
     hiwi_positions := [] |}.

Definition with_persons (st : state) (ps : dict Person) : state :=
  {| visited_urls := visited_urls st; persons := ps;
     organizations := organizations st; chairs := chairs st;
     hiwi_positions := hiwi_positions st |}.

Definition with_visited (st : state) (v : list pystr) : state :=
  {| visited_urls := v; persons := persons st;
     organizations := organizations st; chairs := chairs st;
     hiwi_positions := hiwi_positions st |}.

Definition with_chairs (st : state) (cs : dict Chair) : state :=
  {| visited_urls := visited_urls st; persons := persons st;
     organizations := organizations st; chairs := cs;
     hiwi_positions := hiwi_positions st |}.

Definition with_hiwi_positions (st : state) (hs : dict HiwiPosition) : state :=
  {| visited_urls := visited_urls st; persons := persons st;
     organizations := organizations st; chairs := chairs st;
     hiwi_positions := hs |}.

(** Python truthiness of an optional string: [None] and [''] are false. *)
Definition truthy (x : option pystr) : bool :=
  match x with
  | Some (_ :: _) => true
  | _ => false
  end.

(** [x or d] *)
Definition or_else (x : option pystr) (d : pystr) : pystr :=
  match x with
  | Some (c :: s) => c :: s
  | _ => d
  end.

(** What the source reads from one anchor of a person list page. *)
Record person_link := {
  l_href : pystr;             (* link.get('href', '') *)
  l_person_url : pystr;       (* urljoin(full_url, href) *)
  l_allowed : bool;           (* is_allowed_url(person_url) *)
  l_text : pystr;             (* link.get_text(strip=True) *)
  l_email : option pystr      (* the mailto address next to the link *)
}.

(** What the source reads from a person profile page. *)
Record profile_page := {
  pp_name : option pystr;
  pp_email : option pystr;
  pp_phone : option pystr;
  pp_office : option pystr;
  pp_text : pystr;
  pp_institute : option pystr
}.

(** What the source reads from a Hiwi posting page. *)
Record hiwi_page := {
  hp_h1 : option pystr;
  hp_description : option pystr;
  hp_text : pystr;
  hp_email : option pystr;
  hp_hours : option pystr;
  hp_posted_date : option pystr
}.

Section Registration.
Context {U : UnicodeDB}.

(** The body of the loop over the links of [scrape_person_list_page]:
    returns the person appended to [persons], if any, and the new state. *)
Definition list_page_link (full_url : pystr) (category : option pystr)
    (st : state) (link : person_link) : option Person * state :=
  match l_href link with
  | [] => (None, st)
  | _ =>
    if set_mem (visited_urls st) (l_person_url link) || negb (l_allowed link)
    then (None, st)
    else
      let name := l_text link in
      match name with
      | [] => (None, st)
      | _ =>
        if (List.length name <? 3)%nat then (None, st)
        else
          let '(first_name, last_name, title) := extract_name_parts name in
          let person_category :=
            or_else category
              (category_name
                 (determine_person_category name (l_person_url link)
                    (or_else title []))) in
          let person :=
            {| p_uri := create_uri (str "person") name;
               p_name := name;
               p_first_name := first_name;
               p_last_name := Some last_name;
               p_title := title;
               p_category := Some person_category;
               p_email := l_email link;
               p_phone := None; p_office := None;
               p_webpage := Some (l_person_url link);
               p_institute := None; p_school := None;
               p_research_areas := []; p_image_url := None;
               p_source_url := full_url |} in
          (Some person,
           with_visited
             (with_persons st (dict_set (persons st) (p_uri person) person))
             (set_add (visited_urls st) (l_person_url link)))
      end
  end.

Fixpoint list_page_links (full_url : pystr) (category : option pystr)
    (st : state) (links : list person_link) : list Person * state :=
  match links with
  | [] => ([], st)
  | link :: rest =>
      let '(p, st1) := list_page_link full_url category st link in
      let '(ps, st2) := list_page_links full_url category st1 rest in
      (match p with Some x => x :: ps | None => ps end, st2)
  end.

(** [scrape_person_list_page]; [soup] is [None] when the page could not be
    fetched, else the anchors in the order the selectors yield them. *)
Definition scrape_person_list_page (full_url : pystr)
    (category : option pystr) (soup : option (list person_link)) (st : state)
  : list Person * state :=
  match soup with
  | None => ([], st)
  | Some links => list_page_links full_url category st links
  end.

Definition scrape_person_profile (full_url : pystr)
    (soup : option profile_page) (st : state) : option Person * state :=
  if set_mem (visited_urls st) full_url then (None, st)
  else
    match soup with
    | None => (None, st)
    | Some page =>
      let st := with_visited st (set_add (visited_urls st) full_url) in
      match pp_name page with
      | Some ((_ :: _) as name) =>
        let '(first_name, last_name, title) := extract_name_parts name in
        let category := determine_person_category (pp_text page) full_url [] in
        let person :=
          {| p_uri := create_uri (str "person") name;
             p_name := name;
             p_first_name := first_name;
             p_last_name := Some last_name;
             p_title := title;
             p_category := Some (category_name category);
             p_email := pp_email page;
             p_phone := pp_phone page;
             p_office := pp_office page;
             p_webpage := Some full_url;
             p_institute := pp_institute page;
             p_school := None;
             p_research_areas := []; p_image_url := None;
             p_source_url := full_url |} in
        (Some person,
         with_persons st (dict_set (persons st) (p_uri person) person))
      | _ => (None, st)
      end
    end.

(** The first institute whose name or abbreviation occurs in the page. *)
Definition find_department (orgs : dict Organization) (page_text : pystr)
  : option pystr :=
  option_map (fun kv => o_name (snd kv))
    (find (fun kv =>
             let inst := snd kv in
             eqb (o_org_type inst) (str "Institute") &&
             (contains (lower (o_name inst)) (lower page_text) ||
              match o_abbreviation inst with
              | Some ((_ :: _) as a) => contains (lower a) (lower page_text)
              | _ => false
              end))
          orgs).

Definition _scrape_single_hiwi_position (title url : pystr)
    (soup : option hiwi_page) (st : state) : state :=
  match soup with
  | None => st
  | Some page =>
    let st := with_visited st (set_add (visited_urls st) url) in
    let title := match hp_h1 page with Some t => t | None => title end in
    if (List.length title <? 5)%nat then st
    else
      let position_uri := create_uri (str "hiwi-position") title in
      if dict_mem (hiwi_positions st) position_uri then st
      else
        let position :=
          {| h_uri := position_uri;
             h_title := title;
             h_description := hp_description page;
             h_department := find_department (organizations st) (hp_text page);
             h_contact_person := None;
             h_contact_email := hp_email page;
             h_posted_date := hp_posted_date page;
             h_hours_per_week := hp_hours page;
             h_webpage := Some url;
             h_source_url := url |} in
        with_hiwi_positions st
          (dict_set (hiwi_positions st) position_uri position)
  end.

(** The lookup of an existing professor in [_create_chair_from_heading]:
    [person.name == professor_name or professor_name in person.name]. *)
Definition find_professor (ps : dict Person) (professor_name : pystr)
  : option pystr :=
  option_map fst
    (find (fun kv =>
             eqb (p_name (snd kv)) professor_name
             || contains professor_name (p_name (snd kv)))
          ps).

(** The lookup of the other chair and course paths
    ([_scrape_single_professorship], [_create_course_entity]):
    [name in person.name or person.name in name]. *)
Definition find_person_either_way (ps : dict Person) (name : pystr)
  : option pystr :=
  option_map fst
    (find (fun kv =>
             contains name (p_name (snd kv))
             || contains (p_name (snd kv)) name)
          ps).

Definition find_parent_institute (orgs : dict Organization)
    (institute_key : pystr) : option pystr :=
  option_map fst
    (find (fun kv =>
             eqb (o_org_type (snd kv)) (str "Institute") &&
             contains (upper institute_key) (upper (o_name (snd kv))))
          orgs).

Definition _create_chair_from_heading (chair_name : pystr)
    (professor_name : option pystr) (source_url institute_key : pystr)
    (st : state) : state :=
  let chair_name := strip chair_name in
  if (List.length chair_name <? 10)%nat then st
  else
    let chair_uri := create_uri (str "chair") chair_name in
    if dict_mem (chairs st) chair_uri then st
    else
      let parent_uri := find_parent_institute (organizations st) institute_key in
      let '(headed_by_uri, st) :=
        match professor_name with
        | Some ((_ :: _) as professor_name) =>
          match find_professor (persons st) professor_name with
          | Some ((_ :: _) as person_uri) => (Some person_uri, st)
          | _ =>
            let '(first_name, last_name, title) :=
              extract_name_parts professor_name in
            let professor :=
              {| p_uri := create_uri (str "person") professor_name;
                 p_name := professor_name;
                 p_first_name := first_name;
                 p_last_name := Some last_name;
                 p_title := title;
                 p_category := Some (str "Professor");
                 p_email := None; p_phone := None; p_office := None;
                 p_webpage := None; p_institute := None; p_school := None;
                 p_research_areas := []; p_image_url := None;
                 p_source_url := source_url |} in
            (Some (p_uri professor),
             with_persons st
               (dict_set (persons st) (p_uri professor) professor))
          end
        | _ => (None, st)
        end in
      let chair :=
        {| c_uri := chair_uri; c_name := chair_name; c_description := None;
           c_parent := parent_uri; c_headed_by := headed_by_uri;
           c_webpage := Some source_url; c_team_members := [];
           c_source_url := source_url |} in
      with_chairs st (dict_set (chairs st) chair_uri chair).

End Registration.

End Scraper.

(* ===================================================================== *)
(** ** rdf_generator.py *)
(* ===================================================================== *)

Module RdfGenerator.
Import Scraper.

(** *** The part of [rdflib] the generator uses

    Terms are URI references and literals; two terms are the same node when
    they agree on kind, text, language tag and datatype.  A [Graph] is a set
    of triples whose indices iterate in insertion order: it is kept as the
    list of its triples in the order of their first insertion. *)
Inductive lit_value :=
  | LStr (s : pystr)
  | LInt (z : Z).

Inductive term :=
  | URIRef (s : pystr)
  | Literal (v : lit_value) (lang : option pystr) (datatype : option pystr).

Definition triple := (term * term * term)%type.
Definition graph := list triple.

Definition lit_eqb (a b : lit_value) : bool :=
  match a, b with
  | LStr x, LStr y => eqb x y
  | LInt x, LInt y => Z.eqb x y
  | _, _ => false
  end.

Definition opt_eqb (a b : option pystr) : bool :=
  match a, b with
  | None, None => true
  | Some x, Some y => eqb x y
  | _, _ => false
  end.

Definition term_eqb (a b : term) : bool :=
  match a, b with
  | URIRef x, URIRef y => eqb x y
  | Literal v l d, Literal v' l' d' =>
      lit_eqb v v' && opt_eqb l l' && opt_eqb d d'
  | _, _ => false
  end.

Definition triple_eqb (a b : triple) : bool :=
  let '(s, p, o) := a in
  let '(s', p', o') := b in
  term_eqb s s' && term_eqb p p' && term_eqb o o'.

(** [t in g] *)
Definition graph_mem (g : graph) (t : triple) : bool :=
  existsb (triple_eqb t) g.

(** [g.add(t)] *)
Definition add (g : graph) (t : triple) : graph :=
  if graph_mem g t then g else g ++ [t].

(** Consecutive [g.add] calls. *)
Definition add_all (g : graph) (ts : list triple) : graph :=
  fold_left add ts g.

(** [g.subjects(p, o)] *)
Definition subjects (g : graph) (p o : term) : list term :=
  map (fun t => fst (fst t))
    (filter (fun t => term_eqb (snd (fst t)) p && term_eqb (snd t) o) g).

(** [g.objects(s, p)] *)
Definition objects (g : graph) (s p : term) : list term :=
  map (fun t => snd t)
    (filter (fun t => term_eqb (fst (fst t)) s && term_eqb (snd (fst t)) p) g).

(** [(s, p, None) in g] *)
Definition has_subject_predicate (g : graph) (s p : term) : bool :=
  existsb (fun t => term_eqb (fst (fst t)) s && term_eqb (snd (fst t)) p) g.

(** [str(t)]; the decimal text of an integer literal is never compared by
    the generator and is left empty. *)
Definition term_str (t : term) : pystr :=
  match t with
  | URIRef s => s
  | Literal (LStr s) _ _ => s
  | Literal (LInt _) _ _ => []
  end.

(** Truthiness of a node that may still be [None]. *)
Definition node_set (t : option term) : bool :=
  match t with
  | Some (URIRef (_ :: _)) => true
  | Some (Literal (LStr (_ :: _)) _ _) => true
  | Some (Literal (LInt _) _ _) => true
  | _ => false
  end.

(** *** Namespaces *)

Definition ONTOLOGY_NS : pystr := str "http://leuphana.de/ontology#".

Definition LEUPH (name : string) : term := URIRef (ONTOLOGY_NS ++ str name).
Definition FOAF (name : string) : term :=
  URIRef (str "http://xmlns.com/foaf/0.1/" ++ str name).
Definition SCHEMA (name : string) : term :=
  URIRef (str "http://schema.org/" ++ str name).
Definition DC (name : string) : term :=
  URIRef (str "http://purl.org/dc/elements/1.1/" ++ str name).
Definition XSD (name : string) : pystr :=
  str "http://www.w3.org/2001/XMLSchema#" ++ str name.
Definition RDF_type : term :=
  URIRef (str "http://www.w3.org/1999/02/22-rdf-syntax-ns#type").
Definition RDFS_label : term :=
  URIRef (str "http://www.w3.org/2000/01/rdf-schema#label").

Definition lit (s : pystr) : term := Literal (LStr s) None None.
Definition lit_en (s : pystr) : term := Literal (LStr s) (Some (str "en")) None.
Definition lit_de (s : pystr) : term := Literal (LStr s) (Some (str "de")) None.
Definition lit_date (s : pystr) : term :=
  Literal (LStr s) None (Some (XSD "date")).
Definition lit_integer (z : Z) : term :=
  Literal (LInt z) None (Some (XSD "integer")).

(** [f"{INSTANCE_NS}university/leuphana"] and [f"{INSTANCE_NS}school/college"] *)
Definition university_uri : term :=
  URIRef (INSTANCE_NS ++ str "university/leuphana").
Definition college_uri : term := URIRef (INSTANCE_NS ++ str "school/college").

(** [if d.get(key): ...] for an optional string field. *)
Definition when_str (x : option pystr) (f : pystr -> list triple)
  : list triple :=
  match x with
  | Some ((_ :: _) as v) => f v
  | _ => []
  end.

(** The same for an optional integer field: [0] is false. *)
Definition when_int (x : option Z) (f : Z -> list triple) : list triple :=
  match x with
  | Some z => if Z.eqb z 0 then [] else f z
  | None => []
  end.

(** [mapping.get(key, default)] for a table keyed by strings. *)
Fixpoint table_get (tbl : list (string * term)) (key : pystr) (default : term)
  : term :=
  match tbl with
  | [] => default
  | (k, v) :: rest => if eqb (str k) key then v else table_get rest key default
  end.

Definition uri_from_string (uri_string : pystr) : term := URIRef uri_string.

Section WithUnicode.
Context {U : UnicodeDB}.

(** The class [[^a-z0-9\s-]] is deleted. *)
Definition keep_lower_digit_space_hyphen (c : N) : bool :=
  in_range 97 122 c || in_range 48 57 c || isspace c || is_hyphen c.

Definition name_to_uri (entity_type name : pystr) : term :=
  let slug := lower name in
  let slug := re_delete_outside keep_lower_digit_space_hyphen slug in
  let slug := re_sub_runs isspace (str "-") false slug in
  let slug := re_sub_runs is_hyphen (str "-") false slug in
  let slug := strip_by is_hyphen slug in
  URIRef (INSTANCE_NS ++ entity_type ++ str "/" ++ slug).

(** *** The organisation resolver *)

Definition type_to_class (entity_type : pystr) : option term :=
  if eqb entity_type (str "institute") then Some (LEUPH "Institute")
  else if eqb entity_type (str "research-center")
  then Some (LEUPH "ResearchCenter")
  else if eqb entity_type (str "school") then Some (LEUPH "School")
  else None.

(** [parts[-1].lower() if parts else ''] *)
Definition abbrev_of (parts : list pystr) : pystr :=
  match parts with
  | [] => []
  | _ => lower (last parts [])
  end.

(** [parts[-2] if len(parts) >= 2 else ''] *)
Definition entity_type_of (parts : list pystr) : pystr :=
  if (2 <=? List.length parts)%nat
  then nth (List.length parts - 2) parts []
  else [].

(** The test the loop of [_resolve_org_uri] applies to one candidate [s]:
    the abbreviation occurs in the lower-cased uri, or equals a lower-cased
    abbreviation attribute of [s]. *)
Definition candidate_matches (g : graph) (abbrev : pystr) (s : term) : bool :=
  let s_str := lower (term_str s) in
  (contains abbrev s_str || endswith s_str abbrev)
  || existsb (fun abbr_lit => eqb (lower (term_str abbr_lit)) abbrev)
       (objects g s (LEUPH "abbreviation")).

Definition _resolve_org_uri (g : graph) (uri_string : pystr) : term :=
  let uri := URIRef uri_string in
  if has_subject_predicate g uri RDF_type then uri
  else
    let parts := split_on slash [] (rstrip_by (N.eqb slash) uri_string) in
    let abbrev := abbrev_of parts in
    let entity_type := entity_type_of parts in
    match type_to_class entity_type with
    | Some rdf_class =>
        match find (candidate_matches g abbrev) (subjects g RDF_type rdf_class)
        with
        | Some s => s
        | None => university_uri
        end
    | None => university_uri
    end.

(** *** The [add_*] methods: graph in, graph out *)

Definition org_type_mapping : list (string * term) :=
  [("University", LEUPH "University"); ("School", LEUPH "School");
   ("Institute", LEUPH "Institute");
   ("ResearchCenter", LEUPH "ResearchCenter");
   ("ResearchGroup", LEUPH "ResearchGroup"); ("Chair", LEUPH "Chair");
   ("College", LEUPH "College"); ("GraduateSchool", LEUPH "GraduateSchool");
   ("ProfessionalSchool", LEUPH "ProfessionalSchool")]%string.

Definition add_organization (g : graph) (org_data : Organization) : graph :=
  let uri := uri_from_string (o_uri org_data) in
  let org_type := o_org_type org_data in
  let rdf_type := table_get org_type_mapping org_type (FOAF "Organization") in
  add_all g
    ([(uri, RDF_type, rdf_type);
      (uri, LEUPH "name", lit_en (o_name org_data));
      (uri, RDFS_label, lit_en (o_name org_data))]
     ++ when_str (o_abbreviation org_data) (fun a =>
          [(uri, LEUPH "abbreviation", lit a)])
     ++ when_str (o_description org_data) (fun d =>
          [(uri, LEUPH "description", lit_en d);
           (uri, DC "description", lit_en d)])
     ++ when_str (o_parent org_data) (fun parent =>
          let parent_uri := uri_from_string parent in
          [(uri, LEUPH "partOf", parent_uri);
           (parent_uri, LEUPH "hasPart", uri)]
          ++ (if eqb org_type (str "Institute")
              then [(uri, LEUPH "belongsTo", parent_uri)] else []))
     ++ when_str (o_webpage org_data) (fun w =>
          [(uri, LEUPH "webpage", URIRef w); (uri, FOAF "homepage", URIRef w)])
     ++ when_str (o_address org_data) (fun a =>
          [(uri, LEUPH "address", lit a)])).

Definition category_mapping : list (string * term) :=
  [("Professor", LEUPH "Professor");
   ("JuniorProfessor", LEUPH "JuniorProfessor");
   ("HonoraryProfessor", LEUPH "HonoraryProfessor");
   ("EmeritusProfessor", LEUPH "EmeritusProfessor");
   ("VisitingProfessor", LEUPH "VisitingProfessor");
   ("AdjunctProfessor", LEUPH "AdjunctProfessor");
   ("ResearchAssistant", LEUPH "ResearchAssistant");
   ("PostDoc", LEUPH "PostDoc"); ("PhDStudent", LEUPH "PhDStudent");
   ("Lecturer", LEUPH "Lecturer");
   ("VisitingScientist", LEUPH "VisitingScientist");
   ("StudentAssistant", LEUPH "StudentAssistant");
   ("AdministrativeStaff", LEUPH "AdministrativeStaff");
   ("AcademicStaff", LEUPH "AcademicStaff")]%string.

(** The loop of [add_person] over the institutes of the graph, with its
    variable [institute_uri]. *)
Fixpoint institute_loop (g : graph) (institute_abbrev : pystr)
    (institute_uri : option term) (cands : list term) : option term :=
  match cands with
  | [] => institute_uri
  | s :: rest =>
      let institute_uri :=
        if existsb (fun abbrev => eqb (upper (term_str abbrev)) institute_abbrev)
             (objects g s (LEUPH "abbreviation"))
        then Some s else institute_uri in
      let institute_uri :=
        if negb (node_set institute_uri)
           && contains (lower institute_abbrev) (lower (term_str s))
        then Some s else institute_uri in
      if node_set institute_uri then institute_uri
      else institute_loop g institute_abbrev institute_uri rest
  end.

(** The loops over research centers and chairs: the first subject whose
    lower-cased uri contains the lower-cased abbreviation. *)
Definition containing_loop (institute_abbrev : pystr)
    (institute_uri : option term) (cands : list term) : option term :=
  match find (fun s => contains (lower institute_abbrev) (lower (term_str s)))
          cands with
  | Some s => Some s
  | None => institute_uri
  end.

Definition find_institute (g : graph) (institute : pystr) : option term :=
  let institute_abbrev := upper institute in
  let institute_uri :=
    institute_loop g institute_abbrev None
      (subjects g RDF_type (LEUPH "Institute")) in
  let institute_uri :=
    if node_set institute_uri then institute_uri
    else containing_loop institute_abbrev institute_uri
           (subjects g RDF_type (LEUPH "ResearchCenter")) in
  if node_set institute_uri then institute_uri
  else containing_loop institute_abbrev institute_uri
         (subjects g RDF_type (LEUPH "Chair")).

Definition add_person (g : graph) (person_data : Person) : graph :=
  let uri := uri_from_string (p_uri person_data) in
  let rdf_type :=
    match p_category person_data with
    | Some category => table_get category_mapping category (LEUPH "AcademicStaff")
    | None => LEUPH "AcademicStaff"
    end in
  let g := add_all g
    ([(uri, RDF_type, rdf_type);
      (uri, RDF_type, FOAF "Person");
      (uri, LEUPH "name", lit (p_name person_data));
      (uri, RDFS_label, lit (p_name person_data));
      (uri, FOAF "name", lit (p_name person_data))]
     ++ when_str (p_first_name person_data) (fun n =>
          [(uri, LEUPH "firstName", lit n); (uri, FOAF "firstName", lit n)])
     ++ when_str (p_last_name person_data) (fun n =>
          [(uri, LEUPH "lastName", lit n); (uri, FOAF "lastName", lit n)])
     ++ when_str (p_title person_data) (fun t => [(uri, LEUPH "title", lit t)])
     ++ when_str (p_email person_data) (fun email =>
          [(uri, LEUPH "email", lit email);
           (uri, FOAF "mbox", URIRef (str "mailto:" ++ email))])
     ++ when_str (p_phone person_data) (fun x => [(uri, LEUPH "phone", lit x)])
     ++ when_str (p_office person_data) (fun x =>
          [(uri, LEUPH "office", lit x)])
     ++ when_str (p_webpage person_data) (fun w =>
          [(uri, LEUPH "webpage", URIRef w);
           (uri, FOAF "homepage", URIRef w)])) in
  let org_linked := false in
  let '(g, org_linked) :=
    match p_institute person_data with
    | Some ((_ :: _) as institute) =>
        let institute_uri := find_institute g institute in
        match institute_uri with
        | Some i =>
            if node_set institute_uri
            then (add_all g [(uri, LEUPH "memberOf", i);
                             (i, LEUPH "hasMember", uri)], true)
            else (g, org_linked)
        | None => (g, org_linked)
        end
    | _ => (g, org_linked)
    end in
  let '(g, org_linked) :=
    match p_school person_data with
    | Some ((_ :: _) as school) =>
        let school_uri := name_to_uri (str "school") school in
        (add_all g [(uri, LEUPH "worksAt", school_uri);
                    (school_uri, LEUPH "hasEmployee", uri)], true)
    | _ => (g, org_linked)
    end in
  let g :=
    if negb org_linked
    then add_all g [(uri, LEUPH "affiliatedWith", university_uri);
                    (university_uri, LEUPH "hasAffiliate", uri)]
    else g in
  add_all g
    (map (fun area => (uri, LEUPH "hasResearchArea", lit area))
       (p_research_areas person_data)).

Definition program_type_mapping : list (string * term) :=
  [("BachelorProgram", LEUPH "BachelorProgram");
   ("MasterProgram", LEUPH "MasterProgram");
   ("DoctoralProgram", LEUPH "DoctoralProgram");
   ("StudyProgram", LEUPH "StudyProgram")]%string.

Definition add_program (g : graph) (program_data : StudyProgram) : graph :=
  let uri := uri_from_string (sp_uri program_data) in
  let rdf_type :=
    table_get program_type_mapping (sp_program_type program_data)
      (LEUPH "StudyProgram") in
  let g := add_all g
    ([(uri, RDF_type, rdf_type);
      (uri, LEUPH "name", lit_en (sp_name program_data));
      (uri, RDFS_label, lit_en (sp_name program_data))]
     ++ when_str (sp_description program_data) (fun d =>
          [(uri, LEUPH "description", lit_en d)])
     ++ when_str (sp_duration program_data) (fun d =>
          [(uri, LEUPH "duration", lit d)])
     ++ when_str (sp_language program_data) (fun l =>
          [(uri, LEUPH "language", lit l)])) in
  let g :=
    match sp_offered_by program_data with
    | Some ((_ :: _) as offered_by) =>
        let offered_by_uri := _resolve_org_uri g offered_by in
        add_all g [(uri, LEUPH "offeredBy", offered_by_uri);
                   (offered_by_uri, LEUPH "offers", uri)]
    | _ =>
        add_all g [(uri, LEUPH "offeredBy", university_uri);
                   (university_uri, LEUPH "offers", uri)]
    end in
  add_all g
    (when_str (sp_webpage program_data) (fun w =>
       [(uri, LEUPH "webpage", URIRef w)])).

Definition add_chair (g : graph) (chair_data : Chair) : graph :=
  let uri := uri_from_string (c_uri chair_data) in
  add_all g
    ([(uri, RDF_type, LEUPH "Chair");
      (uri, RDF_type, FOAF "Organization");
      (uri, LEUPH "name", lit_en (c_name chair_data));
      (uri, RDFS_label, lit_en (c_name chair_data))]
     ++ when_str (c_description chair_data) (fun d =>
          [(uri, LEUPH "description", lit_en d)])
     ++ match c_parent chair_data with
        | Some ((_ :: _) as parent) =>
            let parent_uri := uri_from_string parent in
            [(uri, LEUPH "partOf", parent_uri);
             (parent_uri, LEUPH "hasPart", uri)]
        | _ =>
            [(uri, LEUPH "partOf", university_uri);
             (university_uri, LEUPH "hasPart", uri)]
        end
     ++ when_str (c_headed_by chair_data) (fun h =>
          let professor_uri := uri_from_string h in
          [(professor_uri, LEUPH "heads", uri);
           (uri, LEUPH "headedBy", professor_uri)])
     ++ flat_map (fun member_uri_str =>
          let member_uri := uri_from_string member_uri_str in
          [(member_uri, LEUPH "memberOf", uri);
           (uri, LEUPH "hasMember", member_uri)])
          (c_team_members chair_data)
     ++ when_str (c_webpage chair_data) (fun w =>
          [(uri, LEUPH "webpage", URIRef w);
           (uri, FOAF "homepage", URIRef w)])).

Definition add_hiwi_position (g : graph) (hiwi_data : HiwiPosition) : graph :=
  let uri := uri_from_string (h_uri hiwi_data) in
  add_all g
    ([(uri, RDF_type, LEUPH "HiwiPosition");
      (uri, LEUPH "name", lit_en (h_title hiwi_data));
      (uri, RDFS_label, lit_en (h_title hiwi_data))]
     ++ when_str (h_description hiwi_data) (fun d =>
          [(uri, LEUPH "description", lit_en d)])
     ++ when_str (h_department hiwi_data) (fun department =>
          let dept_uri := name_to_uri (str "institute") department in
          [(uri, LEUPH "postedBy", dept_uri)])
     ++ when_str (h_contact_email hiwi_data) (fun e =>
          [(uri, LEUPH "contactEmail", lit e)])
     ++ when_str (h_posted_date hiwi_data) (fun d =>
          [(uri, LEUPH "postedDate", lit_date d)])
     ++ when_str (h_hours_per_week hiwi_data) (fun h =>
          [(uri, LEUPH "hoursPerWeek", lit h)])
     ++ when_str (h_webpage hiwi_data) (fun w =>
          [(uri, LEUPH "webpage", URIRef w)])).

Definition add_minor (g : graph) (minor_data : Minor) : graph :=
  let uri := uri_from_string (m_uri minor_data) in
  add_all g
    ([(uri, RDF_type, LEUPH "Minor");
      (uri, LEUPH "name", lit_en (m_name minor_data));
      (uri, RDFS_label, lit_en (m_name minor_data))]
     ++ when_str (m_name_de minor_data) (fun n =>
          [(uri, LEUPH "name", lit_de n); (uri, RDFS_label, lit_de n)])
     ++ when_str (m_description minor_data) (fun d =>
          [(uri, LEUPH "description", lit_de d)])
     ++ when_int (m_credit_points minor_data) (fun c =>
          [(uri, LEUPH "credits", lit_integer c)])
     ++ when_str (m_offered_by minor_data) (fun o =>
          let offered_by_uri := uri_from_string o in
          [(uri, LEUPH "offeredBy", offered_by_uri);
           (offered_by_uri, LEUPH "offers", uri)])
     ++ when_str (m_webpage minor_data) (fun w =>
          [(uri, LEUPH "webpage", URIRef w)])).

Definition add_research_project (g : graph) (project_data : ResearchProject)
  : graph :=
  let uri := uri_from_string (rp_uri project_data) in
  let g := add_all g
    ([(uri, RDF_type, LEUPH "ResearchProject");
      (uri, LEUPH "name", lit_en (rp_name project_data));
      (uri, RDFS_label, lit_en (rp_name project_data))]
     ++ when_str (rp_description project_data) (fun d =>
          [(uri, LEUPH "description", lit d)])) in
  let g :=
    match rp_conducted_by project_data with
    | Some ((_ :: _) as conducted_by) =>
        let org_uri := _resolve_org_uri g conducted_by in
        add_all g [(uri, LEUPH "conductedBy", org_uri);
                   (org_uri, LEUPH "conducts", uri)]
    | _ =>
        add_all g [(uri, LEUPH "conductedBy", university_uri);
                   (university_uri, LEUPH "conducts", uri)]
    end in
  add_all g
    (when_str (rp_principal_investigator project_data) (fun pi =>
       let pi_uri := uri_from_string pi in
       [(pi_uri, LEUPH "worksOn", uri)])
     ++ when_str (rp_funding_source project_data) (fun f =>
          [(uri, LEUPH "fundingSource", lit f)])
     ++ when_str (rp_start_date project_data) (fun d =>
          [(uri, LEUPH "startDate", lit_date d)])
     ++ when_str (rp_end_date project_data) (fun d =>
          [(uri, LEUPH "endDate", lit_date d)])
     ++ when_str (rp_webpage project_data) (fun w =>
          [(uri, LEUPH "webpage", URIRef w)])).

Definition add_course (g : graph) (course_data : Course) : graph :=
  let uri := uri_from_string (co_uri course_data) in
  add_all g
    ([(uri, RDF_type, LEUPH "Course");
      (uri, RDF_type, SCHEMA "Course");
      (uri, LEUPH "name", lit_en (co_name course_data));
      (uri, RDFS_label, lit_en (co_name course_data))]
     ++ when_str (co_description course_data) (fun d =>
          [(uri, LEUPH "description", lit_en d)])
     ++ when_int (co_credit_points course_data) (fun c =>
          [(uri, LEUPH "credits", lit_integer c)])
     ++ when_str (co_course_type course_data) (fun t =>
          [(uri, LEUPH "courseType", lit t)])
     ++ when_str (co_semester course_data) (fun x =>
          [(uri, LEUPH "semester", lit x)])
     ++ when_str (co_language course_data) (fun l =>
          [(uri, LEUPH "language", lit l)])
     ++ match co_part_of_program course_data with
        | Some ((_ :: _) as program) =>
            let program_uri := uri_from_string program in
            [(uri, LEUPH "partOf", program_uri);
             (program_uri, LEUPH "hasPart", uri)]
        | _ =>
            [(uri, LEUPH "offeredBy", college_uri);
             (college_uri, LEUPH "offers", uri)]
        end
     ++ flat_map (fun instructor_uri_str =>
          let instructor_uri := uri_from_string instructor_uri_str in
          [(instructor_uri, LEUPH "teaches", uri);
           (uri, LEUPH "taughtBy", instructor_uri)])
          (co_taught_by course_data)
     ++ when_str (co_webpage course_data) (fun w =>
          [(uri, LEUPH "webpage", URIRef w)])).

(** The three core units of [_create_core_academic_units]: uri, name and
    description. *)
Definition core_units : list (pystr * pystr * pystr) :=
  [(INSTANCE_NS ++ str "school/college", str "College",
    str "Leuphana College offers undergraduate (Bachelor) programs");
   (INSTANCE_NS ++ str "school/graduate-school", str "Graduate School",
    str "Leuphana Graduate School offers Master's programs");
   (INSTANCE_NS ++ str "school/professional-school", str "Professional School",
    str "Leuphana Professional School offers professional and continuing education programs")].

Definition create_core_unit (g : graph) (unit : pystr * pystr * pystr)
  : graph :=
  let '(unit_uri, name, description) := unit in
  let uri := URIRef unit_uri in
  if negb (graph_mem g (uri, RDF_type, LEUPH "School")) then
    add_all g
      [(uri, RDF_type, LEUPH "School");
       (uri, LEUPH "name", lit_en name);
       (uri, RDFS_label, lit_en name);
       (uri, LEUPH "description", lit_en description);
       (uri, LEUPH "partOf", university_uri);
       (university_uri, LEUPH "hasPart", uri)]
  else g.

Definition _create_core_academic_units (g : graph) : graph :=
  fold_left create_core_unit core_units g.

(** The combined JSON document: one collection per entity kind, each in the
    order of its entries. *)
Record document := {
  d_organizations : list Organization;
  d_chairs : list Chair;
  d_hiwi_positions : list HiwiPosition;
  d_persons : list Person;
  d_programs : list StudyProgram;
  d_minors : list Minor;
  d_research_projects : list ResearchProject;
  d_courses : list Course
}.

Definition load_from_json (g : graph) (data : document) : graph :=
  let g := fold_left add_organization (d_organizations data) g in
  let g := _create_core_academic_units g in
  let g := fold_left add_chair (d_chairs data) g in
  let g := fold_left add_hiwi_position (d_hiwi_positions data) g in
  let g := fold_left add_person (d_persons data) g in
  let g := fold_left add_program (d_programs data) g in
  let g := fold_left add_minor (d_minors data) g in
  let g := fold_left add_research_project (d_research_projects data) g in
  fold_left add_course (d_courses data) g.

End WithUnicode.

End RdfGenerator.

(* ===================================================================== *)
(** ** The specification's descriptions, as definitions of their own *)
(* ===================================================================== *)

Module Spec.
Import Scraper RdfGenerator.

Section WithUnicode.
Context {U : UnicodeDB}.

(** Section 4.2: an ordered list of (predicate, category) pairs evaluated
    top to bottom on the combined text, first match wins, with a default. *)
Definition rule := ((pystr -> bool) * Category)%type.

Definition any_of (markers : list pystr) (combined : pystr) : bool :=
  existsb (fun m => contains m combined) markers.

Definition junior_markers : list pystr :=
  [str "juniorprof"; str "junior professor"; str "jun.-prof"].

Definition person_category_rules : list rule :=
  [(any_of junior_markers, JuniorProfessor);
   (any_of [str "honorar"; str "honorary"], HonoraryProfessor);
   (any_of [str "emerit"], EmeritusProfessor);
   (any_of [str "gastprof"; str "visiting prof"], VisitingProfessor);
   (any_of [str "apl."; str "adjunct"; ausserplanmaessig], AdjunctProfessor);
   (any_of [str "prof."; str "professor"], Professor);
   (any_of [str "post-doc"; str "postdoc"], PostDoc);
   (any_of [str "phd"; str "doktorand"; str "doctoral"], PhDStudent);
   (any_of [str "lecturer"; str "lektor"; str "lehrbeauft"], Lecturer);
   (any_of [str "research assistant"; str "wissenschaftl"], ResearchAssistant);
   (any_of [str "visiting scientist"; str "gastwissenschaft"],
    VisitingScientist);
   (any_of [str "hiwi"; str "student assistant"; str "hilfskraft"],
    StudentAssistant);
   (fun combined =>
      contains (str "dr.") combined && negb (contains (str "prof") combined),
    PostDoc)].

Fixpoint first_match (rules : list rule) (default : Category)
    (combined : pystr) : Category :=
  match rules with
  | [] => default
  | (applies, category) :: rest =>
      if applies combined then category
      else first_match rest default combined
  end.

(** Section 4.1: lower-case, strip characters outside [a-z0-9, space,
    hyphen], collapse whitespace runs to single hyphens, collapse repeated
    hyphens, trim leading and trailing hyphens. *)
Definition keep_spec (c : N) : bool :=
  in_range 97 122 c || in_range 48 57 c || N.eqb c space || is_hyphen c.

Definition spec_slug (name : pystr) : pystr :=
  let s := lower name in
  let s := filter keep_spec s in
  let s := re_sub_runs isspace (str "-") false s in
  let s := re_sub_runs is_hyphen (str "-") false s in
  strip_by is_hyphen s.

Definition spec_uri (kind name : pystr) : pystr :=
  INSTANCE_NS ++ kind ++ str "/" ++ spec_slug name.

(** The slug as [create_uri] makes it: word characters, whitespace and
    hyphens are kept, whitespace is trimmed at both ends, whitespace runs
    become single hyphens, hyphen runs are collapsed. *)
Definition create_slug (name : pystr) : pystr :=
  re_sub_runs is_hyphen (str "-") false
    (re_sub_runs isspace (str "-") false
       (strip (filter keep_word_space_hyphen (lower name)))).

(** Section 4.5: exact uri; abbreviation attribute of a candidate of the
    hinted kind; substring match of the trailing path segment against the
    uri or the display name of a candidate of the hinted kind; the same
    substring search over all organisations; the University root.  The kind
    hint is the path segment before the last one, as in the source. *)
Definition abbreviation_matches (g : graph) (slug : pystr) (s : term) : bool :=
  existsb (fun a => eqb (lower (term_str a)) slug)
    (objects g s (LEUPH "abbreviation")).

Definition substring_matches (g : graph) (slug : pystr) (s : term) : bool :=
  contains slug (lower (term_str s))
  || existsb (fun n => contains slug (lower (term_str n)))
       (objects g s (LEUPH "name")).

Definition organization_classes : list term :=
  map snd org_type_mapping ++ [FOAF "Organization"].

Definition all_organizations (g : graph) : list term :=
  flat_map (fun cls => subjects g RDF_type cls) organization_classes.

Definition spec_resolve (g : graph) (soft_ref : pystr) : term :=
  let uri := URIRef soft_ref in
  if has_subject_predicate g uri RDF_type then uri
  else
    let parts := split_on slash [] (rstrip_by (N.eqb slash) soft_ref) in
    let slug := abbrev_of parts in
    let hinted :=
      match type_to_class (entity_type_of parts) with
      | Some cls => subjects g RDF_type cls
      | None => []
      end in
    match find (abbreviation_matches g slug) hinted with
    | Some s => s
    | None =>
      match find (substring_matches g slug) hinted with
      | Some s => s
      | None =>
        match find (substring_matches g slug) (all_organizations g) with
        | Some s => s
        | None => university_uri
        end
      end
    end.

End WithUnicode.

(** Section 4.6: the relationships that come with a named inverse. *)
Definition inverse_pairs : list (string * string) :=
  [("partOf", "hasPart"); ("memberOf", "hasMember");
   ("worksAt", "hasEmployee"); ("affiliatedWith", "hasAffiliate");
   ("offeredBy", "offers"); ("heads", "headedBy");
   ("conductedBy", "conducts"); ("teaches", "taughtBy")]%string.

Fixpoint inverse_in (tbl : list (string * string)) (p : term) : option term :=
  match tbl with
  | [] => None
  | (a, b) :: rest =>
      if term_eqb p (LEUPH a) then Some (LEUPH b)
      else if term_eqb p (LEUPH b) then Some (LEUPH a)
      else inverse_in rest p
  end.

Definition inverse_of (p : term) : option term := inverse_in inverse_pairs p.

(** Every triple over a paired predicate has its mirror image in the graph,
    whichever of the two directions it uses. *)
Definition bidirectional (g : graph) : Prop :=
  forall s p o q,
    inverse_of p = Some q -> In (s, p, o) g -> In (o, q, s) g.

(** [g'] has all the triples of [g]: nothing is ever removed. *)
Definition extends (g g' : graph) : Prop := forall x, In x g -> In x g'.

(** The relationship from [s] to [o] is in the graph in both directions:
    forward over [p] and back over [q]. *)
Definition paired (g : graph) (s : term) (p q : string) (o : term) : Prop :=
  In (s, LEUPH p, o) g /\ In (o, LEUPH q, s) g.

End Spec.

(* ===================================================================== *)
(** ** Sample data *)
(* ===================================================================== *)

Module Examples.
Import Scraper RdfGenerator Spec Latin1.

Definition listed (name url : string) : person_link :=
  {| l_href := str url; l_person_url := str url; l_allowed := true;
     l_text := str name; l_email := None |}.

Definition organization (kind uri name : string) (abbreviation : option string)
  : Organization :=
  {| o_uri := str uri; o_name := str name; o_org_type := str kind;
     o_abbreviation := option_map str abbreviation; o_description := None;
     o_parent := Some (str "http://leuphana.de/resource/university/leuphana");
     o_webpage := None; o_address := None; o_members := [];
     o_source_url := [] |}.

Definition library_science : Organization :=
  organization "Institute"
    "http://leuphana.de/resource/institute/library-science"
    "Library Science" None.

Definition institute_of_banking : Organization :=
  organization "Institute"
    "http://leuphana.de/resource/institute/institute-of-banking"
    "Institute of Banking" (Some "IB"%string).

Definition institute_seven : Organization :=
  organization "Institute" "http://leuphana.de/resource/institute/inst-7"
    "Institute of Ecology" None.

Definition data_science_group : Organization :=
  organization "ResearchGroup"
    "http://leuphana.de/resource/research-group/data-science-group"
    "Data Science Group" None.

Definition two_institutes : graph :=
  add_organization (add_organization [] library_science) institute_of_banking.

Definition hiwi_posting : HiwiPosition :=
  {| h_uri := str "http://leuphana.de/resource/hiwi-position/tutor-statistics";
     h_title := str "Tutor Statistics"; h_description := None;
     h_department := Some (str "Institute of Ecology");
     h_contact_person := None; h_contact_email := None;
     h_posted_date := None; h_hours_per_week := None; h_webpage := None;
     h_source_url := [] |}.

Definition project : ResearchProject :=
  {| rp_uri := str "http://leuphana.de/resource/project/soil";
     rp_name := str "Soil"; rp_description := None; rp_conducted_by := None;
     rp_principal_investigator :=
       Some (str "http://leuphana.de/resource/person/maria-klein");
     rp_funding_source := None; rp_start_date := None; rp_end_date := None;
     rp_webpage := None; rp_source_url := [] |}.

Definition course : Course :=
  {| co_uri := str "http://leuphana.de/resource/course/seminar-ethics";
     co_name := str "Seminar Ethics"; co_description := None;
     co_credit_points := Some 5%Z; co_course_type := None;
     co_part_of_program := None; co_taught_by := []; co_semester := None;
     co_language := None; co_webpage := None; co_source_url := [] |}.

Definition one_course : document :=
  {| d_organizations := []; d_chairs := []; d_hiwi_positions := [];
     d_persons := []; d_programs := []; d_minors := [];
     d_research_projects := []; d_courses := [course] |}.

Definition page (name : string) (email phone : option string) : profile_page :=
  {| pp_name := Some (str name); pp_email := option_map str email;
     pp_phone := option_map str phone; pp_office := None; pp_text := [];
     pp_institute := None |}.

Definition posting_page (description : option string) : hiwi_page :=
  {| hp_h1 := None; hp_description := option_map str description;
     hp_text := []; hp_email := None; hp_hours := None;
     hp_posted_date := None |}.

Definition prof_anna_schmidt : Person :=
  {| p_uri := str "http://leuphana.de/resource/person/prof-dr-anna-schmidt";
     p_name := str "Prof. Dr. Anna Schmidt";
     p_first_name := Some (str "Anna"); p_last_name := Some (str "Schmidt");
     p_title := Some (str "Prof. Dr."); p_category := Some (str "Professor");
     p_email := None; p_phone := None; p_office := None; p_webpage := None;
     p_institute := None; p_school := None; p_research_areas := [];
     p_image_url := None; p_source_url := [] |}.

Definition one_professor : state :=
  with_persons empty_state [(p_uri prof_anna_schmidt, prof_anna_schmidt)].

(** "Institut fuer Oekologie", with its umlauts. *)
Definition institut_fuer_oekologie : pystr :=
  str "Institut f" ++ u_uml :: str "r " ++ O_uml :: str "kologie".

(** The institute of [SCHOOLS_STRUCTURE] in [config.py] whose name is not
    ASCII: after "L" it has the code points U+00C3 and U+00BC. *)
Definition luenelab_name : pystr :=
  str "Institute of Experimental Industrial Psychology - L"
  ++ 195%N :: 188%N :: str "neLab".

(** The institute as [scrape_institute] registers it, and a Hiwi posting
    whose page mentions it, as [_scrape_single_hiwi_position] registers it. *)
Definition luenelab : Organization :=
  {| o_uri := create_uri (str "institute") luenelab_name;
     o_name := luenelab_name; o_org_type := str "Institute";
     o_abbreviation := None; o_description := None;
     o_parent :=
       Some (create_uri (str "school")
               (str "School of Management and Technology"));
     o_webpage := Some (str "https://www.leuphana.de/en/institutes/luenelab.html");
     o_address := None; o_members := [];
     o_source_url := str "https://www.leuphana.de/en/institutes/luenelab.html" |}.

Definition luenelab_posting : HiwiPosition :=
  {| h_uri := create_uri (str "hiwi-position") (str "Student assistant");
     h_title := str "Student assistant"; h_description := None;
     h_department := Some luenelab_name;
     h_contact_person := None; h_contact_email := None;
     h_posted_date := None; h_hours_per_week := None; h_webpage := None;
     h_source_url := [] |}.

Definition luenelab_document : document :=
  {| d_organizations := [luenelab]; d_chairs := [];
     d_hiwi_positions := [luenelab_posting];
     d_persons := []; d_programs := []; d_minors := [];
     d_research_projects := []; d_courses := [] |}.

End Examples.

(* ===================================================================== *)
(** ** Further parts of the source *)
(* ===================================================================== *)

(** *** scraper.py: sitemap lines, schools, the university, courses *)
Module ScraperMore.
Import Scraper RdfGenerator.

Definition tab : N := 9.

(** ["Leuphana University of Lueneburg"], with its umlaut. *)
Definition university_name : pystr :=
  str "Leuphana University of L" ++ u_uml :: str "neburg".

Section WithUnicode.
Context {U : UnicodeDB}.

(** What [load_sitemap_urls] does with one line of the file. *)
Definition sitemap_line_url (line : pystr) : option pystr :=
  if startswith line (str "TYPO3") || startswith line (str "This XML")
     || startswith line (str "URL")
  then None
  else
    let url := strip (hd [] (split_on tab [] line)) in
    match url with
    | [] => None
    | _ => if startswith url (str "http") then Some url else None
    end.

(** [load_sitemap_urls]; the file is given by its lines, [None] when it
    does not exist ([FileNotFoundError] is caught). *)
Definition load_sitemap_urls (sitemap_file : option (list pystr))
  : list pystr :=
  match sitemap_file with
  | None => []
  | Some lines =>
      flat_map (fun line =>
                  match sitemap_line_url line with
                  | Some url => [url]
                  | None => []
                  end) lines
  end.

(** [scrape_school]; [description] is what the page gave, cut to 500
    characters, [None] without page or without the element. *)
Definition scrape_school (name full_url : pystr) (description : option pystr)
    (orgs : dict Organization) : Organization * dict Organization :=
  let school :=
    {| o_uri := create_uri (str "school") name;
       o_name := name;
       o_org_type := str "School";
       o_abbreviation := None;
       o_description := description;
       o_parent := Some (str "http://leuphana.de/resource/university/leuphana");
       o_webpage := Some full_url;
       o_address := None;
       o_members := [];
       o_source_url := full_url |} in
  (school, dict_set orgs (o_uri school) school).

Definition create_university_entity (orgs : dict Organization)
  : dict Organization :=
  let university :=
    {| o_uri := str "http://leuphana.de/resource/university/leuphana";
       o_name := university_name;
       o_org_type := str "University";
       o_abbreviation := Some (str "Leuphana");
       o_description :=
         Some (university_name
               ++ str " is a public university in L" ++ u_uml
               :: str "neburg, Lower Saxony, Germany.");
       o_parent := None;
       o_webpage := Some (str "https://www.leuphana.de/en");
       o_address :=
         Some (str "Universit" ++ a_uml :: str "tsallee 1, 21335 L"
               ++ u_uml :: str "neburg, Germany");
       o_members := [];
       o_source_url := str "https://www.leuphana.de/en" |} in
  dict_set orgs (o_uri university) university.

(** The course type [_create_course_entity] reads off the name when none is
    given. *)
Definition infer_course_type (name : pystr) : option pystr :=
  let name_lower := lower name in
  let has := fun marker => contains marker name_lower in
  if has (str "seminar") then Some (str "Seminar")
  else if has (str "vorlesung") || has (str "lecture")
  then Some (str "Lecture")
  else if has (u_uml :: str "bung") || has (str "tutorial")
  then Some (str "Tutorial")
  else if has (str "praktikum") || has (str "lab") then Some (str "Practical")
  else if has (str "projekt") || has (str "project") then Some (str "Project")
  else None.

(** [_create_course_entity] on the two dictionaries it touches. *)
Definition _create_course_entity (name : pystr) (instructor_name : option pystr)
    (credits : option Z) (program_uri : option pystr)
    (course_type : option pystr) (source_url : pystr)
    (ps : dict Person) (cs : dict Course) : dict Person * dict Course :=
  let name := strip name in
  if (List.length name <? 3)%nat then (ps, cs)
  else
    let course_uri := create_uri (str "course") name in
    if dict_mem cs course_uri then (ps, cs)
    else
      let '(taught_by, ps) :=
        match instructor_name with
        | Some ((_ :: _) as instructor_name) =>
          let instructor_name := strip instructor_name in
          match find_person_either_way ps instructor_name with
          | Some person_uri => ([person_uri], ps)
          | None =>
            if contains (str "Prof.") instructor_name
               || contains (str "Dr.") instructor_name
            then
              let '(first_name, last_name, title) :=
                extract_name_parts instructor_name in
              let new_person :=
                {| p_uri := create_uri (str "person") instructor_name;
                   p_name := instructor_name;
                   p_first_name := first_name;
                   p_last_name := Some last_name;
                   p_title := title;
                   p_category :=
                     Some (if contains (str "Prof.") instructor_name
                           then str "Professor" else str "Lecturer");
                   p_email := None; p_phone := None; p_office := None;
                   p_webpage := None; p_institute := None; p_school := None;
                   p_research_areas := []; p_image_url := None;
                   p_source_url := source_url |} in
              ([p_uri new_person],
               dict_set ps (p_uri new_person) new_person)
            else ([], ps)
          end
        | _ => ([], ps)
        end in
      let course_type :=
        match course_type with
        | Some (_ :: _) => course_type
        | _ => match infer_course_type name with
               | Some t => Some t
               | None => course_type
               end
        end in
      let course :=
        {| co_uri := course_uri; co_name := name; co_description := None;
           co_credit_points := credits; co_course_type := course_type;
           co_part_of_program := program_uri; co_taught_by := taught_by;
           co_semester := None; co_language := None; co_webpage := None;
           co_source_url := source_url |} in
      (ps, dict_set cs course_uri course).

(** Whitespace and hyphens, the characters both canonicalisers turn into
    the hyphens of a slug. *)
Definition is_separator (c : N) : bool := isspace c || is_hyphen c.

(** The characters of a slug of [name_to_uri]. *)
Definition slug_char (c : N) : bool :=
  in_range 97 122 c || in_range 48 57 c || is_hyphen c.

(** The slug [name_to_uri] puts behind [<instance-ns>kind/]. *)
Definition name_slug (name : pystr) : pystr :=
  strip_by is_hyphen
    (re_sub_runs is_hyphen (str "-") false
       (re_sub_runs isspace (str "-") false
          (re_delete_outside keep_lower_digit_space_hyphen (lower name)))).

End WithUnicode.

(** The six professor ranks among the categories. *)
Definition is_professor_rank (c : Category) : bool :=
  match c with
  | JuniorProfessor | HonoraryProfessor | EmeritusProfessor
  | VisitingProfessor | AdjunctProfessor | Professor => true
  | _ => false
  end.

(** Every entry of a dictionary sits under the uri its record carries. *)
Definition keyed_by {V} (uri_of : V -> pystr) (d : dict V) : Prop :=
  Forall (fun kv => fst kv = uri_of (snd kv)) d.

(** The keys of a dictionary. *)
Definition keys {V} (d : dict V) : list pystr := map fst d.

(** The records of a dictionary sit under their own uris, and no uri occurs
    twice. *)
Definition unique_uris {V} (uri_of : V -> pystr) (d : dict V) : Prop :=
  keyed_by uri_of d /\ NoDup (keys d).

(** The guards of the loop of [scrape_person_list_page] that make it pass
    over a link. *)
Definition link_skipped (st : state) (link : person_link) : bool :=
  match l_href link with
  | [] => true
  | _ =>
      set_mem (visited_urls st) (l_person_url link)
      || negb (l_allowed link)
      || (List.length (l_text link) <? 3)%nat
  end.

End ScraperMore.

(** *** rdf_generator.py: the statistics *)
Module Statistics.
Import Scraper RdfGenerator.

Record statistics := {
  total_triples : nat;
  universities : nat;
  schools : nat;
  institutes : nat;
  research_centers : nat;
  stat_chairs : nat;
  stat_hiwi_positions : nat;
  professors : nat;
  stat_persons : nat;
  programs : nat;
  minors : nat;
  courses : nat;
  research_projects : nat;
  heads_relationships : nat;
  teaches_relationships : nat
}.

(** [g.subject_objects(p)] *)
Definition subject_objects (g : graph) (p : term) : list (term * term) :=
  map (fun t => (fst (fst t), snd t))
    (filter (fun t => term_eqb (snd (fst t)) p) g).

(** [len(list(g.subjects(RDF.type, cls)))] *)
Definition count_type (g : graph) (cls : term) : nat :=
  List.length (subjects g RDF_type cls).

Definition get_statistics (g : graph) : statistics :=
  {| total_triples := List.length g;
     universities := count_type g (LEUPH "University");
     schools := count_type g (LEUPH "School");
     institutes := count_type g (LEUPH "Institute");
     research_centers := count_type g (LEUPH "ResearchCenter");
     stat_chairs := count_type g (LEUPH "Chair");
     stat_hiwi_positions := count_type g (LEUPH "HiwiPosition");
     professors := count_type g (LEUPH "Professor");
     stat_persons := count_type g (FOAF "Person");
     programs := count_type g (LEUPH "StudyProgram");
     minors := count_type g (LEUPH "Minor");
     courses := count_type g (LEUPH "Course");
     research_projects := count_type g (LEUPH "ResearchProject");
     heads_relationships := List.length (subject_objects g (LEUPH "heads"));
     teaches_relationships :=
       List.length (subject_objects g (LEUPH "teaches")) |}.

(** Subjects and predicates are uri references; literals stand in object
    position only. *)
Definition is_uri (t : term) : bool :=
  match t with URIRef _ => true | Literal _ _ _ => false end.

Definition well_formed (g : graph) : Prop :=
  Forall (fun t => is_uri (fst (fst t)) = true /\ is_uri (snd (fst t)) = true) g.

End Statistics.

(** *** Further sample data *)
Module MoreExamples.
Import Scraper RdfGenerator Latin1 Examples.

(** A person whose profile names the institute by its abbreviation. *)
Definition maria_klein : Person :=
  {| p_uri := str "http://leuphana.de/resource/person/maria-klein";
     p_name := str "Maria Klein";
     p_first_name := Some (str "Maria"); p_last_name := Some (str "Klein");
     p_title := None; p_category := Some (str "PostDoc");
     p_email := None; p_phone := None; p_office := None; p_webpage := None;
     p_institute := Some (str "IB"); p_school := None; p_research_areas := [];
     p_image_url := None; p_source_url := [] |}.

Definition staff_page : pystr := str "https://www.leuphana.de/staff.html".

(** A person registered under a name in capitals, and the registry that
    holds nobody else. *)
Definition capital_name (name uri : string) : Person :=
  {| p_uri := str uri; p_name := str name;
     p_first_name := None; p_last_name := None; p_title := None;
     p_category := Some (str "Professor");
     p_email := Some (str "schmidt@leuphana.de"); p_phone := None;
     p_office := None; p_webpage := None; p_institute := None;
     p_school := None; p_research_areas := []; p_image_url := None;
     p_source_url := [] |}.

Definition registered_alone (p : Person) : state :=
  with_persons empty_state [(p_uri p, p)].

(** A chair without parent, with a head and one team member, and the
    document that holds it and one course. *)
Definition public_law : Chair :=
  {| c_uri := str "http://leuphana.de/resource/chair/professorship-for-public-law";
     c_name := str "Professorship for Public Law"; c_description := None;
     c_parent := None; c_headed_by := Some (p_uri prof_anna_schmidt);
     c_webpage := None; c_team_members := [p_uri maria_klein];
     c_source_url := [] |}.

Definition chair_and_course : document :=
  {| d_organizations := []; d_chairs := [public_law]; d_hiwi_positions := [];
     d_persons := []; d_programs := []; d_minors := [];
     d_research_projects := []; d_courses := [course] |}.

End MoreExamples.

(* ===================================================================== *)
(** ** Properties *)
(* ===================================================================== *)

Import Scraper RdfGenerator Spec Latin1 Examples ScraperMore Statistics
  MoreExamples.

(** *** Strings *)

Lemma eqb_eq (a b : pystr) : eqb a b = true <-> a = b.
Proof.
  revert b; induction a as [|x a IH]; intros [|y b]; simpl;
    try (split; [discriminate | discriminate]); [tauto|].
  rewrite andb_true_iff, N.eqb_eq, IH. split.
  - intros [-> ->]; reflexivity.
  - intros E; injection E; auto.
Qed.

Lemma eqb_refl (a : pystr) : eqb a a = true.
Proof. apply eqb_eq; reflexivity. Qed.

Lemma eqb_neq (a b : pystr) : eqb a b = false <-> a <> b.
Proof.
  rewrite <- eqb_eq. destruct (eqb a b); split; congruence.
Qed.

(** *** Person categories (section 4.2) *)

Section Classifier.
Context {U : UnicodeDB}.

Lemma strip_titles_all (toks acc : list pystr) :
  forallb is_title_token toks = true ->
  strip_titles acc toks = (acc ++ toks, []).
Proof.
  revert acc; induction toks as [|tok toks IH]; intros acc H; simpl in *.
  - now rewrite app_nil_r.
  - apply andb_true_iff in H as [Ht Hr]. rewrite Ht, IH by assumption.
    now rewrite <- app_assoc.
Qed.

(** C10. When every whitespace token of the full name is consumed by the
    title-stripping loop (and there is at least one), [extract_name_parts]
    returns no first name, the whole original input as last name, and the
    stripped tokens joined by single spaces as title. *)
Theorem extract_name_parts_only_titles (full_name : pystr) :
  split full_name <> [] ->
  forallb is_title_token (split full_name) = true ->
  extract_name_parts full_name
  = (None, full_name, Some (join (str " ") (split full_name))).
Proof.
  intros Hne Hall. unfold extract_name_parts.
  rewrite (strip_titles_all _ [] Hall). simpl.
  destruct (split full_name) as [|t ts]; [contradiction | reflexivity].
Qed.

(** Without any token (the empty or all-blank name) nothing is stripped and
    the title is absent as well. *)
Lemma extract_name_parts_no_token (full_name : pystr) :
  split full_name = [] ->
  extract_name_parts full_name = (None, full_name, None).
Proof.
  intros E. unfold extract_name_parts. now rewrite E.
Qed.

(** C1 (as amended). [determine_person_category] is the decision list
    [person_category_rules] evaluated top to bottom on the lower-cased
    concatenation of its three inputs, first match winning and
    [AcademicStaff] as default; the categories come in the order of
    section 4.2; and a combined text containing "honorary" and "professor"
    is classified [HonoraryProfessor], unless it carries one of the junior
    professor markers, which are tried before and give [JuniorProfessor];
    it is never classified [Professor]. *)
Theorem determine_person_category_decision_list (text url title : pystr) :
  let combined := combined_text text url title in
  determine_person_category text url title
  = first_match person_category_rules AcademicStaff combined
  /\ map snd person_category_rules
     = [JuniorProfessor; HonoraryProfessor; EmeritusProfessor;
        VisitingProfessor; AdjunctProfessor; Professor; PostDoc; PhDStudent;
        Lecturer; ResearchAssistant; VisitingScientist; StudentAssistant;
        PostDoc]
  /\ (contains (str "honorary") combined = true ->
      contains (str "professor") combined = true ->
      determine_person_category text url title
      = (if any_of junior_markers combined then JuniorProfessor
         else HonoraryProfessor)
      /\ determine_person_category text url title <> Professor).
Proof.
  intros combined. unfold determine_person_category. fold combined.
  generalize combined as c; clear; intros c.
  split; [|split].
  - unfold person_category_rules, first_match, any_of, junior_markers.
    cbn [existsb]. rewrite ?orb_false_r, ?orb_assoc. reflexivity.
  - reflexivity.
  - intros Hh _. unfold any_of, junior_markers. cbn [existsb].
    rewrite ?orb_false_r, ?orb_assoc, Hh, orb_true_r.
    destruct (_ || _ || _); split; congruence.
Qed.

End Classifier.

Lemma determine_person_category_decision_list_witness :
  contains (str "honorary")
    (combined_text (str "Honorary Professor of Law") [] []) = true
  /\ contains (str "professor")
       (combined_text (str "Honorary Professor of Law") [] []) = true
  /\ determine_person_category (str "Honorary Professor of Law") [] []
     = HonoraryProfessor.
Proof.
  split; [reflexivity | split; [reflexivity |]].
  apply (proj1 (proj2 (proj2
    (determine_person_category_decision_list
       (str "Honorary Professor of Law") [] []))
    eq_refl eq_refl)).
Defined.

(** C1, as stated, fails: a combined text with "honorary" and "professor"
    that also carries a junior professor marker is a [JuniorProfessor]. *)
Lemma honorary_professor_not_always :
  contains (str "honorary")
    (combined_text (str "Honorary Junior Professor") [] []) = true
  /\ contains (str "professor")
       (combined_text (str "Honorary Junior Professor") [] []) = true
  /\ determine_person_category (str "Honorary Junior Professor") [] []
     <> HonoraryProfessor.
Proof.
  repeat split; try reflexivity. vm_compute. discriminate.
Qed.

Lemma extract_name_parts_only_titles_witness :
  split (str "Prof. Dr.") <> []
  /\ forallb is_title_token (split (str "Prof. Dr.")) = true
  /\ extract_name_parts (str "Prof. Dr.")
     = (None, str "Prof. Dr.", Some (str "Prof. Dr.")).
Proof.
  split; [vm_compute; discriminate | split; [reflexivity |]].
  apply (extract_name_parts_only_titles (str "Prof. Dr.")).
  - vm_compute; discriminate.
  - reflexivity.
Defined.

(** *** The graph as a set of triples *)

Lemma opt_eqb_eq (a b : option pystr) : opt_eqb a b = true <-> a = b.
Proof.
  destruct a as [a|], b as [b|]; simpl; try (split; congruence).
  rewrite eqb_eq. split; congruence.
Qed.

Lemma lit_eqb_eq (a b : lit_value) : lit_eqb a b = true <-> a = b.
Proof.
  destruct a as [a|a], b as [b|b]; simpl; try (split; congruence).
  - rewrite eqb_eq. split; congruence.
  - rewrite Z.eqb_eq. split; congruence.
Qed.

Lemma term_eqb_eq (a b : term) : term_eqb a b = true <-> a = b.
Proof.
  destruct a as [a|v l d], b as [b|v' l' d']; simpl; try (split; congruence).
  - rewrite eqb_eq. split; congruence.
  - rewrite !andb_true_iff, lit_eqb_eq, !opt_eqb_eq.
    split; [intros [[-> ->] ->]; reflexivity | intros E; injection E; auto].
Qed.

Lemma term_eqb_refl (a : term) : term_eqb a a = true.
Proof. now apply term_eqb_eq. Qed.

Lemma triple_eqb_eq (a b : triple) : triple_eqb a b = true <-> a = b.
Proof.
  destruct a as [[s p] o], b as [[s' p'] o']. simpl.
  rewrite !andb_true_iff, !term_eqb_eq.
  split; [intros [[-> ->] ->]; reflexivity | intros E; injection E; auto].
Qed.

Lemma graph_mem_In (g : graph) (t : triple) : graph_mem g t = true <-> In t g.
Proof.
  unfold graph_mem. rewrite existsb_exists. split.
  - intros (x & Hx & E). apply triple_eqb_eq in E. now subst.
  - intros H. exists t. split; [assumption | now apply triple_eqb_eq].
Qed.

Lemma In_add (g : graph) (t x : triple) : In x (add g t) <-> In x g \/ x = t.
Proof.
  unfold add. destruct (graph_mem g t) eqn:M.
  - apply graph_mem_In in M. split; [auto | intros [H | ->]; assumption].
  - rewrite in_app_iff. simpl. intuition congruence.
Qed.

Lemma In_add_all (ts : list triple) (g : graph) (x : triple) :
  In x (add_all g ts) <-> In x g \/ In x ts.
Proof.
  unfold add_all. revert g; induction ts as [|t ts IH]; intros g; simpl.
  - tauto.
  - rewrite IH, In_add. intuition congruence.
Qed.

Lemma extends_refl g : extends g g.
Proof. intros x H; exact H. Qed.

Lemma extends_trans g1 g2 g3 : extends g1 g2 -> extends g2 g3 -> extends g1 g3.
Proof. intros H1 H2 x H; auto. Qed.

Lemma extends_add_all g ts : extends g (add_all g ts).
Proof. intros x H. apply In_add_all. now left. Qed.

Lemma extends_fold_left {A} (f : graph -> A -> graph) (l : list A) :
  (forall g a, extends g (f g a)) ->
  forall g, extends g (fold_left f l g).
Proof.
  intros Hf. induction l as [|a l IH]; intros g; simpl.
  - apply extends_refl.
  - eapply extends_trans; [apply Hf | apply IH].
Qed.

(** What one element of the collection emits is still there at the end of
    the loop over the collection. *)
Lemma fold_left_emits {A} (f : graph -> A -> graph) (l : list A) (a : A)
    (x : triple) :
  (forall g b, extends g (f g b)) ->
  (forall g, In x (f g a)) ->
  In a l -> forall g, In x (fold_left f l g).
Proof.
  intros Hf Ha. induction l as [|b l IH]; intros Hin g; simpl.
  - destruct Hin.
  - destruct Hin as [-> | Hin].
    + apply (extends_fold_left f l Hf). apply Ha.
    + now apply IH.
Qed.

Lemma extends_add_step g g' t : extends g g' -> extends g (add g' t).
Proof. intros H x Hx. apply In_add. left. now apply H. Qed.

Create HintDb graph.
#[local] Hint Resolve extends_refl extends_add_all extends_add_step : graph.

Section Builder.
Context {U : UnicodeDB}.

Lemma extends_add_organization g d : extends g (add_organization g d).
Proof. apply extends_add_all. Qed.

Lemma extends_add_chair g d : extends g (add_chair g d).
Proof. apply extends_add_all. Qed.

Lemma extends_add_hiwi_position g d : extends g (add_hiwi_position g d).
Proof. apply extends_add_all. Qed.

Lemma extends_add_minor g d : extends g (add_minor g d).
Proof. apply extends_add_all. Qed.

Lemma extends_add_course g d : extends g (add_course g d).
Proof. apply extends_add_all. Qed.

Lemma extends_add_program g d : extends g (add_program g d).
Proof.
  unfold add_program.
  repeat (eapply extends_trans; [| apply extends_add_all]).
  destruct (sp_offered_by d) as [[|c s]|];
    (eapply extends_trans; [| apply extends_add_all]); auto with graph.
Qed.

Lemma extends_add_research_project g d : extends g (add_research_project g d).
Proof.
  unfold add_research_project.
  repeat (eapply extends_trans; [| apply extends_add_all]).
  destruct (rp_conducted_by d) as [[|c s]|];
    (eapply extends_trans; [| apply extends_add_all]); auto with graph.
Qed.

Lemma extends_add_person g d : extends g (add_person g d).
Proof.
  unfold add_person.
  set (g1 := add_all g _).
  assert (H1 : extends g g1) by apply extends_add_all.
  destruct (match p_institute d with
            | Some (_ :: _ as institute) => _ | _ => (g1, false) end)
    as [g2 l2] eqn:E2.
  assert (H2 : extends g1 g2).
  { destruct (p_institute d) as [[|c s]|]; try (injection E2 as <- _; auto with graph).
    destruct (find_institute g1 (c :: s)) as [i|];
      [destruct (node_set (Some i))|]; injection E2 as <- _; auto with graph. }
  destruct (match p_school d with
            | Some (_ :: _ as school) => _ | _ => (g2, l2) end)
    as [g3 l3] eqn:E3.
  assert (H3 : extends g2 g3).
  { destruct (p_school d) as [[|c s]|]; injection E3 as <- _; auto with graph. }
  eapply extends_trans; [| apply extends_add_all].
  destruct (negb l3);
    repeat (eapply extends_trans; [eassumption|]); auto with graph.
Qed.

Lemma extends_create_core_unit g u : extends g (create_core_unit g u).
Proof.
  destruct u as [[u n] d]. unfold create_core_unit.
  destruct (negb _); auto with graph.
Qed.

Lemma extends_create_core_academic_units g :
  extends g (_create_core_academic_units g).
Proof. apply extends_fold_left, extends_create_core_unit. Qed.

Lemma college_is_created g :
  In (college_uri, RDF_type, LEUPH "School") (_create_core_academic_units g).
Proof.
  unfold _create_core_academic_units, core_units. cbn [fold_left].
  do 2 apply extends_create_core_unit.
  unfold create_core_unit. fold college_uri.
  destruct (graph_mem g _) eqn:M; cbn [negb].
  - now apply graph_mem_In.
  - apply In_add_all. right. now left.
Qed.

Lemma add_course_emits_fallback g c :
  truthy (co_part_of_program c) = false ->
  In (URIRef (co_uri c), LEUPH "offeredBy", college_uri) (add_course g c)
  /\ In (college_uri, LEUPH "offers", URIRef (co_uri c)) (add_course g c).
Proof.
  intros Habs. unfold add_course, uri_from_string.
  assert (E : match co_part_of_program c with
              | Some ((_ :: _) as program) =>
                  [(URIRef (co_uri c), LEUPH "partOf", URIRef program);
                   (URIRef program, LEUPH "hasPart", URIRef (co_uri c))]
              | _ => [(URIRef (co_uri c), LEUPH "offeredBy", college_uri);
                      (college_uri, LEUPH "offers", URIRef (co_uri c))]
              end
              = [(URIRef (co_uri c), LEUPH "offeredBy", college_uri);
                 (college_uri, LEUPH "offers", URIRef (co_uri c))]).
  { destruct (co_part_of_program c) as [[|x s]|]; try reflexivity.
    discriminate Habs. }
  rewrite E.
  split; apply In_add_all; right; rewrite !in_app_iff;
    do 6 right; left; simpl; auto.
Qed.

(** C3. A course whose [part_of_program] is absent (or empty) gets, from
    [add_course], an [offeredBy] triple to the College unit
    [<instance-ns>school/college] and the inverse [offers] triple; and in the
    graph [load_from_json] builds, where courses come last, both triples
    are present and the College node exists as a [School], created by
    [_create_core_academic_units] if no organisation provided it. *)
Theorem course_without_program_offered_by_college
    (g : graph) (data : document) (c : Course) :
  truthy (co_part_of_program c) = false ->
  let course := URIRef (co_uri c) in
  let college := URIRef (str "http://leuphana.de/resource/school/college") in
  (In (course, LEUPH "offeredBy", college) (add_course g c)
   /\ In (college, LEUPH "offers", course) (add_course g c))
  /\ (In c (d_courses data) ->
      In (course, LEUPH "offeredBy", college) (load_from_json g data)
      /\ In (college, LEUPH "offers", course) (load_from_json g data)
      /\ In (college, RDF_type, LEUPH "School") (load_from_json g data)).
Proof.
  intros Habs course college.
  change college with college_uri. subst course.
  split; [now apply add_course_emits_fallback|].
  intros Hin. unfold load_from_json.
  split; [|split].
  - apply fold_left_emits with (a := c); auto using extends_add_course.
    intros g0. now apply add_course_emits_fallback.
  - apply fold_left_emits with (a := c); auto using extends_add_course.
    intros g0. now apply add_course_emits_fallback.
  - apply (extends_fold_left _ _ extends_add_course).
    apply (extends_fold_left _ _ extends_add_research_project).
    apply (extends_fold_left _ _ extends_add_minor).
    apply (extends_fold_left _ _ extends_add_program).
    apply (extends_fold_left _ _ extends_add_person).
    apply (extends_fold_left _ _ extends_add_hiwi_position).
    apply (extends_fold_left _ _ extends_add_chair).
    apply college_is_created.
Qed.

End Builder.

(** *** Forward and inverse triples (section 4.6) *)

Lemma bidirectional_nil : bidirectional [].
Proof. intros s p o q _ []. Qed.

Lemma bidirectional_app g1 g2 :
  bidirectional g1 -> bidirectional g2 -> bidirectional (g1 ++ g2).
Proof.
  intros H1 H2 s p o q Hq Hin. apply in_app_iff in Hin. apply in_app_iff.
  destruct Hin; [left; eapply H1 | right; eapply H2]; eassumption.
Qed.

(** A triple over a predicate without inverse does not disturb the pairing. *)
Lemma bidirectional_cons_single s p o g :
  inverse_of p = None -> bidirectional g -> bidirectional ((s, p, o) :: g).
Proof.
  intros Hp Hg s' p' o' q Hq [E | Hin].
  - injection E as <- <- <-. congruence.
  - right. eapply Hg; eassumption.
Qed.

(** A forward triple followed by its mirror image. *)
Lemma bidirectional_cons_pair s p o q g :
  inverse_of p = Some q -> inverse_of q = Some p ->
  bidirectional g -> bidirectional ((s, p, o) :: (o, q, s) :: g).
Proof.
  intros Hp Hq Hg s' p' o' q' Hq' [E | [E | Hin]].
  - injection E as <- <- <-. right; left. congruence.
  - injection E as <- <- <-. left. congruence.
  - right; right. eapply Hg; eassumption.
Qed.

Lemma bidirectional_when_str x f :
  (forall v, bidirectional (f v)) -> bidirectional (when_str x f).
Proof.
  intros H. destruct x as [[|c v]|]; simpl; auto using bidirectional_nil.
Qed.

Lemma bidirectional_when_int x f :
  (forall v, bidirectional (f v)) -> bidirectional (when_int x f).
Proof.
  intros H. destruct x as [z|]; simpl; [destruct (Z.eqb z 0)|];
    auto using bidirectional_nil.
Qed.

Lemma bidirectional_flat_map {A} (f : A -> list triple) (l : list A) :
  (forall a, bidirectional (f a)) -> bidirectional (flat_map f l).
Proof.
  intros H. induction l as [|a l IH]; simpl.
  - apply bidirectional_nil.
  - now apply bidirectional_app.
Qed.

Lemma bidirectional_add_all g ts :
  bidirectional g -> bidirectional ts -> bidirectional (add_all g ts).
Proof.
  intros Hg Hts s p o q Hq Hin. apply In_add_all in Hin. apply In_add_all.
  destruct Hin; [left; eapply Hg | right; eapply Hts]; eassumption.
Qed.

Lemma bidirectional_fold_left {A} (f : graph -> A -> graph) (l : list A) :
  (forall g a, bidirectional g -> bidirectional (f g a)) ->
  forall g, bidirectional g -> bidirectional (fold_left f l g).
Proof.
  intros Hf. induction l as [|a l IH]; intros g Hg; simpl; auto.
Qed.

(** Lists of triples written out as in the source are taken apart piece by
    piece: a paired predicate must be followed by its mirror image, any
    other predicate may stand alone. *)
Ltac pairing :=
  repeat first
    [ assumption
    | apply bidirectional_nil
    | apply bidirectional_app
    | apply bidirectional_cons_pair; [reflexivity | reflexivity |]
    | apply bidirectional_cons_single; [reflexivity |]
    | apply bidirectional_when_str; intros ?
    | apply bidirectional_when_int; intros ?
    | apply bidirectional_flat_map; intros ?
    | apply bidirectional_add_all; [assumption |] ].

Section Pairing.
Context {U : UnicodeDB}.

Lemma bidirectional_add_organization g d :
  bidirectional g -> bidirectional (add_organization g d).
Proof.
  intros Hg. unfold add_organization. pairing.
  destruct (eqb _ _); pairing.
Qed.

Lemma bidirectional_add_chair g d :
  bidirectional g -> bidirectional (add_chair g d).
Proof.
  intros Hg. unfold add_chair. pairing.
  destruct (c_parent d) as [[|c s]|]; pairing.
Qed.

Lemma bidirectional_add_hiwi_position g d :
  bidirectional g -> bidirectional (add_hiwi_position g d).
Proof. intros Hg. unfold add_hiwi_position. pairing. Qed.

Lemma bidirectional_add_minor g d :
  bidirectional g -> bidirectional (add_minor g d).
Proof. intros Hg. unfold add_minor. pairing. Qed.

Lemma bidirectional_add_course g d :
  bidirectional g -> bidirectional (add_course g d).
Proof.
  intros Hg. unfold add_course. pairing.
  destruct (co_part_of_program d) as [[|c s]|]; pairing.
Qed.

Lemma bidirectional_add_program g d :
  bidirectional g -> bidirectional (add_program g d).
Proof.
  intros Hg. unfold add_program.
  apply bidirectional_add_all; [|pairing].
  destruct (sp_offered_by d) as [[|c s]|];
    (apply bidirectional_add_all; [apply bidirectional_add_all |]); pairing.
Qed.

Lemma bidirectional_add_research_project g d :
  bidirectional g -> bidirectional (add_research_project g d).
Proof.
  intros Hg. unfold add_research_project.
  apply bidirectional_add_all; [|pairing].
  destruct (rp_conducted_by d) as [[|c s]|];
    (apply bidirectional_add_all; [apply bidirectional_add_all |]); pairing.
Qed.

Lemma bidirectional_add_person g d :
  bidirectional g -> bidirectional (add_person g d).
Proof.
  intros Hg. unfold add_person.
  set (g1 := add_all g _).
  assert (H1 : bidirectional g1) by (apply bidirectional_add_all; pairing).
  clearbody g1.
  destruct (match p_institute d with
            | Some (_ :: _ as institute) => _ | _ => (g1, false) end)
    as [g2 l2] eqn:E2.
  assert (H2 : bidirectional g2).
  { destruct (p_institute d) as [[|c s]|];
      try (injection E2 as <- _; assumption).
    destruct (find_institute g1 (c :: s)) as [i|];
      [destruct (node_set (Some i))|]; injection E2 as <- _;
      try assumption.
    apply (bidirectional_add_all
             (ts := [(uri_from_string (p_uri d), LEUPH "memberOf", i);
                     (i, LEUPH "hasMember", uri_from_string (p_uri d))])).
    - assumption.
    - pairing. }
  clear E2.
  destruct (match p_school d with
            | Some (_ :: _ as school) => _ | _ => (g2, l2) end)
    as [g3 l3] eqn:E3.
  assert (H3 : bidirectional g3).
  { destruct (p_school d) as [[|c s]|]; injection E3 as <- _;
      try assumption.
    apply (bidirectional_add_all
             (ts := [(uri_from_string (p_uri d), LEUPH "worksAt",
                      name_to_uri (str "school") (c :: s));
                     (name_to_uri (str "school") (c :: s),
                      LEUPH "hasEmployee", uri_from_string (p_uri d))])).
    - assumption.
    - pairing. }
  clear E3.
  apply bidirectional_add_all.
  - destruct (negb l3); pairing.
  - induction (p_research_areas d); simpl; pairing.
Qed.

Lemma bidirectional_create_core_unit g u :
  bidirectional g -> bidirectional (create_core_unit g u).
Proof.
  intros Hg. destruct u as [[u n] d]. unfold create_core_unit.
  destruct (negb _); pairing.
Qed.

(** Loading a document keeps a graph closed under the inverses of the
    paired relationships. *)
Lemma load_from_json_closed_under_inverses (g : graph) (data : document) :
  bidirectional g -> bidirectional (load_from_json g data).
Proof.
  intros Hg. unfold load_from_json.
  apply bidirectional_fold_left; [apply bidirectional_add_course|].
  apply bidirectional_fold_left; [apply bidirectional_add_research_project|].
  apply bidirectional_fold_left; [apply bidirectional_add_minor|].
  apply bidirectional_fold_left; [apply bidirectional_add_program|].
  apply bidirectional_fold_left; [apply bidirectional_add_person|].
  apply bidirectional_fold_left; [apply bidirectional_add_hiwi_position|].
  apply bidirectional_fold_left; [apply bidirectional_add_chair|].
  unfold _create_core_academic_units.
  apply bidirectional_fold_left; [apply bidirectional_create_core_unit|].
  apply bidirectional_fold_left; [apply bidirectional_add_organization|].
  exact Hg.
Qed.

End Pairing.

(** *** The organisation resolver (section 4.5) *)

Lemma startswith_app (t r : pystr) : startswith (t ++ r) t = true.
Proof.
  induction t as [|x t IH]; simpl; [destruct r; reflexivity|].
  now rewrite N.eqb_refl, IH.
Qed.

Lemma startswith_inv (s t : pystr) :
  startswith s t = true -> exists r, s = t ++ r.
Proof.
  revert s; induction t as [|y t IH]; intros s H.
  - exists s. reflexivity.
  - destruct s as [|x s]; simpl in H; [discriminate|].
    apply andb_true_iff in H as [E H]. apply N.eqb_eq in E. subst y.
    destruct (IH _ H) as [r ->]. exists r. reflexivity.
Qed.

Lemma contains_startswith (s t : pystr) :
  startswith s t = true -> contains t s = true.
Proof. destruct s; simpl; intros ->; reflexivity. Qed.

Lemma contains_app (pre t post : pystr) : contains t (pre ++ t ++ post) = true.
Proof.
  induction pre as [|x pre IH]; simpl.
  - apply contains_startswith, startswith_app.
  - now rewrite IH, orb_true_r.
Qed.

Lemma contains_refl (t : pystr) : contains t t = true.
Proof.
  generalize (contains_app [] t []). now rewrite app_nil_l, app_nil_r.
Qed.

Lemma contains_inv (t s : pystr) :
  contains t s = true -> exists pre post, s = pre ++ t ++ post.
Proof.
  induction s as [|x s IH]; simpl; intros H.
  - rewrite orb_false_r in H. destruct t; [|discriminate].
    exists [], []. reflexivity.
  - apply orb_true_iff in H as [H | H].
    + destruct (startswith_inv (x :: s) t H) as [r E]. exists [], r. exact E.
    + destruct (IH H) as (pre & post & ->). exists (x :: pre), post.
      reflexivity.
Qed.

(** The second test of the source, [s_str.endswith(abbrev)], adds nothing
    to the first one, [abbrev in s_str]. *)
Lemma endswith_contains (s t : pystr) :
  endswith s t = true -> contains t s = true.
Proof.
  unfold endswith. intros H. destruct (startswith_inv _ _ H) as [r E].
  apply (f_equal (@rev N)) in E. rewrite rev_involutive, rev_app_distr,
    rev_involutive in E. subst s.
  rewrite <- (app_nil_r t) at 2. apply contains_app.
Qed.

(** [find] returns the first element that passes the test. *)
Lemma find_first {A} (f : A -> bool) (l : list A) (x : A) :
  find f l = Some x ->
  exists before after,
    l = before ++ x :: after
    /\ (forall y, In y before -> f y = false)
    /\ f x = true.
Proof.
  induction l as [|a l IH]; simpl; [discriminate|].
  destruct (f a) eqn:Fa.
  - intros E; injection E as ->. exists [], l. repeat split; auto.
    intros y [].
  - intros H. destruct (IH H) as (before & after & -> & Hb & Hx).
    exists (a :: before), after. repeat split; auto.
    intros y [<- | Hy]; auto.
Qed.

Section Resolver.
Context {U : UnicodeDB}.

Lemma candidate_matches_iff (g : graph) (abbrev : pystr) (s : term) :
  candidate_matches g abbrev s = true <->
  contains abbrev (lower (term_str s)) = true
  \/ exists a, In a (objects g s (LEUPH "abbreviation"))
               /\ lower (term_str a) = abbrev.
Proof.
  unfold candidate_matches. rewrite !orb_true_iff, existsb_exists. split.
  - intros [[H | H] | (a & Ha & E)]; auto using endswith_contains.
    right. exists a. split; [assumption | now apply eqb_eq].
  - intros [H | (a & Ha & E)]; auto.
    right. exists a. split; [assumption | now apply eqb_eq].
Qed.

Lemma In_subjects (g : graph) (p o s : term) :
  In s (subjects g p o) <-> In (s, p, o) g.
Proof.
  unfold subjects. rewrite in_map_iff. split.
  - intros ([[s' p'] o'] & E & H). simpl in E. subst s'.
    apply filter_In in H as [H T]. simpl in T.
    apply andb_true_iff in T as [Tp To].
    apply term_eqb_eq in Tp, To. now subst.
  - intros H. exists (s, p, o). split; [reflexivity|].
    apply filter_In. split; [assumption|]. simpl.
    now rewrite !term_eqb_refl.
Qed.

(** C5. [_resolve_org_uri] is a total function of the graph and the
    reference: its result is the reference itself, a node of the graph
    typed [Institute], [ResearchCenter] or [School], or the University
    root; and when the reference has no type triple in the graph and no
    candidate of the hinted class matches by substring or by abbreviation,
    the result is the University root [<instance-ns>university/leuphana]. *)
Theorem resolve_org_uri_total (g : graph) (uri_string : pystr) :
  let parts := split_on slash [] (rstrip_by (N.eqb slash) uri_string) in
  let root := URIRef (str "http://leuphana.de/resource/university/leuphana") in
  (_resolve_org_uri g uri_string = URIRef uri_string
   \/ (exists cls,
         In cls [LEUPH "Institute"; LEUPH "ResearchCenter"; LEUPH "School"]
         /\ In (_resolve_org_uri g uri_string, RDF_type, cls) g)
   \/ _resolve_org_uri g uri_string = root)
  /\ (has_subject_predicate g (URIRef uri_string) RDF_type = false ->
      (forall cls s,
          type_to_class (entity_type_of parts) = Some cls ->
          In (s, RDF_type, cls) g ->
          candidate_matches g (abbrev_of parts) s = false) ->
      _resolve_org_uri g uri_string = root).
Proof.
  intros parts root. change root with university_uri.
  unfold _resolve_org_uri. fold parts. split.
  - destruct (has_subject_predicate _ _ _); [now left | right].
    destruct (type_to_class (entity_type_of parts)) as [cls|] eqn:T;
      [|now right].
    destruct (find _ _) as [s|] eqn:F; [left | now right].
    apply find_some in F as [Hin _]. apply In_subjects in Hin.
    exists cls. split; [|assumption].
    unfold type_to_class in T.
    repeat (destruct (eqb _ _) in T; [injection T as <-; simpl; tauto|]).
    discriminate.
  - intros -> Hnone.
    destruct (type_to_class (entity_type_of parts)) as [cls|] eqn:T;
      [|reflexivity].
    destruct (find _ _) as [s|] eqn:F; [|reflexivity].
    apply find_some in F as [Hin Hm]. apply In_subjects in Hin.
    rewrite (Hnone cls s eq_refl Hin) in Hm. discriminate.
Qed.

(** C6 (as amended). The resolver tries, in this order: (1) the reference
    itself, if it has a type triple in the graph; (2) if the path segment
    before the last one is [institute], [research-center] or [school]: the
    nodes of that class in graph order, the first one winning whose
    lower-cased uri contains the lower-cased last segment or one of whose
    abbreviation attributes equals it on lower-casing, the two tests being
    applied to each candidate in turn; (3) the University root.  Display
    names are not consulted and no other class is searched. *)
Theorem resolve_org_uri_order (g : graph) (uri_string : pystr) :
  let parts := split_on slash [] (rstrip_by (N.eqb slash) uri_string) in
  let abbrev := abbrev_of parts in
  let matches := fun s =>
    contains abbrev (lower (term_str s)) = true
    \/ exists a, In a (objects g s (LEUPH "abbreviation"))
                 /\ lower (term_str a) = abbrev in
  (has_subject_predicate g (URIRef uri_string) RDF_type = true ->
   _resolve_org_uri g uri_string = URIRef uri_string)
  /\ (has_subject_predicate g (URIRef uri_string) RDF_type = false ->
      forall cls, type_to_class (entity_type_of parts) = Some cls ->
      (exists before s after,
          subjects g RDF_type cls = before ++ s :: after
          /\ (forall c, In c before -> ~ matches c)
          /\ matches s
          /\ _resolve_org_uri g uri_string = s)
      \/ ((forall c, In c (subjects g RDF_type cls) -> ~ matches c)
          /\ _resolve_org_uri g uri_string = university_uri))
  /\ (has_subject_predicate g (URIRef uri_string) RDF_type = false ->
      type_to_class (entity_type_of parts) = None ->
      _resolve_org_uri g uri_string = university_uri).
Proof.
  intros parts abbrev matches.
  assert (Hm : forall s, candidate_matches g abbrev s = true <-> matches s)
    by (intros s; apply candidate_matches_iff).
  unfold _resolve_org_uri. fold parts. fold abbrev.
  split; [|split].
  - now intros ->.
  - intros -> cls ->.
    destruct (find _ _) as [s|] eqn:F.
    + left. destruct (find_first _ _ F) as (before & after & E & Hb & Hs).
      exists before, s, after. repeat split; auto.
      * intros c Hc Mc. apply Hm in Mc. rewrite (Hb c Hc) in Mc.
        discriminate.
      * now apply Hm.
    + right. split; [|reflexivity].
      intros c Hc Mc. apply Hm in Mc.
      rewrite (find_none _ _ F c Hc) in Mc. discriminate.
  - now intros -> ->.
Qed.

End Resolver.

(** *** The URI canonicaliser (section 4.1) *)

Lemma Forall_dropwhile (P : N -> Prop) (p : N -> bool) (s : pystr) :
  Forall P s -> Forall P (dropwhile p s).
Proof.
  induction 1 as [|c s Hc Hs IH]; simpl; [constructor|].
  destruct (p c); [assumption | now constructor].
Qed.

Lemma Forall_strip_by (P : N -> Prop) (p : N -> bool) (s : pystr) :
  Forall P s -> Forall P (strip_by p s).
Proof.
  intros H. unfold strip_by, rstrip_by, lstrip_by.
  apply Forall_rev, Forall_dropwhile, Forall_rev, Forall_dropwhile, H.
Qed.

(** After [re.sub('C+', r, s)] only the characters of [s] outside the class
    [C] and those of [r] are left. *)
Lemma Forall_re_sub_runs (P : N -> Prop) (p : N -> bool) (r s : pystr) :
  Forall P r ->
  Forall (fun c => p c = false -> P c) s ->
  forall b, Forall P (re_sub_runs p r b s).
Proof.
  intros Hr. induction 1 as [|c s Hc Hs IH]; intros b; simpl; [constructor|].
  destruct (p c) eqn:E.
  - destruct b; [apply IH | apply Forall_app; split; [exact Hr | apply IH]].
  - constructor; [now apply Hc | apply IH].
Qed.

(** Collapsing hyphen runs leaves no two hyphens next to each other; when
    the text before ended in a hyphen, the result does not start with one. *)
Lemma collapsed_hyphens (s : pystr) (b : bool) :
  contains (str "--") (re_sub_runs is_hyphen (str "-") b s) = false
  /\ (b = true ->
      startswith (re_sub_runs is_hyphen (str "-") b s) (str "-") = false).
Proof.
  revert b. induction s as [|c s IH]; intros b.
  - split; reflexivity.
  - cbn [re_sub_runs]. destruct (is_hyphen c) eqn:Hc.
    + destruct b.
      * apply IH.
      * destruct (IH true) as [I1 I2]. specialize (I2 eq_refl).
        split; [|discriminate].
        change (str "-" ++ ?x) with (hyphen :: x).
        set (t := re_sub_runs is_hyphen (str "-") true s) in *.
        cbn [contains]. rewrite I1, orb_false_r.
        destruct t as [|d t]; [reflexivity|].
        simpl in I2 |- *. exact I2.
    + destruct (IH false) as [I1 _].
      set (t := re_sub_runs is_hyphen (str "-") false s) in *.
      split.
      * cbn [contains]. rewrite I1, orb_false_r.
        unfold is_hyphen, hyphen in Hc. simpl. rewrite Hc. reflexivity.
      * intros _. unfold is_hyphen, hyphen in Hc. simpl. rewrite Hc.
        reflexivity.
Qed.

Section Canonicaliser.
Context {U : UnicodeDB}.

(** What [create_uri] computes: the instance namespace followed by
    [kind/slug], the slug being made from the lower-cased name by deleting
    every character that is neither a word character (alphanumeric in the
    sense of the interpreter, or underscore), nor whitespace, nor a hyphen,
    trimming whitespace at both ends, replacing whitespace runs by single
    hyphens and collapsing hyphen runs.  Hyphens at the ends stay. *)
Lemma create_uri_slug (kind name : pystr) :
  create_uri kind name
  = str "http://leuphana.de/resource/" ++ kind ++ str "/" ++ create_slug name
  /\ Forall (fun c => is_word c = true \/ c = hyphen) (create_slug name)
  /\ Forall (fun c => isspace c = false) (create_slug name)
  /\ contains (str "--") (create_slug name) = false
  /\ create_slug [] = []
  /\ create_slug (str "-") = str "-".
Proof.
  split; [reflexivity|]. unfold create_slug.
  set (kept := filter keep_word_space_hyphen (lower name)).
  assert (Hk : Forall (fun c => keep_word_space_hyphen c = true) (strip kept)).
  { apply Forall_strip_by. apply Forall_forall. intros c Hc.
    now apply filter_In in Hc. }
  split; [|split; [|split; [|split]]].
  - apply Forall_re_sub_runs; [repeat constructor; now right|].
    apply Forall_re_sub_runs; [repeat constructor; now right|].
    eapply Forall_impl; [|exact Hk].
    intros c Hc Hs Hh. unfold keep_word_space_hyphen in Hc.
    rewrite Hs, Hh, !orb_false_r in Hc. now left.
  - apply Forall_re_sub_runs; [repeat constructor|].
    eapply Forall_impl; [intros c Hc _; exact Hc|].
    apply Forall_re_sub_runs; [repeat constructor|].
    apply Forall_forall. intros c _ Hs. exact Hs.
  - apply collapsed_hyphens.
  - reflexivity.
  - reflexivity.
Qed.

End Canonicaliser.

(** *** Registration into the scraper's dictionaries (section 4.4) *)

Lemma dict_get_set_same {V} (d : dict V) (k : pystr) (v : V) :
  dict_get (dict_set d k v) k = Some v.
Proof.
  induction d as [|[k' v'] d IH]; simpl.
  - now rewrite eqb_refl.
  - destruct (eqb k' k) eqn:E; simpl; rewrite E; auto.
Qed.

Lemma dict_get_set_other {V} (d : dict V) (k k' : pystr) (v : V) :
  k' <> k -> dict_get (dict_set d k v) k' = dict_get d k'.
Proof.
  intros Hne. induction d as [|[k0 v0] d IH]; simpl.
  - apply eqb_neq in Hne. destruct (eqb k k') eqn:E; [|reflexivity].
    apply eqb_eq in E. subst. now rewrite eqb_refl in Hne.
  - destruct (eqb k0 k) eqn:E; simpl.
    + apply eqb_eq in E. subst k0.
      destruct (eqb k k') eqn:E'; [|reflexivity].
      apply eqb_eq in E'. congruence.
    + now rewrite IH.
Qed.

(** Assigning to a key that is present changes no key and adds none. *)
Lemma dict_set_keys_present {V} (d : dict V) (k : pystr) (v : V) :
  dict_mem d k = true -> map fst (dict_set d k v) = map fst d.
Proof.
  unfold dict_mem. induction d as [|[k' v'] d IH]; simpl; [discriminate|].
  destruct (eqb k' k) eqn:E; simpl; [reflexivity|].
  intros H. now rewrite IH.
Qed.

(** Assigning to a key that is absent appends it. *)
Lemma dict_set_keys_absent {V} (d : dict V) (k : pystr) (v : V) :
  dict_mem d k = false -> dict_set d k v = d ++ [(k, v)].
Proof.
  unfold dict_mem. induction d as [|[k' v'] d IH]; simpl; [reflexivity|].
  destruct (eqb k' k) eqn:E; simpl; [discriminate|].
  intros H. now rewrite IH.
Qed.

Section Registry.
Context {U : UnicodeDB}.

(** C7 (as amended). Registration from a person list page makes no alias
    check: a link that passes the guards is stored under
    [create_uri("person", name)] with its own display name, and every entry
    under another uri is left as it was, so that two names with different
    canonical uris are two entities.  When a chair is created from a
    heading, an existing person is looked for first: if the professor's name
    occurs, case-sensitively, in the display name of a registered person,
    the first such person in registration order becomes the head of the
    chair and no person is registered. *)
Theorem registration_alias_check
    (st : state) (full_url : pystr) (category : option pystr)
    (link : person_link)
    (chair_name professor_name source_url institute_key : pystr)
    (before after : dict Person) (k : pystr) (p : Person) :
  let uri := create_uri (str "person") (l_text link) in
  let st1 := snd (list_page_link full_url category st link) in
  let chair_uri := create_uri (str "chair") (strip chair_name) in
  let st2 :=
    _create_chair_from_heading chair_name (Some professor_name) source_url
      institute_key st in
  (l_href link <> [] ->
   set_mem (visited_urls st) (l_person_url link) = false ->
   l_allowed link = true ->
   (3 <= List.length (l_text link))%nat ->
   (exists person,
       dict_get (persons st1) uri = Some person
       /\ p_name person = l_text link)
   /\ (forall k', k' <> uri ->
         dict_get (persons st1) k' = dict_get (persons st) k'))
  /\ ((10 <= List.length (strip chair_name))%nat ->
      dict_mem (chairs st) chair_uri = false ->
      professor_name <> [] ->
      k <> [] ->
      persons st = before ++ (k, p) :: after ->
      (forall kv, In kv before ->
         contains professor_name (p_name (snd kv)) = false) ->
      contains professor_name (p_name p) = true ->
      persons st2 = persons st
      /\ option_map c_headed_by (dict_get (chairs st2) chair_uri)
         = Some (Some k)).
Proof.
  intros uri st1 chair_uri st2. split.
  - intros Hhref Hvis Hall Hlen. subst st1. unfold list_page_link.
    destruct (l_href link) as [|h hs]; [contradiction|].
    rewrite Hvis, Hall. cbn [negb orb].
    destruct (l_text link) as [|c name] eqn:Et; [simpl in Hlen; lia|].
    replace (List.length (c :: name) <? 3)%nat with false
      by (symmetry; apply Nat.ltb_ge; exact Hlen).
    destruct (extract_name_parts (c :: name)) as [[first last] title].
    cbn [snd persons with_visited with_persons p_uri].
    fold uri. split.
    + eexists. split; [apply dict_get_set_same | reflexivity].
    + intros k' Hk'. now apply dict_get_set_other.
  - intros Hlen Hnew Hprof Hk Hps Hbefore Hp. subst st2.
    unfold _create_chair_from_heading. fold chair_uri.
    replace (List.length (strip chair_name) <? 10)%nat with false
      by (symmetry; apply Nat.ltb_ge; exact Hlen).
    rewrite Hnew.
    destruct professor_name as [|c0 pn]; [contradiction|].
    assert (F : find_professor (persons st) (c0 :: pn) = Some k).
    { unfold find_professor. rewrite Hps.
      assert (G : forall l,
                 (forall kv, In kv l ->
                    contains (c0 :: pn) (p_name (snd kv)) = false) ->
                 find (fun kv => eqb (p_name (snd kv)) (c0 :: pn)
                                 || contains (c0 :: pn) (p_name (snd kv)))
                   (l ++ (k, p) :: after) = Some (k, p)).
      { induction l as [|kv l IHl]; intros Hl.
        - cbn [app find snd]. now rewrite Hp, orb_true_r.
        - cbn [app find].
          assert (Hkv := Hl kv (or_introl eq_refl)).
          destruct (eqb (p_name (snd kv)) (c0 :: pn)) eqn:E.
          + apply eqb_eq in E. rewrite E in Hkv.
            rewrite contains_refl in Hkv. discriminate.
          + rewrite Hkv. cbn [orb]. apply IHl.
            intros kv' Hin. apply Hl. now right. }
      now rewrite (G before Hbefore). }
    rewrite F. destruct k as [|k0 ks]; [contradiction|].
    cbn [persons chairs with_chairs]. split; [reflexivity|].
    now rewrite dict_get_set_same.
Qed.

(** C8 (as amended). Two fragments that canonicalise to the same uri never
    stop the run: both registration paths return a state.  For person
    profiles the entity built from the later page replaces the stored one as
    a whole: the record stored under the uri afterwards is the record made
    of the later page alone, field by field, whatever was stored before;
    every other uri keeps its record and the set of keys is unchanged (last
    write wins, nothing is merged).  For Hiwi postings a uri that is already
    registered leaves the dictionary of postings exactly as it was (first
    write wins, nothing is merged). *)
Theorem duplicate_uri_registration
    (st : state) (full_url : pystr) (page : profile_page) (name : pystr)
    (title url : pystr) (soup : option hiwi_page) :
  let uri := create_uri (str "person") name in
  let st1 := snd (scrape_person_profile full_url (Some page) st) in
  let posting_title :=
    match soup with
    | Some hp => match hp_h1 hp with Some t => t | None => title end
    | None => title
    end in
  let built :=
    {| p_uri := uri;
       p_name := name;
       p_first_name := fst (fst (extract_name_parts name));
       p_last_name := Some (snd (fst (extract_name_parts name)));
       p_title := snd (extract_name_parts name);
       p_category :=
         Some (category_name
                 (determine_person_category (pp_text page) full_url []));
       p_email := pp_email page;
       p_phone := pp_phone page;
       p_office := pp_office page;
       p_webpage := Some full_url;
       p_institute := pp_institute page;
       p_school := None;
       p_research_areas := [];
       p_image_url := None;
       p_source_url := full_url |} in
  (set_mem (visited_urls st) full_url = false ->
   pp_name page = Some name -> name <> [] ->
   fst (scrape_person_profile full_url (Some page) st) = Some built
   /\ dict_get (persons st1) uri = Some built
   /\ (forall k', k' <> uri ->
         dict_get (persons st1) k' = dict_get (persons st) k')
   /\ (dict_mem (persons st) uri = true ->
       map fst (persons st1) = map fst (persons st)))
  /\ (dict_mem (hiwi_positions st)
        (create_uri (str "hiwi-position") posting_title) = true ->
      hiwi_positions (_scrape_single_hiwi_position title url soup st)
      = hiwi_positions st).
Proof.
  intros uri st1 posting_title built. split.
  - intros Hvis Hname Hne. subst st1 built. unfold scrape_person_profile.
    rewrite Hvis, Hname. destruct name as [|c name]; [contradiction|].
    destruct (extract_name_parts (c :: name)) as [[first last] ttl].
    cbn [snd fst persons with_visited with_persons p_uri]. fold uri.
    split; [reflexivity|]. split; [apply dict_get_set_same|]. split.
    + intros k' Hk'. now apply dict_get_set_other.
    + intros Hmem. now apply dict_set_keys_present.
  - intros Hmem. unfold _scrape_single_hiwi_position.
    destruct soup as [hp|]; [|reflexivity].
    fold posting_title in Hmem |- *.
    destruct (List.length posting_title <? 5)%nat; [reflexivity|].
    cbn [hiwi_positions with_visited]. rewrite Hmem. reflexivity.
Qed.

End Registry.

(** *** The properties at concrete inputs *)

(** C2. [create_uri] does not compute the slug the claim describes, which
    its sibling [name_to_uri] of the generator does compute at the same
    inputs: [create_uri] keeps the underscore of "Anna_Schmidt" and the
    letters outside ASCII of the institute name of [config.py], which the
    described slug strips, and keeps the hyphens at the ends of
    "- Public Law -", which the described slug trims.  The empty name gives
    the empty slug in all three. *)
Lemma create_uri_is_not_the_described_slug :
  create_uri (str "person") (str "Anna_Schmidt")
  = str "http://leuphana.de/resource/person/anna_schmidt"
  /\ spec_uri (str "person") (str "Anna_Schmidt")
     = str "http://leuphana.de/resource/person/annaschmidt"
  /\ create_uri (str "chair") (str "- Public Law -")
     = str "http://leuphana.de/resource/chair/-public-law-"
  /\ spec_uri (str "chair") (str "- Public Law -")
     = str "http://leuphana.de/resource/chair/public-law"
  /\ create_uri (str "person") (str "Anna_Schmidt")
     <> spec_uri (str "person") (str "Anna_Schmidt")
  /\ create_uri (str "chair") (str "- Public Law -")
     <> spec_uri (str "chair") (str "- Public Law -")
  /\ create_uri (str "institute") luenelab_name
     <> spec_uri (str "institute") luenelab_name
  /\ name_to_uri (str "person") (str "Anna_Schmidt")
     = URIRef (spec_uri (str "person") (str "Anna_Schmidt"))
  /\ name_to_uri (str "chair") (str "- Public Law -")
     = URIRef (spec_uri (str "chair") (str "- Public Law -"))
  /\ name_to_uri (str "institute") luenelab_name
     = URIRef (spec_uri (str "institute") luenelab_name)
  /\ create_uri (str "person") [] = spec_uri (str "person") []
  /\ create_uri (str "person") []
     = str "http://leuphana.de/resource/person/".
Proof.
  repeat split; try reflexivity; vm_compute; discriminate.
Qed.

(** C9: the scraper and the generator disagree on names with underscores,
    letters outside ASCII, and hyphens at the ends.  For the institute of
    [config.py] whose name is not ASCII, the node minted by the scraper and
    the target of the [postedBy] triple of the generator are different
    uris, and the target has no type in the graph built from both. *)
Lemma create_uri_name_to_uri_diverge :
  URIRef (create_uri (str "institute") luenelab_name)
  <> name_to_uri (str "institute") luenelab_name
  /\ name_to_uri (str "institute") luenelab_name
     = URIRef (str "http://leuphana.de/resource/institute/institute-of-experimental-industrial-psychology-lnelab")
  /\ (let g := load_from_json [] luenelab_document in
      graph_mem g (URIRef (h_uri luenelab_posting), LEUPH "postedBy",
                   name_to_uri (str "institute") luenelab_name) = true
      /\ has_subject_predicate g
           (name_to_uri (str "institute") luenelab_name) RDF_type = false
      /\ has_subject_predicate g (URIRef (o_uri luenelab)) RDF_type = true)
  /\ URIRef (create_uri (str "institute") institut_fuer_oekologie)
     <> name_to_uri (str "institute") institut_fuer_oekologie
  /\ create_uri (str "person") (str "Anna_Schmidt")
     = str "http://leuphana.de/resource/person/anna_schmidt"
  /\ name_to_uri (str "person") (str "Anna_Schmidt")
     = URIRef (str "http://leuphana.de/resource/person/annaschmidt")
  /\ create_uri (str "chair") (str "- Public Law -")
     = str "http://leuphana.de/resource/chair/-public-law-"
  /\ name_to_uri (str "chair") (str "- Public Law -")
     = URIRef (str "http://leuphana.de/resource/chair/public-law").
Proof.
  split; [vm_compute; discriminate|].
  split; [reflexivity|].
  split; [repeat split; vm_compute; reflexivity|].
  split; [vm_compute; discriminate|].
  repeat split; reflexivity.
Qed.

Lemma course_without_program_offered_by_college_witness :
  In (URIRef (co_uri course), LEUPH "offeredBy",
      URIRef (str "http://leuphana.de/resource/school/college"))
     (load_from_json [] one_course)
  /\ In (URIRef (str "http://leuphana.de/resource/school/college"),
         RDF_type, LEUPH "School")
        (load_from_json [] one_course).
Proof.
  destruct (course_without_program_offered_by_college [] one_course course
              eq_refl) as [_ H].
  destruct (H (or_introl eq_refl)) as (H1 & _ & H3).
  split; assumption.
Defined.

(** C4, as stated, fails: a Hiwi posting with a department gets its
    [postedBy] triple and a project with a principal investigator its
    [worksOn] triple, but no triple at all leads back from the department
    to the posting or from the project to the investigator. *)
Lemma posted_by_and_works_on_have_no_inverse :
  let posting := URIRef (h_uri hiwi_posting) in
  let department :=
    URIRef (str "http://leuphana.de/resource/institute/institute-of-ecology") in
  let investigator :=
    URIRef (str "http://leuphana.de/resource/person/maria-klein") in
  let g := add_research_project (add_hiwi_position [] hiwi_posting) project in
  graph_mem g (posting, LEUPH "postedBy", department) = true
  /\ existsb (fun t => term_eqb (fst (fst t)) department
                       && term_eqb (snd t) posting) g = false
  /\ graph_mem g (investigator, LEUPH "worksOn", URIRef (rp_uri project)) = true
  /\ existsb (fun t => term_eqb (fst (fst t)) (URIRef (rp_uri project))
                       && term_eqb (snd t) investigator) g = false.
Proof.
  repeat split; reflexivity.
Qed.

Lemma resolve_org_uri_total_witness :
  _resolve_org_uri [] (str "http://leuphana.de/resource/institute/imo")
  = URIRef (str "http://leuphana.de/resource/university/leuphana").
Proof.
  apply (proj2 (resolve_org_uri_total []
                  (str "http://leuphana.de/resource/institute/imo"))).
  - reflexivity.
  - intros cls s _ [].
Defined.

(** C6, as stated, fails.  With two institutes in the graph, the first
    matching by substring and the second by its abbreviation attribute, the
    described order takes the second and the resolver the first; a
    candidate matching only by its display name is not found; and a
    reference of a kind other than institute, research center and school is
    not looked up among the organisations. *)
Lemma resolver_differs_from_described_order :
  let ib := str "http://leuphana.de/resource/institute/ib" in
  let ecology := str "http://leuphana.de/resource/institute/ecology" in
  let data_science :=
    str "http://leuphana.de/resource/research-group/data-science" in
  (_resolve_org_uri two_institutes ib = URIRef (o_uri library_science)
   /\ spec_resolve two_institutes ib = URIRef (o_uri institute_of_banking))
  /\ (_resolve_org_uri (add_organization [] institute_seven) ecology
      = university_uri
      /\ spec_resolve (add_organization [] institute_seven) ecology
         = URIRef (o_uri institute_seven))
  /\ (_resolve_org_uri (add_organization [] data_science_group) data_science
      = university_uri
      /\ spec_resolve (add_organization [] data_science_group) data_science
         = URIRef (o_uri data_science_group))
  /\ _resolve_org_uri two_institutes ib <> spec_resolve two_institutes ib.
Proof.
  repeat split; try reflexivity. vm_compute. discriminate.
Qed.

Lemma resolve_org_uri_order_witness :
  let ib := str "http://leuphana.de/resource/institute/ib" in
  has_subject_predicate two_institutes (URIRef ib) RDF_type = false
  /\ ((exists before s after,
          subjects two_institutes RDF_type (LEUPH "Institute")
          = before ++ s :: after
          /\ _resolve_org_uri two_institutes ib = s)
      \/ _resolve_org_uri two_institutes ib = university_uri).
Proof.
  intros ib. split; [reflexivity|].
  destruct (proj1 (proj2 (resolve_org_uri_order two_institutes ib))
              eq_refl (LEUPH "Institute") eq_refl)
    as [(before & s & after & E & _ & _ & R) | [_ R]].
  - left. exists before, s, after. split; assumption.
  - right. exact R.
Defined.

(** C7, as stated, fails: "Anna Schmidt" and then "Prof. Dr. Anna Schmidt"
    from a list page are two entities, and so are they when the second name
    arrives as the professor of a chair heading: the lookup of that path does
    not find the stored shorter name, which the lookup of the other chair
    paths would. *)
Lemma aliases_are_registered_twice :
  let anna := listed "Anna Schmidt" "https://www.leuphana.de/person/1.html" in
  let prof :=
    listed "Prof. Dr. Anna Schmidt" "https://www.leuphana.de/person/2.html" in
  let page := str "https://www.leuphana.de/staff.html" in
  let st1 := snd (scrape_person_list_page page None (Some [anna]) empty_state) in
  let st2 := snd (scrape_person_list_page page None (Some [prof]) st1) in
  let st3 :=
    _create_chair_from_heading (str "Professorship for Public Law")
      (Some (str "Prof. Dr. Anna Schmidt")) page (str "ipl") st1 in
  map fst (persons st1)
  = [str "http://leuphana.de/resource/person/anna-schmidt"]
  /\ map fst (persons st2)
     = [str "http://leuphana.de/resource/person/anna-schmidt";
        str "http://leuphana.de/resource/person/prof-dr-anna-schmidt"]
  /\ map fst (persons st3)
     = [str "http://leuphana.de/resource/person/anna-schmidt";
        str "http://leuphana.de/resource/person/prof-dr-anna-schmidt"]
  /\ find_professor (persons st1) (str "Prof. Dr. Anna Schmidt") = None
  /\ find_person_either_way (persons st1) (str "Prof. Dr. Anna Schmidt")
     = Some (str "http://leuphana.de/resource/person/anna-schmidt").
Proof.
  repeat split; reflexivity.
Qed.

Lemma registration_alias_check_witness :
  let prof :=
    listed "Prof. Dr. Anna Schmidt" "https://www.leuphana.de/person/2.html" in
  let page := str "https://www.leuphana.de/staff.html" in
  let st1 := snd (list_page_link page None empty_state prof) in
  let st2 :=
    _create_chair_from_heading (str "Professorship for Public Law")
      (Some (str "Anna Schmidt")) page (str "ipl") one_professor in
  (exists person,
      dict_get (persons st1) (create_uri (str "person") (l_text prof))
      = Some person
      /\ p_name person = str "Prof. Dr. Anna Schmidt")
  /\ persons st2 = persons one_professor
  /\ option_map c_headed_by
       (dict_get (chairs st2)
          (create_uri (str "chair") (strip (str "Professorship for Public Law"))))
     = Some (Some (str "http://leuphana.de/resource/person/prof-dr-anna-schmidt")).
Proof.
  intros prof page st1 st2.
  pose proof
    (registration_alias_check empty_state page None prof
       (str "Professorship for Public Law") (str "Anna Schmidt") page
       (str "ipl") [] [] (p_uri prof_anna_schmidt) prof_anna_schmidt)
    as [H1 _].
  pose proof
    (registration_alias_check one_professor page None prof
       (str "Professorship for Public Law") (str "Anna Schmidt") page
       (str "ipl") [] [] (p_uri prof_anna_schmidt) prof_anna_schmidt)
    as [_ H2].
  split.
  - apply H1;
      [vm_compute; discriminate | reflexivity | reflexivity | vm_compute; lia].
  - apply H2.
    + vm_compute. lia.
    + reflexivity.
    + vm_compute. discriminate.
    + vm_compute. discriminate.
    + reflexivity.
    + intros kv [].
    + reflexivity.
Defined.

(** C8, as stated, fails.  A second profile page of the same person that
    shows no e-mail address erases the stored one (the existing value does
    not win), and a second sighting of a Hiwi posting that carries a
    description does not add it to the stored posting (nothing is merged). *)
Lemma collisions_are_not_merged :
  let uri := str "http://leuphana.de/resource/person/anna-schmidt" in
  let first := page "Anna Schmidt" (Some "schmidt@leuphana.de"%string) None in
  let second := page "Anna Schmidt" None (Some "04131 677-1000"%string) in
  let st1 :=
    snd (scrape_person_profile (str "https://www.leuphana.de/person/1.html")
           (Some first) empty_state) in
  let st2 :=
    snd (scrape_person_profile (str "https://www.leuphana.de/en/person/1.html")
           (Some second) st1) in
  let posting := str "http://leuphana.de/resource/hiwi-position/tutor-statistics" in
  let h1 :=
    _scrape_single_hiwi_position (str "Tutor Statistics")
      (str "https://www.leuphana.de/hilfskraefte/1.html")
      (Some (posting_page None)) empty_state in
  let h2 :=
    _scrape_single_hiwi_position (str "Tutor Statistics")
      (str "https://www.leuphana.de/hilfskraefte/2.html")
      (Some (posting_page (Some "Tutorials in statistics"%string))) h1 in
  option_map p_email (dict_get (persons st1) uri)
  = Some (Some (str "schmidt@leuphana.de"))
  /\ option_map p_email (dict_get (persons st2) uri) = Some None
  /\ option_map p_phone (dict_get (persons st2) uri)
     = Some (Some (str "04131 677-1000"))
  /\ List.length (persons st2) = 1%nat
  /\ option_map h_description (dict_get (hiwi_positions h1) posting)
     = Some None
  /\ option_map h_description (dict_get (hiwi_positions h2) posting)
     = Some None.
Proof.
  repeat split; reflexivity.
Qed.

Lemma duplicate_uri_registration_witness :
  let first := page "Anna Schmidt" (Some "schmidt@leuphana.de"%string) None in
  let second := page "Anna Schmidt" None (Some "04131 677-1000"%string) in
  let st1 :=
    snd (scrape_person_profile (str "https://www.leuphana.de/person/1.html")
           (Some first) empty_state) in
  let st2 :=
    snd (scrape_person_profile (str "https://www.leuphana.de/en/person/1.html")
           (Some second) st1) in
  map fst (persons st2) = map fst (persons st1).
Proof.
  intros first second st1 st2.
  pose proof
    (duplicate_uri_registration st1
       (str "https://www.leuphana.de/en/person/1.html") second
       (str "Anna Schmidt") [] [] None) as [H _].
  destruct H as [_ [_ [_ H]]]; [reflexivity | reflexivity | discriminate |].
  apply H. reflexivity.
Defined.

(** *** More on strings: stripping and collapsing *)

Lemma startswith_nil (s : pystr) : startswith s [] = true.
Proof. destruct s; reflexivity. Qed.

Lemma dropwhile_head (p : N -> bool) (s : pystr) (c : N) (r : pystr) :
  dropwhile p s = c :: r -> p c = false.
Proof.
  induction s as [|x s IH]; simpl; [discriminate|].
  destruct (p x) eqn:E; [exact IH|]. intros H; injection H as <- _; exact E.
Qed.

Lemma dropwhile_none (p : N -> bool) (s : pystr) :
  Forall (fun c => p c = false) s -> dropwhile p s = s.
Proof. destruct 1 as [|c s Hc _]; simpl; [reflexivity | now rewrite Hc]. Qed.

Lemma dropwhile_all (p : N -> bool) (s : pystr) :
  forallb p s = true -> dropwhile p s = [].
Proof.
  induction s as [|c s IH]; simpl; [reflexivity|].
  intros H. apply andb_true_iff in H as [-> H]. auto.
Qed.

Lemma dropwhile_app_all (p : N -> bool) (ws s : pystr) :
  forallb p ws = true -> dropwhile p (ws ++ s) = dropwhile p s.
Proof.
  induction ws as [|c ws IH]; simpl; [reflexivity|].
  intros H. apply andb_true_iff in H as [-> H]. auto.
Qed.

Lemma dropwhile_snoc (p : N -> bool) (s : pystr) (c : N) :
  dropwhile p (s ++ [c])
  = match dropwhile p s with
    | [] => if p c then [] else [c]
    | r => r ++ [c]
    end.
Proof.
  induction s as [|x s IH]; simpl; [reflexivity|].
  destruct (p x); [exact IH | reflexivity].
Qed.

(** [s.rstrip()] seen from the left: a character goes when it belongs to
    the stripped set and nothing is left behind it. *)
Lemma rstrip_by_cons (p : N -> bool) (c : N) (s : pystr) :
  rstrip_by p (c :: s)
  = match rstrip_by p s with
    | [] => if p c then [] else [c]
    | r => c :: r
    end.
Proof.
  unfold rstrip_by. simpl rev. rewrite dropwhile_snoc.
  destruct (dropwhile p (rev s)) as [|x r] eqn:E.
  - simpl. destruct (p c); reflexivity.
  - rewrite rev_app_distr. change (rev [c] ++ ?z) with (c :: z).
    remember (rev (x :: r)) as l eqn:R. destruct l; [|reflexivity].
    apply (f_equal (@List.length N)) in R. rewrite length_rev in R.
    discriminate.
Qed.

Lemma rstrip_by_nil (p : N -> bool) : rstrip_by p [] = [].
Proof. reflexivity. Qed.

Lemma rstrip_by_none (p : N -> bool) (s : pystr) :
  Forall (fun c => p c = false) s -> rstrip_by p s = s.
Proof.
  intros H. unfold rstrip_by. rewrite dropwhile_none, rev_involutive; auto.
  now apply Forall_rev.
Qed.

Lemma strip_by_none (p : N -> bool) (s : pystr) :
  Forall (fun c => p c = false) s -> strip_by p s = s.
Proof.
  intros H. unfold strip_by, lstrip_by.
  rewrite dropwhile_none by assumption. now apply rstrip_by_none.
Qed.

(** Stripped text neither starts nor ends with a stripped character:
    stripping again changes nothing. *)
Lemma rstrip_by_keeps_head (p : N -> bool) (c : N) (s : pystr) :
  p c = false -> exists r, rstrip_by p (c :: s) = c :: r.
Proof.
  intros Hc. rewrite rstrip_by_cons, Hc.
  destruct (rstrip_by p s); eauto.
Qed.

Lemma strip_by_idempotent (p : N -> bool) (s : pystr) :
  strip_by p (strip_by p s) = strip_by p s.
Proof.
  unfold strip_by, lstrip_by.
  destruct (dropwhile p s) as [|c r] eqn:E; [reflexivity|].
  pose proof (@dropwhile_head p s c r E) as Hc.
  destruct (@rstrip_by_keeps_head p c r Hc) as [r' Hr]. rewrite Hr.
  simpl dropwhile. rewrite Hc, <- Hr.
  unfold rstrip_by. rewrite rev_involutive.
  f_equal. clear. induction (rev (c :: r)) as [|x l IH]; simpl; auto.
  destruct (p x) eqn:E; [exact IH|]. simpl. now rewrite E.
Qed.

(** A run replacement leaves text without characters of the class alone. *)
Lemma re_sub_runs_none (p : N -> bool) (r s : pystr) :
  Forall (fun c => p c = false) s -> re_sub_runs p r false s = s.
Proof.
  induction 1 as [|c s Hc _ IH]; simpl; [reflexivity|].
  now rewrite Hc, IH.
Qed.

(** Collapsing hyphen runs leaves text without adjacent hyphens alone. *)
Lemma collapse_hyphens_fixed (s : pystr) (b : bool) :
  contains (str "--") s = false ->
  (b = true -> startswith s (str "-") = false) ->
  re_sub_runs is_hyphen (str "-") b s = s.
Proof.
  revert b. induction s as [|c s IH]; intros b Hdd Hb; [reflexivity|].
  cbn [contains] in Hdd. apply orb_false_iff in Hdd as [Hst Hdd].
  cbn [re_sub_runs]. destruct (is_hyphen c) eqn:Hc.
  - unfold is_hyphen, hyphen in Hc. apply N.eqb_eq in Hc. subst c.
    destruct b;
      [specialize (Hb eq_refl); simpl in Hb; rewrite startswith_nil in Hb;
       discriminate Hb|].
    change (str "-" ++ ?x) with (45%N :: x). f_equal.
    apply IH; [assumption|]. intros _.
    destruct s as [|d s]; [reflexivity|]. simpl in Hst |- *. exact Hst.
  - f_equal. apply IH; [assumption | discriminate].
Qed.

Section Collapsing.
Context {U : UnicodeDB}.

(** Replacing whitespace runs and then collapsing hyphen runs is one pass
    that replaces every run of whitespace and hyphens by one hyphen. *)
Lemma collapse_after_replace (s : pystr) (b b' : bool) :
  (b' = true -> b = true) ->
  re_sub_runs is_hyphen (str "-") b (re_sub_runs isspace (str "-") b' s)
  = re_sub_runs is_separator (str "-") b s.
Proof.
  revert b b'. induction s as [|c s IH]; intros b b' Hb; [reflexivity|].
  cbn [re_sub_runs]. unfold is_separator at 1.
  destruct (isspace c) eqn:Sc; cbn [orb].
  - destruct b'.
    + rewrite (Hb eq_refl). now apply IH.
    + change (str "-" ++ ?x) with (45%N :: x). cbn [re_sub_runs].
      change (is_hyphen 45) with true. cbn iota.
      destruct b; rewrite (IH true true) by reflexivity; reflexivity.
  - cbn [re_sub_runs]. destruct (is_hyphen c) eqn:Hc.
    + destruct b; rewrite (IH true false) by discriminate; reflexivity.
    + f_equal. apply IH. discriminate.
Qed.

Variable p : N -> bool.
Hypothesis p_hyphen : forall c, p c = false -> is_hyphen c = false.

Lemma replaced_runs_lstrip (s : pystr) (b : bool) :
  dropwhile is_hyphen (re_sub_runs p (str "-") b s)
  = re_sub_runs p (str "-") false (dropwhile p s).
Proof.
  revert b. induction s as [|c s IH]; intros b; [reflexivity|].
  cbn [re_sub_runs dropwhile]. destruct (p c) eqn:Pc.
  - destruct b; [apply IH|].
    change (str "-" ++ ?x) with (45%N :: x). cbn [dropwhile].
    change (is_hyphen 45) with true. cbn iota. apply IH.
  - cbn [dropwhile re_sub_runs]. now rewrite (@p_hyphen _ Pc), Pc.
Qed.

Lemma replaced_runs_nil (s : pystr) (b : bool) :
  re_sub_runs p (str "-") b s = [] -> forallb p s = true.
Proof.
  revert b. induction s as [|c s IH]; intros b; [reflexivity|].
  cbn [re_sub_runs forallb]. destruct (p c); [|discriminate].
  destruct b; [apply IH | discriminate].
Qed.

Lemma rstrip_by_all (q : N -> bool) (s : pystr) :
  forallb q s = true -> rstrip_by q s = [].
Proof.
  intros H. unfold rstrip_by. rewrite dropwhile_all; [reflexivity|].
  rewrite forallb_forall in *. intros x Hx. apply H. now apply in_rev.
Qed.

Lemma rstrip_by_idempotent (q : N -> bool) (s : pystr) :
  rstrip_by q (rstrip_by q s) = rstrip_by q s.
Proof.
  unfold rstrip_by. rewrite rev_involutive. f_equal.
  induction (rev s) as [|x l IH]; simpl; auto.
  destruct (q x) eqn:E; [exact IH|]. simpl. now rewrite E.
Qed.

Lemma replaced_runs_rstrip (s : pystr) (b : bool) :
  rstrip_by is_hyphen (re_sub_runs p (str "-") b s)
  = re_sub_runs p (str "-") b (rstrip_by p s).
Proof.
  revert b. induction s as [|c s IH]; intros b; [reflexivity|].
  rewrite (rstrip_by_cons p c s). cbn [re_sub_runs].
  destruct (p c) eqn:Pc.
  - destruct (rstrip_by p s) as [|d r] eqn:R.
    + destruct b.
      * rewrite IH. reflexivity.
      * change (str "-" ++ ?x) with (45%N :: x).
        rewrite rstrip_by_cons, IH. reflexivity.
    + remember (d :: r) as z eqn:Z. cbn [re_sub_runs]. rewrite Pc.
      destruct b.
      * apply IH.
      * change (str "-" ++ ?x) with (45%N :: x).
        rewrite rstrip_by_cons, IH.
        destruct (re_sub_runs p (str "-") true z) eqn:E; [|reflexivity].
        apply replaced_runs_nil in E.
        apply rstrip_by_all in E.
        rewrite <- R, rstrip_by_idempotent, R in E. subst z. discriminate.
  - rewrite rstrip_by_cons, IH, (@p_hyphen _ Pc).
    remember (rstrip_by p s) as z eqn:Z.
    assert (E : re_sub_runs p (str "-") b (c :: z)
                = c :: re_sub_runs p (str "-") false z)
      by (cbn [re_sub_runs]; now rewrite Pc).
    destruct z as [|d r].
    + cbn [re_sub_runs]. now rewrite Pc.
    + rewrite E.
      destruct (re_sub_runs p (str "-") false (d :: r)); reflexivity.
Qed.

(** Trimming the hyphens of the replaced text is replacing in the text
    trimmed of the characters of the class. *)
Lemma strip_hyphens_of_replaced_runs (s : pystr) :
  strip_by is_hyphen (re_sub_runs p (str "-") false s)
  = re_sub_runs p (str "-") false (strip_by p s).
Proof.
  unfold strip_by, lstrip_by.
  now rewrite replaced_runs_lstrip, replaced_runs_rstrip.
Qed.

(** No two hyphens are adjacent in the replaced text. *)
Lemma replaced_runs_no_double (s : pystr) (b : bool) :
  contains (str "--") (re_sub_runs p (str "-") b s) = false
  /\ (b = true -> startswith (re_sub_runs p (str "-") b s) (str "-") = false).
Proof.
  revert b. induction s as [|c s IH]; intros b; [split; reflexivity|].
  cbn [re_sub_runs]. destruct (p c) eqn:Pc.
  - destruct b; [apply IH|].
    destruct (IH true) as [I1 I2]. specialize (I2 eq_refl).
    split; [|discriminate].
    change (str "-" ++ ?x) with (45%N :: x).
    set (t := re_sub_runs p (str "-") true s) in *.
    cbn [contains]. rewrite I1, orb_false_r.
    destruct t as [|d t]; [reflexivity|]. simpl in I2 |- *. exact I2.
  - destruct (IH false) as [I1 _]. pose proof (@p_hyphen _ Pc) as Hc.
    unfold is_hyphen, hyphen in Hc.
    set (t := re_sub_runs p (str "-") false s) in *.
    split; [cbn [contains]; rewrite I1, orb_false_r|intros _];
      simpl; rewrite Hc; reflexivity.
Qed.

End Collapsing.

Lemma dropwhile_decompose (p : N -> bool) (s : pystr) :
  exists ws, s = ws ++ dropwhile p s /\ forallb p ws = true.
Proof.
  induction s as [|c s (ws & E & H)]; [exists []; auto|].
  simpl. destruct (p c) eqn:Pc.
  - exists (c :: ws). simpl. rewrite Pc, H. split; [now f_equal | reflexivity].
  - exists []. auto.
Qed.

Lemma forallb_rev (p : N -> bool) (s : pystr) :
  forallb p s = true -> forallb p (rev s) = true.
Proof.
  rewrite !forallb_forall. intros H x Hx. apply H. now apply in_rev.
Qed.

(** Stripping takes away a prefix and a suffix made of stripped characters. *)
Lemma strip_by_decompose (p : N -> bool) (s : pystr) :
  exists ws1 ws2,
    s = ws1 ++ strip_by p s ++ ws2
    /\ forallb p ws1 = true /\ forallb p ws2 = true.
Proof.
  unfold strip_by, lstrip_by, rstrip_by.
  destruct (dropwhile_decompose p s) as (ws1 & E1 & H1).
  destruct (dropwhile_decompose p (rev (dropwhile p s))) as (ws2 & E2 & H2).
  exists ws1, (rev ws2). repeat split; [|assumption | now apply forallb_rev].
  rewrite <- rev_app_distr, <- E2, rev_involutive. exact E1.
Qed.

Lemma rstrip_by_app_all (p : N -> bool) (s ws : pystr) :
  forallb p ws = true -> rstrip_by p (s ++ ws) = rstrip_by p s.
Proof.
  intros H. unfold rstrip_by. rewrite rev_app_distr, dropwhile_app_all; auto.
  now apply forallb_rev.
Qed.

(** Characters of the stripped set around a text do not change what
    stripping leaves. *)
Lemma strip_by_pads (p : N -> bool) (ws1 s ws2 : pystr) :
  forallb p ws1 = true -> forallb p ws2 = true ->
  strip_by p (ws1 ++ s ++ ws2) = strip_by p s.
Proof.
  intros H1 H2. unfold strip_by, lstrip_by.
  rewrite dropwhile_app_all by assumption.
  induction s as [|c s IH]; simpl.
  - rewrite dropwhile_all by assumption. reflexivity.
  - destruct (p c); [exact IH|].
    change (c :: s ++ ws2) with ((c :: s) ++ ws2).
    now apply rstrip_by_app_all.
Qed.

(** What is left after stripping hyphens has no hyphen at either end, and a
    text without hyphen at either end is left as it is. *)
Lemma strip_hyphens_ends (s : pystr) :
  startswith (strip_by is_hyphen s) (str "-") = false
  /\ endswith (strip_by is_hyphen s) (str "-") = false.
Proof.
  unfold strip_by, lstrip_by. split.
  - destruct (dropwhile is_hyphen s) as [|c r] eqn:E; [reflexivity|].
    pose proof (@dropwhile_head is_hyphen s c r E) as Hc.
    destruct (@rstrip_by_keeps_head is_hyphen c r Hc) as [r' ->].
    unfold is_hyphen, hyphen in Hc. simpl. now rewrite Hc.
  - unfold endswith, rstrip_by. rewrite rev_involutive.
    destruct (dropwhile is_hyphen (rev (dropwhile is_hyphen s)))
      as [|c r] eqn:E; [reflexivity|].
    pose proof (@dropwhile_head _ _ c r E) as Hc.
    unfold is_hyphen, hyphen in Hc. simpl. now rewrite Hc.
Qed.

Lemma strip_hyphens_fixed (s : pystr) :
  startswith s (str "-") = false -> endswith s (str "-") = false ->
  strip_by is_hyphen s = s.
Proof.
  intros Hs He. unfold strip_by, lstrip_by, rstrip_by.
  assert (E1 : dropwhile is_hyphen s = s).
  { destruct s as [|c r]; [reflexivity|]. simpl in Hs |- *.
    rewrite startswith_nil, andb_true_r in Hs.
    unfold is_hyphen, hyphen. now rewrite Hs. }
  rewrite E1. unfold endswith in He.
  assert (E2 : dropwhile is_hyphen (rev s) = rev s).
  { destruct (rev s) as [|c r]; [reflexivity|]. simpl in He |- *.
    rewrite startswith_nil, andb_true_r in He.
    unfold is_hyphen, hyphen. now rewrite He. }
  now rewrite E2, rev_involutive.
Qed.

(** *** ASCII text and case *)

Lemma ascii_lower_upper (c : N) : ascii_lower (ascii_upper c) = ascii_lower c.
Proof.
  unfold ascii_lower, ascii_upper, in_range.
  destruct (97 <=? c)%N eqn:A, (c <=? 122)%N eqn:B; cbn [andb];
    try reflexivity.
  apply N.leb_le in A, B.
  replace ((65 <=? c - 32) && (c - 32 <=? 90))%N with true
    by (symmetry; apply andb_true_iff; split; apply N.leb_le; lia).
  replace ((65 <=? c) && (c <=? 90))%N with false
    by (symmetry; apply andb_false_iff; right; apply N.leb_gt; lia).
  lia.
Qed.

Lemma ascii_upper_is_ascii (c : N) :
  is_ascii c = true -> is_ascii (ascii_upper c) = true.
Proof.
  unfold is_ascii, ascii_upper. intros H. apply N.ltb_lt in H.
  destruct (in_range 97 122 c); apply N.ltb_lt; lia.
Qed.

Lemma ascii_lower_is_ascii (c : N) :
  is_ascii c = true -> is_ascii (ascii_lower c) = true.
Proof.
  unfold is_ascii, ascii_lower, in_range. intros H. apply N.ltb_lt in H.
  destruct ((65 <=? c) && (c <=? 90))%N eqn:E; apply N.ltb_lt; [|lia].
  apply andb_true_iff in E as [_ E]. apply N.leb_le in E. lia.
Qed.

Lemma forallb_map_ascii (f : N -> N) (s : pystr) :
  (forall c, is_ascii c = true -> is_ascii (f c) = true) ->
  forallb is_ascii s = true -> forallb is_ascii (map f s) = true.
Proof.
  intros Hf. induction s as [|c s IH]; simpl; [reflexivity|].
  intros H. apply andb_true_iff in H as [Hc H]. now rewrite Hf, IH.
Qed.

Section Case.
Context {U : UnicodeDB}.

Lemma lower_ascii (s : pystr) :
  forallb is_ascii s = true -> lower s = map ascii_lower s.
Proof. unfold lower. now intros ->. Qed.

Lemma upper_ascii (s : pystr) :
  forallb is_ascii s = true -> upper s = map ascii_upper s.
Proof. unfold upper. now intros ->. Qed.

(** Lower-casing does not see the case of ASCII text. *)
Lemma lower_upper_ascii (s : pystr) :
  forallb is_ascii s = true -> lower (upper s) = lower s.
Proof.
  intros H. rewrite (upper_ascii _ H), !lower_ascii;
    [| assumption | now apply forallb_map_ascii, H; apply ascii_upper_is_ascii].
  rewrite map_map. apply map_ext. apply ascii_lower_upper.
Qed.

Lemma lower_app_ascii (a b : pystr) :
  forallb is_ascii a = true -> forallb is_ascii b = true ->
  lower (a ++ b) = lower a ++ lower b.
Proof.
  intros Ha Hb. rewrite !lower_ascii, ?map_app; auto.
  rewrite forallb_app. now rewrite Ha, Hb.
Qed.

End Case.

(** *** The two canonicalisers side by side *)

Lemma ascii_isspace_is_ascii (c : N) :
  ascii_isspace c = true -> is_ascii c = true.
Proof.
  unfold ascii_isspace, in_range, is_ascii. intros H. apply N.ltb_lt.
  apply orb_true_iff in H as [H | H]; apply andb_true_iff in H as [_ H];
    apply N.leb_le in H; lia.
Qed.

Lemma ascii_lower_space (c : N) : ascii_isspace c = true -> ascii_lower c = c.
Proof.
  unfold ascii_isspace, ascii_lower, in_range. intros H.
  replace ((65 <=? c) && (c <=? 90))%N with false; [reflexivity|].
  symmetry. apply andb_false_iff. left. apply N.leb_gt.
  apply orb_true_iff in H as [H | H]; apply andb_true_iff in H as [_ H];
    apply N.leb_le in H; lia.
Qed.

Lemma slug_char_facts (c : N) :
  slug_char c = true ->
  is_ascii c = true /\ ascii_lower c = c /\ ascii_isspace c = false.
Proof.
  unfold slug_char, is_hyphen, hyphen, is_ascii, ascii_lower, ascii_isspace,
    in_range.
  intros H.
  assert (R : (97 <= c <= 122 \/ 48 <= c <= 57 \/ c = 45)%N).
  { apply orb_true_iff in H as [H | H];
      [apply orb_true_iff in H as [H | H]|].
    - apply andb_true_iff in H as [A B]. apply N.leb_le in A, B. lia.
    - apply andb_true_iff in H as [A B]. apply N.leb_le in A, B. lia.
    - apply N.eqb_eq in H. lia. }
  repeat split.
  - apply N.ltb_lt. lia.
  - replace ((65 <=? c) && (c <=? 90))%N with false; [reflexivity|].
    symmetry. apply andb_false_iff.
    destruct (N.le_gt_cases 65 c);
      [right; apply N.leb_gt; lia | left; apply N.leb_gt; lia].
  - apply orb_false_iff. split; apply andb_false_iff.
    + right. apply N.leb_gt. lia.
    + destruct (N.le_gt_cases 28 c);
        [right; apply N.leb_gt; lia | left; apply N.leb_gt; lia].
Qed.

Section Canonical.
Context {U : UnicodeDB}.

Lemma separator_not_hyphen (c : N) :
  is_separator c = false -> is_hyphen c = false.
Proof. unfold is_separator. intros H. now apply orb_false_iff in H. Qed.

Lemma isspace_ascii (c : N) : is_ascii c = true -> isspace c = ascii_isspace c.
Proof. unfold isspace. now intros ->. Qed.

Lemma create_slug_collapsed (name : pystr) :
  create_slug name
  = re_sub_runs is_separator (str "-") false
      (strip (filter keep_word_space_hyphen (lower name))).
Proof. unfold create_slug. now apply collapse_after_replace. Qed.

Lemma name_slug_collapsed (name : pystr) :
  name_slug name
  = re_sub_runs is_separator (str "-") false
      (strip_by is_separator
         (filter keep_lower_digit_space_hyphen (lower name))).
Proof.
  unfold name_slug, re_delete_outside.
  rewrite collapse_after_replace by auto.
  apply (@strip_hyphens_of_replaced_runs is_separator separator_not_hyphen).
Qed.

Lemma space_is_separator (ws : pystr) :
  forallb isspace ws = true -> forallb is_separator ws = true.
Proof.
  rewrite !forallb_forall. intros H c Hc. unfold is_separator.
  now rewrite (H c Hc).
Qed.

(** Where the two deletions keep the same characters, the slug of
    [name_to_uri] is the slug of [create_uri] with the hyphens at its ends
    taken away. *)
Lemma name_slug_strips_create_slug (name : pystr) :
  filter keep_word_space_hyphen (lower name)
  = filter keep_lower_digit_space_hyphen (lower name) ->
  name_slug name = strip_by is_hyphen (create_slug name).
Proof.
  intros E. rewrite name_slug_collapsed, create_slug_collapsed, E.
  set (y := filter keep_lower_digit_space_hyphen (lower name)).
  rewrite (@strip_hyphens_of_replaced_runs is_separator separator_not_hyphen).
  f_equal.
  destruct (strip_by_decompose isspace y) as (ws1 & ws2 & Ey & H1 & H2).
  rewrite Ey at 1. unfold strip.
  apply strip_by_pads; now apply space_is_separator.
Qed.

Lemma filters_agree_ascii (name : pystr) :
  forallb is_ascii name = true ->
  Forall (fun c => c <> underscore) name ->
  filter keep_word_space_hyphen (lower name)
  = filter keep_lower_digit_space_hyphen (lower name).
Proof.
  intros Ha Hu. rewrite (lower_ascii _ Ha). apply filter_ext_in.
  intros c Hc. apply in_map_iff in Hc as (c0 & <- & Hc0).
  rewrite forallb_forall in Ha. specialize (Ha c0 Hc0).
  rewrite Forall_forall in Hu. specialize (Hu c0 Hc0).
  unfold keep_word_space_hyphen, keep_lower_digit_space_hyphen, is_word,
    isalnum.
  rewrite (ascii_lower_is_ascii _ Ha).
  assert (E1 : in_range 65 90 (ascii_lower c0) = false).
  { unfold ascii_lower, in_range.
    destruct ((65 <=? c0) && (c0 <=? 90))%N eqn:E; [|exact E].
    apply andb_true_iff in E as [A B]. apply N.leb_le in A, B.
    apply andb_false_iff. right. apply N.leb_gt. lia. }
  assert (E2 : N.eqb (ascii_lower c0) underscore = false).
  { apply N.eqb_neq. unfold ascii_lower, in_range, underscore in *.
    destruct ((65 <=? c0) && (c0 <=? 90))%N eqn:E; [|exact Hu].
    apply andb_true_iff in E as [A B]. apply N.leb_le in A, B. lia. }
  unfold ascii_isalnum. rewrite E1, E2.
  destruct (in_range 48 57 (ascii_lower c0)),
    (in_range 97 122 (ascii_lower c0)); reflexivity.
Qed.

(** X1. For ASCII names without underscore, the uri of [name_to_uri] is the
    uri of [create_uri] with the hyphens at the ends of the slug trimmed;
    the two uris are the same exactly when the slug of [create_uri] neither
    starts nor ends with a hyphen. *)
Theorem name_to_uri_trims_create_uri (kind name : pystr) :
  forallb is_ascii name = true ->
  Forall (fun c => c <> underscore) name ->
  name_to_uri kind name
  = URIRef (str "http://leuphana.de/resource/" ++ kind ++ str "/"
            ++ strip_by is_hyphen (create_slug name))
  /\ (name_to_uri kind name = URIRef (create_uri kind name)
      <-> startswith (create_slug name) (str "-") = false
          /\ endswith (create_slug name) (str "-") = false).
Proof.
  intros Ha Hu.
  pose proof (@name_slug_strips_create_slug name
                (@filters_agree_ascii name Ha Hu)) as E.
  assert (E1 : name_to_uri kind name
               = URIRef (str "http://leuphana.de/resource/" ++ kind
                         ++ str "/" ++ name_slug name)) by reflexivity.
  assert (E2 : create_uri kind name
               = str "http://leuphana.de/resource/" ++ kind ++ str "/"
                 ++ create_slug name) by reflexivity.
  split; [now rewrite E1, E|].
  rewrite E1, E2, E. split.
  - intros H. injection H as H. apply app_inv_head in H.
    injection H as H. rewrite <- H. apply strip_hyphens_ends.
  - intros [Hs He]. now rewrite strip_hyphens_fixed.
Qed.

End Canonical.

Lemma filter_all {A} (f : A -> bool) (l : list A) :
  Forall (fun a => f a = true) l -> filter f l = l.
Proof.
  induction 1 as [|a l Ha _ IH]; simpl; [reflexivity|]. now rewrite Ha, IH.
Qed.

Lemma map_fixed {A} (f : A -> A) (l : list A) :
  Forall (fun a => f a = a) l -> map f l = l.
Proof.
  induction 1 as [|a l Ha _ IH]; simpl; [reflexivity|]. now rewrite Ha, IH.
Qed.

Lemma ascii_lower_idempotent (c : N) :
  ascii_lower (ascii_lower c) = ascii_lower c.
Proof.
  unfold ascii_lower at 2 3, in_range.
  destruct ((65 <=? c) && (c <=? 90))%N eqn:E; [|unfold ascii_lower, in_range; now rewrite E].
  apply andb_true_iff in E as [A B]. apply N.leb_le in A, B.
  unfold ascii_lower, in_range.
  replace ((65 <=? c + 32) && (c + 32 <=? 90))%N with false; [reflexivity|].
  symmetry. apply andb_false_iff. right. apply N.leb_gt. lia.
Qed.

Section CanonicalForms.
Context {U : UnicodeDB}.

Lemma name_slug_chars (name : pystr) :
  Forall (fun c => slug_char c = true) (name_slug name).
Proof.
  unfold name_slug, re_delete_outside.
  apply Forall_strip_by.
  apply Forall_re_sub_runs; [repeat constructor|].
  eapply Forall_impl; [intros c Hc _; exact Hc|].
  apply Forall_re_sub_runs; [repeat constructor|].
  apply Forall_forall. intros c Hc Hs. apply filter_In in Hc as [_ Hk].
  unfold keep_lower_digit_space_hyphen in Hk. unfold slug_char.
  rewrite Hs, orb_false_r in Hk. exact Hk.
Qed.

Lemma name_slug_canonical (name : pystr) :
  Forall (fun c => slug_char c = true) (name_slug name)
  /\ contains (str "--") (name_slug name) = false
  /\ startswith (name_slug name) (str "-") = false
  /\ endswith (name_slug name) (str "-") = false.
Proof.
  split; [apply name_slug_chars|]. split.
  - rewrite name_slug_collapsed.
    apply (@replaced_runs_no_double is_separator separator_not_hyphen).
  - apply strip_hyphens_ends.
Qed.

(** X2. The slug of [name_to_uri] consists of the letters a-z, digits and
    hyphens, has no two hyphens in a row and no hyphen at either end. *)
Theorem name_to_uri_slug_shape (kind name : pystr) :
  name_to_uri kind name
  = URIRef (str "http://leuphana.de/resource/" ++ kind ++ str "/"
            ++ name_slug name)
  /\ Forall (fun c => slug_char c = true) (name_slug name)
  /\ contains (str "--") (name_slug name) = false
  /\ startswith (name_slug name) (str "-") = false
  /\ endswith (name_slug name) (str "-") = false.
Proof.
  split; [reflexivity | apply name_slug_canonical].
Qed.

Lemma name_slug_fixed (g : pystr) :
  Forall (fun c => slug_char c = true) g ->
  contains (str "--") g = false ->
  startswith g (str "-") = false -> endswith g (str "-") = false ->
  name_slug g = g.
Proof.
  intros Hc Hdd Hs He.
  assert (Ha : forallb is_ascii g = true).
  { apply forallb_forall. rewrite Forall_forall in Hc. intros c Hin.
    now apply slug_char_facts, Hc. }
  unfold name_slug, re_delete_outside. rewrite (lower_ascii _ Ha).
  rewrite map_fixed
    by (eapply Forall_impl; [|exact Hc]; intros c H; now apply slug_char_facts).
  rewrite filter_all.
  2:{ eapply Forall_impl; [|exact Hc]. intros c H.
      unfold keep_lower_digit_space_hyphen. unfold slug_char in H.
      destruct (in_range 97 122 c), (in_range 48 57 c), (is_hyphen c);
        try discriminate; cbn; rewrite ?orb_true_r; reflexivity. }
  rewrite (@re_sub_runs_none isspace).
  2:{ eapply Forall_impl; [|exact Hc]. intros c H.
      destruct (slug_char_facts _ H) as (A & _ & S).
      now rewrite (isspace_ascii _ A). }
  rewrite collapse_hyphens_fixed by (auto; discriminate).
  now apply strip_hyphens_fixed.
Qed.

Lemma create_slug_ascii_chars (name : pystr) :
  forallb is_ascii name = true ->
  Forall (fun c => (is_ascii c = true /\ ascii_lower c = c)
                   /\ keep_word_space_hyphen c = true
                   /\ isspace c = false)
    (create_slug name).
Proof.
  intros Ha. unfold create_slug. rewrite (lower_ascii _ Ha).
  apply Forall_re_sub_runs; [repeat constructor|].
  eapply Forall_impl; [intros c Hc _; exact Hc|].
  apply Forall_re_sub_runs; [repeat constructor|].
  eapply Forall_impl with
    (P := fun c => (is_ascii c = true /\ ascii_lower c = c)
                   /\ keep_word_space_hyphen c = true);
    [intros c [Hc Hk] Hs; auto|].
  apply Forall_strip_by. apply Forall_forall. intros c Hin.
  apply filter_In in Hin as [Hin Hk].
  apply in_map_iff in Hin as (c0 & <- & Hc0).
  rewrite forallb_forall in Ha.
  repeat split; auto using ascii_lower_is_ascii, ascii_lower_idempotent.
Qed.

Lemma create_slug_fixed (name : pystr) :
  forallb is_ascii name = true ->
  create_slug (create_slug name) = create_slug name.
Proof.
  intros Ha. pose proof (create_slug_ascii_chars _ Ha) as Hc.
  set (g := create_slug name) in *.
  assert (Hg : forallb is_ascii g = true).
  { apply forallb_forall. rewrite Forall_forall in Hc. intros c Hin.
    now destruct (Hc c Hin) as [[A _] _]. }
  unfold create_slug at 1. rewrite (lower_ascii _ Hg).
  rewrite map_fixed
    by (eapply Forall_impl; [|exact Hc]; intros c [[_ H] _]; exact H).
  rewrite filter_all
    by (eapply Forall_impl; [|exact Hc]; intros c [_ [H _]]; exact H).
  unfold strip. rewrite strip_by_none
    by (eapply Forall_impl; [|exact Hc]; intros c [_ [_ H]]; exact H).
  rewrite (@re_sub_runs_none isspace)
    by (eapply Forall_impl; [|exact Hc]; intros c [_ [_ H]]; exact H).
  apply collapse_hyphens_fixed; [|discriminate].
  apply collapsed_hyphens.
Qed.

(** X3. A slug canonicalises to itself: [name_to_uri] applied to the slug it
    made of a name gives the uri of the name again, and so does [create_uri]
    applied to its own slug when the name is ASCII. *)
Theorem canonical_slugs_are_fixed (kind name : pystr) :
  name_to_uri kind (name_slug name) = name_to_uri kind name
  /\ (forallb is_ascii name = true ->
      create_uri kind (create_slug name) = create_uri kind name).
Proof.
  split.
  - destruct (name_slug_canonical name) as (Hc & Hdd & Hs & He).
    change (name_to_uri kind ?n)
      with (URIRef (INSTANCE_NS ++ kind ++ str "/" ++ name_slug n)).
    now rewrite name_slug_fixed.
  - intros Ha.
    change (create_uri kind ?n)
      with (INSTANCE_NS ++ kind ++ str "/" ++ create_slug n).
    now rewrite create_slug_fixed.
Qed.

(** X4. The case of ASCII names does not matter to either canonicaliser. *)
Theorem canonicalisers_ignore_ascii_case (kind name : pystr) :
  forallb is_ascii name = true ->
  create_uri kind (upper name) = create_uri kind name
  /\ name_to_uri kind (upper name) = name_to_uri kind name.
Proof.
  intros Ha. unfold create_uri, name_to_uri.
  now rewrite (lower_upper_ascii _ Ha).
Qed.

Lemma lower_padded (ws1 name ws2 : pystr) :
  forallb is_ascii name = true ->
  forallb ascii_isspace ws1 = true -> forallb ascii_isspace ws2 = true ->
  lower (ws1 ++ name ++ ws2) = ws1 ++ lower name ++ ws2
  /\ forallb isspace ws1 = true /\ forallb isspace ws2 = true.
Proof.
  intros Ha H1 H2.
  assert (A : forall ws, forallb ascii_isspace ws = true ->
                forallb is_ascii ws = true /\ lower ws = ws
                /\ forallb isspace ws = true).
  { intros ws H. rewrite forallb_forall in H.
    assert (Hw : forallb is_ascii ws = true)
      by (apply forallb_forall; intros c Hc;
          now apply ascii_isspace_is_ascii, H).
    repeat split; [exact Hw | |].
    - rewrite (lower_ascii _ Hw). apply map_fixed, Forall_forall.
      intros c Hc. now apply ascii_lower_space, H.
    - apply forallb_forall. intros c Hc.
      rewrite isspace_ascii; [now apply H | now apply ascii_isspace_is_ascii, H]. }
  destruct (A ws1 H1) as (A1 & L1 & S1), (A ws2 H2) as (A2 & L2 & S2).
  repeat split; auto.
  rewrite !lower_app_ascii, L1, L2; auto.
  rewrite forallb_app. now rewrite Ha, A2.
Qed.

Lemma filter_padded (keep : N -> bool) (ws1 y ws2 : pystr) :
  (forall c, isspace c = true -> keep c = true) ->
  forallb isspace ws1 = true -> forallb isspace ws2 = true ->
  filter keep (ws1 ++ y ++ ws2) = ws1 ++ filter keep y ++ ws2.
Proof.
  intros Hk H1 H2. rewrite !filter_app.
  rewrite forallb_forall in H1, H2.
  rewrite (filter_all keep (l := ws1)), (filter_all keep (l := ws2));
    [reflexivity | |]; apply Forall_forall; auto.
Qed.

(** X5. ASCII whitespace before and after an ASCII name does not matter to
    either canonicaliser. *)
Theorem canonicalisers_ignore_surrounding_whitespace
    (kind ws1 name ws2 : pystr) :
  forallb is_ascii name = true ->
  forallb ascii_isspace ws1 = true -> forallb ascii_isspace ws2 = true ->
  create_uri kind (ws1 ++ name ++ ws2) = create_uri kind name
  /\ name_to_uri kind (ws1 ++ name ++ ws2) = name_to_uri kind name.
Proof.
  intros Ha H1 H2.
  destruct (@lower_padded ws1 name ws2 Ha H1 H2) as (L & S1 & S2).
  split.
  - unfold create_uri. rewrite L, filter_padded; auto.
    + unfold strip. now rewrite strip_by_pads.
    + intros c Hc. unfold keep_word_space_hyphen. now rewrite Hc, orb_true_r.
  - change (name_to_uri kind ?n)
      with (URIRef (INSTANCE_NS ++ kind ++ str "/" ++ name_slug n)).
    rewrite !name_slug_collapsed, L, filter_padded; auto.
    + rewrite strip_by_pads; auto using space_is_separator.
    + intros c Hc. unfold keep_lower_digit_space_hyphen.
      now rewrite Hc, orb_true_r.
Qed.

End CanonicalForms.

(** *** Names and categories *)

Lemma contains_in_context (t s a b : pystr) :
  contains t s = true -> contains t (a ++ s ++ b) = true.
Proof.
  intros H. apply contains_inv in H as (pre & post & ->).
  replace (a ++ (pre ++ t ++ post) ++ b) with ((a ++ pre) ++ t ++ (post ++ b))
    by (now rewrite <- !app_assoc).
  apply contains_app.
Qed.

Lemma contains_map (f : N -> N) (t s : pystr) :
  contains t s = true -> contains (map f t) (map f s) = true.
Proof.
  intros H. apply contains_inv in H as (pre & post & ->).
  rewrite !map_app. apply contains_app.
Qed.

Section NamesAndCategories.
Context {U : UnicodeDB}.

Lemma strip_titles_prefix (tp np acc : list pystr) :
  forallb is_title_token tp = true ->
  is_title_token (hd [] np) = false -> np <> [] ->
  strip_titles acc (tp ++ np) = (acc ++ tp, np).
Proof.
  revert acc. induction tp as [|t tp IH]; intros acc Ht Hn Hne; simpl.
  - rewrite app_nil_r. destruct np as [|n np]; [contradiction|].
    simpl in Hn |- *. now rewrite Hn.
  - simpl in Ht. apply andb_true_iff in Ht as [T Ht]. rewrite T, IH; auto.
    now rewrite <- app_assoc.
Qed.

(** X6. The tokens of a name are cut at the first token that is no title:
    the tokens before it, joined by spaces, are the title (absent when there
    are none), the last token of the input is the last name, and the tokens
    in between are the first name (absent when only one token is left). *)
Theorem extract_name_parts_tokens (full_name : pystr) (tp np : list pystr) :
  split full_name = tp ++ np ->
  forallb is_title_token tp = true ->
  np <> [] ->
  is_title_token (hd [] np) = false ->
  extract_name_parts full_name
  = (if (2 <=? List.length np)%nat
     then Some (join (str " ") (removelast np)) else None,
     last (split full_name) [],
     match tp with [] => None | _ => Some (join (str " ") tp) end).
Proof.
  intros E Ht Hne Hn. unfold extract_name_parts.
  rewrite E, (strip_titles_prefix tp [] Ht Hn Hne). cbn [app].
  assert (L : last (tp ++ np) [] = last np []).
  { clear - Hne. induction tp as [|t tp IH]; [reflexivity|].
    simpl. destruct (tp ++ np) eqn:A; [|exact IH].
    apply app_eq_nil in A as [_ ->]. contradiction. }
  rewrite L.
  destruct np as [|a [|b np]]; [contradiction | reflexivity | reflexivity].
Qed.

(** X7. The free-text classifier never answers [AdministrativeStaff]. *)
Theorem determine_person_category_not_administrative (text url title : pystr) :
  determine_person_category text url title <> AdministrativeStaff.
Proof.
  unfold determine_person_category.
  repeat match goal with
         | |- (if ?c then _ else _) <> _ => destruct c; [discriminate|]
         end.
  discriminate.
Qed.

Lemma combined_text_ascii (text url title : pystr) :
  forallb is_ascii text = true -> forallb is_ascii url = true ->
  forallb is_ascii title = true ->
  combined_text text url title
  = lower text ++ str " " ++ lower url ++ str " " ++ lower title.
Proof.
  intros Ht Hu Hti. unfold combined_text.
  assert (A : forall a b, forallb is_ascii a = true ->
                forallb is_ascii b = true -> forallb is_ascii (a ++ b) = true)
    by (intros a b Ha Hb; rewrite forallb_app; now rewrite Ha, Hb).
  rewrite !lower_app_ascii; auto.
Qed.

(** X8. For ASCII input, a title with "Prof." in it always gives one of the
    six professor ranks. *)
Theorem professor_title_gives_professor_rank (text url title : pystr) :
  forallb is_ascii text = true -> forallb is_ascii url = true ->
  forallb is_ascii title = true ->
  contains (str "Prof.") title = true ->
  is_professor_rank (determine_person_category text url title) = true.
Proof.
  intros Ht Hu Hti Hp.
  assert (C : contains (str "prof.") (combined_text text url title) = true).
  { rewrite combined_text_ascii by assumption.
    replace (lower text ++ str " " ++ lower url ++ str " " ++ lower title)
      with ((lower text ++ str " " ++ lower url ++ str " ")
            ++ lower title ++ [])
      by (now rewrite app_nil_r, <- !app_assoc).
    apply contains_in_context. rewrite (lower_ascii _ Hti).
    now apply (contains_map ascii_lower) in Hp. }
  unfold determine_person_category. cbv zeta. rewrite C. cbn [orb].
  repeat match goal with
         | |- is_professor_rank (if ?c then _ else _) = true =>
             destruct c; [reflexivity|]
         end.
  reflexivity.
Qed.

(** X9. For ASCII input, the category does not depend on the case of the
    text, the url and the title. *)
Theorem determine_person_category_ignores_ascii_case (text url title : pystr) :
  forallb is_ascii text = true -> forallb is_ascii url = true ->
  forallb is_ascii title = true ->
  determine_person_category (upper text) (upper url) (upper title)
  = determine_person_category text url title.
Proof.
  intros Ht Hu Hti.
  assert (A : forall s, forallb is_ascii s = true ->
                forallb is_ascii (upper s) = true).
  { intros s Hs. rewrite (upper_ascii _ Hs).
    apply forallb_map_ascii; [apply ascii_upper_is_ascii | exact Hs]. }
  assert (C : combined_text (upper text) (upper url) (upper title)
              = combined_text text url title).
  { rewrite !combined_text_ascii; auto. now rewrite !lower_upper_ascii. }
  unfold determine_person_category. now rewrite C.
Qed.

(** X10. Every category the scraper can assign has its own class in the
    mapping of the generator, and a person carrying it is typed with that
    class and with [foaf:Person]. *)
Theorem person_category_becomes_class
    (g : graph) (person_data : Person) (c : Category) :
  p_category person_data = Some (category_name c) ->
  In (URIRef (p_uri person_data), RDF_type,
      URIRef (ONTOLOGY_NS ++ category_name c))
     (add_person g person_data)
  /\ In (URIRef (p_uri person_data), RDF_type, FOAF "Person")
       (add_person g person_data).
Proof.
  intros Hc.
  assert (T : forall d, table_get category_mapping (category_name c) d
                        = URIRef (ONTOLOGY_NS ++ category_name c))
    by (intros d; destruct c; reflexivity).
  unfold add_person. rewrite Hc, T.
  set (g1 := add_all g _).
  assert (H1 : In (uri_from_string (p_uri person_data), RDF_type,
                   URIRef (ONTOLOGY_NS ++ category_name c)) g1
               /\ In (uri_from_string (p_uri person_data), RDF_type,
                      FOAF "Person") g1).
  { split; apply In_add_all; right; simpl; auto. }
  clearbody g1.
  destruct (match p_institute person_data with
            | Some (_ :: _ as institute) => _ | _ => (g1, false) end)
    as [g2 l2] eqn:E2.
  assert (X2 : extends g1 g2).
  { destruct (p_institute person_data) as [[|x s]|];
      try (injection E2 as <- _; auto with graph).
    destruct (find_institute g1 (x :: s)) as [i|];
      [destruct (node_set (Some i))|]; injection E2 as <- _; auto with graph. }
  clear E2.
  destruct (match p_school person_data with
            | Some (_ :: _ as school) => _ | _ => (g2, l2) end)
    as [g3 l3] eqn:E3.
  assert (X3 : extends g2 g3).
  { destruct (p_school person_data) as [[|x s]|]; injection E3 as <- _;
      auto with graph. }
  clear E3.
  assert (X4 : extends g1
                 (add_all
                    (if negb l3
                     then add_all g3
                            [(uri_from_string (p_uri person_data),
                              LEUPH "affiliatedWith", university_uri);
                             (university_uri, LEUPH "hasAffiliate",
                              uri_from_string (p_uri person_data))]
                     else g3)
                    (map (fun area =>
                            (uri_from_string (p_uri person_data),
                             LEUPH "hasResearchArea", lit area))
                       (p_research_areas person_data)))).
  { eapply extends_trans; [|apply extends_add_all].
    destruct (negb l3);
      repeat (eapply extends_trans; [eassumption|]); auto with graph. }
  destruct H1 as [Ha Hb]. split; apply X4; assumption.
Qed.

End NamesAndCategories.

(** *** The dictionaries of the scraper *)

Lemma dict_mem_In {V} (d : dict V) (k : pystr) :
  dict_mem d k = true <-> In k (keys d).
Proof.
  unfold dict_mem, keys. induction d as [|[k' v] d IH]; simpl.
  - split; [discriminate | tauto].
  - destruct (eqb k' k) eqn:E.
    + apply eqb_eq in E. subst. split; auto.
    + rewrite IH. split; [now right|]. intros [H | H]; [|exact H].
      simpl in H. subst. now rewrite eqb_refl in E.
Qed.

Lemma dict_mem_set {V} (d : dict V) (k : pystr) (v : V) :
  dict_mem (dict_set d k v) k = true.
Proof. unfold dict_mem. now rewrite dict_get_set_same. Qed.

Lemma dict_mem_set_mono {V} (d : dict V) (k k' : pystr) (v : V) :
  dict_mem d k' = true -> dict_mem (dict_set d k v) k' = true.
Proof.
  intros H. destruct (eqb k' k) eqn:E.
  - apply eqb_eq in E. subst. apply dict_mem_set.
  - unfold dict_mem in *. rewrite dict_get_set_other; [exact H|].
    now apply eqb_neq.
Qed.

Lemma keyed_by_set {V} (uri_of : V -> pystr) (d : dict V) (v : V) :
  keyed_by uri_of d -> keyed_by uri_of (dict_set d (uri_of v) v).
Proof.
  unfold keyed_by. induction 1 as [|[k' v'] d Hk Hd IH]; simpl.
  - constructor; [reflexivity | constructor].
  - destruct (eqb k' (uri_of v)) eqn:E.
    + apply eqb_eq in E. constructor; [exact E | assumption].
    + constructor; [exact Hk | exact IH].
Qed.

Lemma NoDup_keys_set {V} (d : dict V) (k : pystr) (v : V) :
  NoDup (keys d) -> NoDup (keys (dict_set d k v)).
Proof.
  intros H. destruct (dict_mem d k) eqn:M.
  - unfold keys. now rewrite dict_set_keys_present.
  - rewrite dict_set_keys_absent by assumption. unfold keys.
    rewrite map_app. simpl. apply NoDup_app; [exact H | |].
    + constructor; [intros [] | constructor].
    + intros x Hx [<- | []].
      apply dict_mem_In in Hx. congruence.
Qed.

Lemma unique_uris_set {V} (uri_of : V -> pystr) (d : dict V) (v : V) :
  unique_uris uri_of d -> unique_uris uri_of (dict_set d (uri_of v) v).
Proof.
  intros [K N]. split; [now apply keyed_by_set | now apply NoDup_keys_set].
Qed.

Lemma set_mem_add (s : list pystr) (x : pystr) :
  set_mem (set_add s x) x = true.
Proof.
  unfold set_add. destruct (set_mem s x) eqn:M; [exact M|].
  unfold set_mem. rewrite existsb_app. simpl. now rewrite eqb_refl, orb_true_r.
Qed.

Lemma set_mem_add_mono (s : list pystr) (x y : pystr) :
  set_mem s y = true -> set_mem (set_add s x) y = true.
Proof.
  intros H. unfold set_add. destruct (set_mem s x); [exact H|].
  unfold set_mem in *. rewrite existsb_app. now rewrite H.
Qed.

Section Dictionaries.
Context {U : UnicodeDB}.

Lemma unique_uris_list_page_link full_url category st link :
  unique_uris p_uri (persons st) ->
  unique_uris p_uri (persons (snd (list_page_link full_url category st link))).
Proof.
  intros H. unfold list_page_link.
  destruct (l_href link); [exact H|].
  destruct (_ || _); [exact H|].
  destruct (l_text link) as [|c t]; [exact H|].
  destruct (_ <? _)%nat; [exact H|].
  destruct (extract_name_parts (c :: t)) as [[f l] ti].
  cbn [snd persons with_visited with_persons].
  match goal with
  | |- unique_uris _ (dict_set _ (p_uri ?p) _) =>
      apply (@unique_uris_set _ p_uri _ p H)
  end.
Qed.

Lemma unique_uris_list_page_links full_url category links st :
  unique_uris p_uri (persons st) ->
  unique_uris p_uri
    (persons (snd (list_page_links full_url category st links))).
Proof.
  revert st. induction links as [|link links IH]; intros st H; [exact H|].
  cbn [list_page_links].
  pose proof (unique_uris_list_page_link full_url category st link H) as H1.
  destruct (list_page_link full_url category st link) as [p st1].
  specialize (IH st1 H1).
  destruct (list_page_links full_url category st1 links) as [ps st2].
  exact IH.
Qed.

(** X11. Every path that registers persons, chairs, Hiwi postings, courses and
    organisations stores a record under the uri the record carries and
    never under a key that is already there: if this holds of the
    dictionaries before, it holds after. *)
Theorem registration_keeps_unique_uris
    (st : state) (full_url : pystr) (category : option pystr)
    (links : option (list person_link)) (profile : option profile_page)
    (title url : pystr) (posting : option hiwi_page)
    (chair_name : pystr) (professor_name : option pystr)
    (source_url institute_key : pystr)
    (course_name : pystr) (instructor_name : option pystr)
    (credits : option Z) (program_uri course_type : option pystr)
    (cs : dict Course) (school_name : pystr) (description : option pystr) :
  unique_uris p_uri (persons st) ->
  unique_uris c_uri (chairs st) ->
  unique_uris h_uri (hiwi_positions st) ->
  unique_uris co_uri cs ->
  unique_uris o_uri (organizations st) ->
  unique_uris p_uri
    (persons (snd (scrape_person_list_page full_url category links st)))
  /\ unique_uris p_uri
       (persons (snd (scrape_person_profile full_url profile st)))
  /\ unique_uris h_uri
       (hiwi_positions (_scrape_single_hiwi_position title url posting st))
  /\ (let st' := _create_chair_from_heading chair_name professor_name
                   source_url institute_key st in
      unique_uris p_uri (persons st') /\ unique_uris c_uri (chairs st'))
  /\ (let r := _create_course_entity course_name instructor_name credits
                 program_uri course_type source_url (persons st) cs in
      unique_uris p_uri (fst r) /\ unique_uris co_uri (snd r))
  /\ unique_uris o_uri
       (snd (scrape_school school_name full_url description
               (organizations st)))
  /\ unique_uris o_uri (create_university_entity (organizations st)).
Proof.
  intros Hp Hc Hh Hco Ho.
  split; [|split; [|split; [|split; [|split; [|split]]]]].
  - destruct links as [links|]; [|exact Hp].
    now apply unique_uris_list_page_links.
  - unfold scrape_person_profile.
    destruct (set_mem _ _); [exact Hp|].
    destruct profile as [page|]; [|exact Hp].
    destruct (pp_name page) as [[|c n]|]; try exact Hp.
    destruct (extract_name_parts (c :: n)) as [[f l] ti].
    cbn [snd persons with_visited with_persons].
    match goal with
    | |- unique_uris _ (dict_set _ (p_uri ?p) _) =>
        apply (@unique_uris_set _ p_uri _ p Hp)
    end.
  - unfold _scrape_single_hiwi_position.
    destruct posting as [page|]; [|exact Hh].
    destruct (_ <? _)%nat; [exact Hh|].
    cbn [hiwi_positions with_visited].
    destruct (dict_mem _ _); [exact Hh|].
    cbn [hiwi_positions with_hiwi_positions].
    match goal with
    | |- unique_uris _ (dict_set _ ?k ?v) =>
        apply (@unique_uris_set _ h_uri _ v Hh)
    end.
  - cbv zeta. unfold _create_chair_from_heading.
    destruct (_ <? _)%nat; [now split|].
    destruct (dict_mem _ _); [now split|].
    destruct professor_name as [[|c n]|];
      [| destruct (find_professor (persons st) (c :: n)) as [[|k ks]|];
         try destruct (extract_name_parts (c :: n)) as [[f l] ti] |];
      cbn [persons chairs with_chairs with_persons];
      (split;
       [ first [ exact Hp
               | match goal with
                 | |- unique_uris _ (dict_set _ (p_uri ?p) _) =>
                     apply (@unique_uris_set _ p_uri _ p Hp)
                 end ]
       | match goal with
         | |- unique_uris _ (dict_set _ ?k ?v) =>
             apply (@unique_uris_set _ c_uri _ v Hc)
         end ]).
  - cbv zeta. unfold _create_course_entity.
    destruct (_ <? _)%nat; [now split|].
    destruct (dict_mem _ _); [now split|].
    destruct instructor_name as [[|c n]|];
      [| destruct (find_person_either_way _ _);
         [| destruct (_ || _);
            [destruct (extract_name_parts _) as [[f l] ti]|]] |];
      cbn [fst snd];
      (split;
       [ first [ exact Hp
               | match goal with
                 | |- unique_uris _ (dict_set _ (p_uri ?p) _) =>
                     apply (@unique_uris_set _ p_uri _ p Hp)
                 end ]
       | match goal with
         | |- unique_uris _ (dict_set _ ?k ?v) =>
             apply (@unique_uris_set _ co_uri _ v Hco)
         end ]).
  - unfold scrape_school. cbn [snd].
    match goal with
    | |- unique_uris _ (dict_set _ (o_uri ?v) _) =>
        apply (@unique_uris_set _ o_uri _ v Ho)
    end.
  - unfold create_university_entity.
    match goal with
    | |- unique_uris _ (dict_set _ (o_uri ?v) _) =>
        apply (@unique_uris_set _ o_uri _ v Ho)
    end.
Qed.

End Dictionaries.

(** *** Visited pages and repeated registration *)

Lemma In_dict_mem {V} (d : dict V) (k : pystr) (v : V) :
  In (k, v) d -> dict_mem d k = true.
Proof.
  intros H. apply dict_mem_In. unfold keys.
  change k with (fst (k, v)). now apply in_map.
Qed.

Lemma dict_set_twice {V} (d : dict V) (k : pystr) (v : V) :
  dict_set (dict_set d k v) k v = dict_set d k v.
Proof.
  induction d as [|[k' v'] d IH]; simpl.
  - now rewrite eqb_refl.
  - destruct (eqb k' k) eqn:E; simpl; rewrite E; [reflexivity|].
    now rewrite IH.
Qed.

Lemma set_add_twice (s : list pystr) (x : pystr) :
  set_add (set_add s x) x = set_add s x.
Proof.
  unfold set_add at 1. now rewrite set_mem_add.
Qed.

Lemma find_some_option_map {A B} (f : A -> bool) (g : A -> B)
    (l : list A) (y : B) :
  option_map g (find f l) = Some y ->
  exists x, In x l /\ f x = true /\ g x = y.
Proof.
  destruct (find f l) as [x|] eqn:E; simpl; [|discriminate].
  intros H. injection H as H. apply find_some in E. now exists x.
Qed.

Section Visits.
Context {U : UnicodeDB}.

Lemma list_page_link_skipped full_url category st link :
  link_skipped st link = true ->
  list_page_link full_url category st link = (None, st).
Proof.
  unfold link_skipped, list_page_link.
  destruct (l_href link); [reflexivity|].
  destruct (set_mem _ _ || negb _); [reflexivity|]. simpl.
  destruct (l_text link) as [|c t]; [reflexivity|].
  intros ->. reflexivity.
Qed.

Lemma list_page_link_visited full_url category st link x :
  set_mem (visited_urls st) x = true ->
  set_mem (visited_urls (snd (list_page_link full_url category st link))) x
  = true.
Proof.
  intros H. unfold list_page_link.
  destruct (l_href link); [exact H|].
  destruct (_ || _); [exact H|].
  destruct (l_text link) as [|c t]; [exact H|].
  destruct (_ <? _)%nat; [exact H|].
  destruct (extract_name_parts (c :: t)) as [[f l] ti].
  cbn [snd visited_urls with_visited]. now apply set_mem_add_mono.
Qed.

Lemma list_page_link_then_skipped full_url category st link :
  link_skipped (snd (list_page_link full_url category st link)) link = true.
Proof.
  unfold list_page_link, link_skipped.
  destruct (l_href link) as [|h hs] eqn:Eh; [reflexivity|].
  destruct (set_mem (visited_urls st) (l_person_url link)) eqn:Ev;
    [cbn [orb snd]; now rewrite Ev|].
  destruct (l_allowed link); cbn [orb negb snd];
    [|now rewrite orb_true_r].
  destruct (l_text link) as [|c t] eqn:Et; cbn [snd];
    [now rewrite orb_true_r|].
  destruct (_ <? _)%nat eqn:El; cbn [snd]; [now rewrite orb_true_r|].
  destruct (extract_name_parts (c :: t)) as [[f l] ti].
  cbn [snd visited_urls with_visited]. now rewrite set_mem_add.
Qed.

Lemma link_skipped_later st st' link :
  (forall x, set_mem (visited_urls st) x = true ->
             set_mem (visited_urls st') x = true) ->
  link_skipped st link = true -> link_skipped st' link = true.
Proof.
  intros M. unfold link_skipped. destruct (l_href link); [easy|].
  destruct (set_mem (visited_urls st) _) eqn:E.
  - now rewrite (M _ E).
  - cbn [orb]. intros H. apply orb_true_iff in H.
    destruct H as [H | H]; rewrite H; now rewrite ?orb_true_r.
Qed.

Lemma list_page_links_visited full_url category links st x :
  set_mem (visited_urls st) x = true ->
  set_mem (visited_urls (snd (list_page_links full_url category st links))) x
  = true.
Proof.
  revert st. induction links as [|link links IH]; intros st H; [exact H|].
  cbn [list_page_links].
  pose proof (list_page_link_visited full_url category st link x H) as H1.
  destruct (list_page_link full_url category st link) as [p st1].
  specialize (IH st1 H1).
  destruct (list_page_links full_url category st1 links) as [ps st2].
  exact IH.
Qed.

Lemma list_page_links_then_skipped full_url category links st :
  Forall (fun link =>
            link_skipped (snd (list_page_links full_url category st links))
              link = true) links.
Proof.
  revert st. induction links as [|link links IH]; intros st; [constructor|].
  cbn [list_page_links].
  pose proof (list_page_link_then_skipped full_url category st link) as H1.
  destruct (list_page_link full_url category st link) as [p st1].
  specialize (IH st1).
  pose proof (fun x => @list_page_links_visited full_url category links st1 x)
    as M.
  destruct (list_page_links full_url category st1 links) as [ps st2].
  cbn [snd] in *. constructor; [|exact IH].
  now apply (@link_skipped_later st1 st2 link M).
Qed.

Lemma list_page_links_all_skipped full_url category links st :
  Forall (fun link => link_skipped st link = true) links ->
  list_page_links full_url category st links = ([], st).
Proof.
  induction 1 as [|link links H _ IH]; [reflexivity|].
  cbn [list_page_links].
  rewrite (@list_page_link_skipped full_url category st link H).
  now rewrite IH.
Qed.

(** X12. Scraping a person list page a second time, with the anchors it gave
    the first time, registers nobody and changes nothing, whatever category
    is passed: every anchor that was registered is visited afterwards, and
    every anchor that was passed over is passed over again. *)
Theorem list_page_second_pass_is_empty
    (full_url : pystr) (category category' : option pystr)
    (links : list person_link) (st : state) :
  let st1 := snd (scrape_person_list_page full_url category (Some links) st) in
  scrape_person_list_page full_url category' (Some links) st1 = ([], st1).
Proof.
  cbv zeta. cbn [scrape_person_list_page].
  apply list_page_links_all_skipped, list_page_links_then_skipped.
Qed.

(** X13. A profile page that was fetched once is never read again: a second
    call of scrape_person_profile for the same address returns no person
    and leaves the state as it is, whatever the page shows by then, also
    when the first visit found no name on the page. *)
Theorem profile_is_read_once
    (full_url : pystr) (page : profile_page) (soup : option profile_page)
    (st : state) :
  let st1 := snd (scrape_person_profile full_url (Some page) st) in
  scrape_person_profile full_url soup st1 = (None, st1).
Proof.
  cbv zeta.
  assert (V : set_mem
                (visited_urls
                   (snd (scrape_person_profile full_url (Some page) st)))
                full_url = true).
  { unfold scrape_person_profile.
    destruct (set_mem (visited_urls st) full_url) eqn:E; [exact E|].
    destruct (pp_name page) as [[|c n]|];
      try (cbn [snd visited_urls with_visited]; apply set_mem_add).
    destruct (extract_name_parts (c :: n)) as [[f l] ti].
    cbn [snd visited_urls with_visited with_persons]. apply set_mem_add. }
  unfold scrape_person_profile at 1. now rewrite V.
Qed.

(** X14. The paths that skip what is already stored are idempotent: creating
    a chair from the same heading, a course from the same listing or a Hiwi
    posting from the same page twice leaves the dictionaries as after the
    first time, and so does registering the same school or the university
    again. *)
Theorem registration_twice_is_once
    (st : state) (chair_name : pystr) (professor_name : option pystr)
    (source_url institute_key : pystr)
    (course_name : pystr) (instructor_name : option pystr)
    (credits : option Z) (program_uri course_type : option pystr)
    (ps : dict Person) (cs : dict Course)
    (title url : pystr) (posting : option hiwi_page)
    (school_name full_url : pystr) (description : option pystr)
    (orgs : dict Organization) :
  (let f := _create_chair_from_heading chair_name professor_name source_url
              institute_key in
   f (f st) = f st)
  /\ (let f := fun r : dict Person * dict Course =>
                 _create_course_entity course_name instructor_name credits
                   program_uri course_type source_url (fst r) (snd r) in
      f (f (ps, cs)) = f (ps, cs))
  /\ (let f := _scrape_single_hiwi_position title url posting in
      f (f st) = f st)
  /\ (let f := fun d => snd (scrape_school school_name full_url description d)
      in f (f orgs) = f orgs)
  /\ create_university_entity (create_university_entity orgs)
     = create_university_entity orgs.
Proof.
  split; [|split; [|split; [|split]]]; cbv zeta.
  - unfold _create_chair_from_heading at 2 3.
    destruct (List.length (strip chair_name) <? 10)%nat eqn:L.
    + unfold _create_chair_from_heading. now rewrite L.
    + destruct (dict_mem (chairs st) _) eqn:M.
      * unfold _create_chair_from_heading. now rewrite L, M.
      * match goal with
        | |- _ ?s = ?s =>
            assert (M' : dict_mem (chairs s)
                           (create_uri (str "chair") (strip chair_name))
                         = true)
        end.
        { destruct professor_name as [[|c n]|];
            [| destruct (find_professor (persons st) (c :: n))
                 as [[|k ks]|];
               try destruct (extract_name_parts (c :: n)) as [[f l] ti] |];
            cbn [chairs with_chairs]; apply dict_mem_set. }
        unfold _create_chair_from_heading at 1. rewrite L, M'. reflexivity.
  - cbn [fst snd]. unfold _create_course_entity at 2 3 4.
    destruct (List.length (strip course_name) <? 3)%nat eqn:L.
    + cbn [fst snd]. unfold _create_course_entity. now rewrite L.
    + destruct (dict_mem cs _) eqn:M.
      * cbn [fst snd]. unfold _create_course_entity. now rewrite L, M.
      * match goal with
        | |- _ (fst ?r) (snd ?r) = ?r =>
            assert (M' : dict_mem (snd r)
                           (create_uri (str "course") (strip course_name))
                         = true)
        end.
        { destruct instructor_name as [[|c n]|];
            [| destruct (find_person_either_way _ _);
               [| destruct (_ || _);
                  [destruct (extract_name_parts _) as [[f l] ti]|]] |];
            cbn [snd]; apply dict_mem_set. }
        unfold _create_course_entity at 1. rewrite L, M'.
        now destruct (let '(_, _) := _ in _).
  - unfold _scrape_single_hiwi_position at 2 3.
    destruct posting as [page|]; [|reflexivity].
    set (t := match hp_h1 page with Some t => t | None => title end).
    destruct (List.length t <? 5)%nat eqn:L.
    + unfold _scrape_single_hiwi_position. fold t. rewrite L.
      cbn [visited_urls with_visited]. rewrite set_add_twice.
      now destruct st.
    + cbn [hiwi_positions with_visited].
      destruct (dict_mem (hiwi_positions st) _) eqn:M.
      * unfold _scrape_single_hiwi_position. fold t. rewrite L.
        cbn [hiwi_positions visited_urls with_visited]. rewrite M.
        rewrite set_add_twice. now destruct st.
      * unfold _scrape_single_hiwi_position. fold t. rewrite L.
        cbn [hiwi_positions visited_urls with_visited with_hiwi_positions].
        rewrite dict_mem_set, set_add_twice. reflexivity.
  - unfold scrape_school. cbn [snd o_uri]. apply dict_set_twice.
  - unfold create_university_entity. cbn [o_uri]. apply dict_set_twice.
Qed.

End Visits.

(** *** References between the records of the scraper *)

Section References.
Context {U : UnicodeDB}.

Lemma find_none_option_map {A B} (f : A -> bool) (g : A -> B) (l : list A) :
  Forall (fun x => f x = false) l -> option_map g (find f l) = None.
Proof.
  induction 1 as [|x l H _ IH]; [reflexivity|].
  cbn [find]. now rewrite H.
Qed.

(** X15. A chair created from a heading is stored under
    create_uri("chair", stripped heading) with the stripped heading as its
    name; its head, if it has one, is the key of a person registered
    afterwards, and its parent, if it has one, is the key of a registered
    organisation of type Institute.  Every key of the persons stays, and
    every key other than the uri made of the professor's name keeps its
    record; organisations, Hiwi postings and visited addresses are
    unchanged.  When no registered name contains the professor's name, the
    new Professor record is stored under create_uri("person", name) and
    replaces whatever record was stored under that uri, for instance the
    record of the same name in another case. *)
Theorem chair_from_heading_references
    (chair_name : pystr) (professor_name : option pystr)
    (source_url institute_key : pystr) (st : state) :
  (10 <= List.length (strip chair_name))%nat ->
  dict_mem (chairs st) (create_uri (str "chair") (strip chair_name)) = false ->
  let st' := _create_chair_from_heading chair_name professor_name source_url
               institute_key st in
  exists chair,
    dict_get (chairs st') (create_uri (str "chair") (strip chair_name))
    = Some chair
    /\ c_name chair = strip chair_name
    /\ (forall k, c_headed_by chair = Some k -> dict_mem (persons st') k = true)
    /\ (forall k, c_parent chair = Some k ->
          exists o, In (k, o) (organizations st')
                    /\ o_org_type o = str "Institute")
    /\ (forall k, dict_mem (persons st) k = true ->
                  dict_mem (persons st') k = true)
    /\ (forall k,
          (forall name, professor_name = Some name ->
                        k <> create_uri (str "person") name) ->
          dict_get (persons st') k = dict_get (persons st) k)
    /\ (forall name,
          professor_name = Some name -> name <> [] ->
          Forall (fun kv => contains name (p_name (snd kv)) = false)
            (persons st) ->
          c_headed_by chair = Some (create_uri (str "person") name)
          /\ dict_get (persons st') (create_uri (str "person") name)
             = Some {| p_uri := create_uri (str "person") name;
                       p_name := name;
                       p_first_name := fst (fst (extract_name_parts name));
                       p_last_name :=
                         Some (snd (fst (extract_name_parts name)));
                       p_title := snd (extract_name_parts name);
                       p_category := Some (str "Professor");
                       p_email := None; p_phone := None; p_office := None;
                       p_webpage := None; p_institute := None;
                       p_school := None; p_research_areas := [];
                       p_image_url := None; p_source_url := source_url |})
    /\ organizations st' = organizations st
    /\ hiwi_positions st' = hiwi_positions st
    /\ visited_urls st' = visited_urls st.
Proof.
  intros L M. cbv zeta. unfold _create_chair_from_heading.
  apply Nat.ltb_ge in L. rewrite L, M.
  assert (P : forall k,
             find_parent_institute (organizations st) institute_key = Some k ->
             exists o, In (k, o) (organizations st)
                       /\ o_org_type o = str "Institute").
  { intros k H. unfold find_parent_institute in H.
    apply find_some_option_map in H. destruct H as [[k' o] [I [T E]]].
    simpl in E. subst k'. exists o. split; [exact I|].
    apply andb_true_iff in T. destruct T as [T _]. now apply eqb_eq in T. }
  assert (N : forall name,
             Forall (fun kv => contains name (p_name (snd kv)) = false)
               (persons st) ->
             find_professor (persons st) name = None).
  { intros name H. unfold find_professor. apply find_none_option_map.
    eapply Forall_impl; [|exact H]. intros kv C. cbv beta in C |- *.
    rewrite C, orb_false_r.
    destruct (eqb (p_name (snd kv)) name) eqn:E; [|reflexivity].
    apply eqb_eq in E. rewrite E, contains_refl in C. discriminate C. }
  destruct professor_name as [[|c n]|].
  - eexists.
    cbn [chairs persons organizations hiwi_positions visited_urls with_chairs].
    rewrite dict_get_set_same.
    split; [reflexivity|]. split; [reflexivity|].
    cbn [c_headed_by c_parent].
    split; [discriminate|]. split; [exact P|]. split; [auto|].
    split; [reflexivity|].
    split; [|auto]. intros name E Hn. injection E as <-. contradiction.
  - destruct (find_professor (persons st) (c :: n)) as [[|k ks]|] eqn:F.
    + destruct (extract_name_parts (c :: n)) as [[f l] ti] eqn:X.
      eexists.
      cbn [chairs persons organizations hiwi_positions visited_urls
           with_chairs with_persons].
      rewrite dict_get_set_same.
      split; [reflexivity|]. split; [reflexivity|].
      cbn [c_headed_by c_parent p_uri fst snd].
      split; [intros k0 H; injection H as <-; apply dict_mem_set|].
      split; [exact P|].
      split; [intros k0 H; now apply dict_mem_set_mono|].
      split; [intros k0 H; apply dict_get_set_other; now apply H|].
      split; [|auto]. intros name E _ _. injection E as <-.
      rewrite X. cbn [fst snd].
      split; [reflexivity | apply dict_get_set_same].
    + eexists.
      cbn [chairs persons organizations hiwi_positions visited_urls
           with_chairs].
      rewrite dict_get_set_same.
      split; [reflexivity|]. split; [reflexivity|].
      cbn [c_headed_by c_parent].
      split.
      { intros k' H. injection H as <-.
        unfold find_professor in F. apply find_some_option_map in F.
        destruct F as [[k' p] [I [_ E]]]. simpl in E. subst k'.
        now apply (@In_dict_mem _ (persons st) (k :: ks) p). }
      split; [exact P|]. split; [auto|]. split; [reflexivity|].
      split; [|auto]. intros name E _ H. injection E as <-.
      rewrite (N _ H) in F. discriminate F.
    + destruct (extract_name_parts (c :: n)) as [[f l] ti] eqn:X.
      eexists.
      cbn [chairs persons organizations hiwi_positions visited_urls
           with_chairs with_persons].
      rewrite dict_get_set_same.
      split; [reflexivity|]. split; [reflexivity|].
      cbn [c_headed_by c_parent p_uri fst snd].
      split; [intros k0 H; injection H as <-; apply dict_mem_set|].
      split; [exact P|].
      split; [intros k0 H; now apply dict_mem_set_mono|].
      split; [intros k0 H; apply dict_get_set_other; now apply H|].
      split; [|auto]. intros name E _ _. injection E as <-.
      rewrite X. cbn [fst snd].
      split; [reflexivity | apply dict_get_set_same].
  - eexists.
    cbn [chairs persons organizations hiwi_positions visited_urls with_chairs].
    rewrite dict_get_set_same.
    split; [reflexivity|]. split; [reflexivity|].
    cbn [c_headed_by c_parent].
    split; [discriminate|]. split; [exact P|]. split; [auto|].
    split; [reflexivity|].
    split; [|auto]. intros name E. discriminate E.
Qed.

(** X16. A course created by _create_course_entity is stored under
    create_uri("course", stripped name) with the stripped name, the given
    credits and programme; it has at most one instructor, and every
    instructor it names is the key of a person registered afterwards.
    Every key of the persons stays, and every key other than the uri made
    of the stripped instructor name keeps its record.  When no registered
    name contains the stripped instructor name or is contained in it, and
    the name has "Prof." or "Dr." in it, the new person is stored under
    create_uri("person", stripped name) and replaces whatever record was
    stored under that uri. *)
Theorem course_entity_references
    (name : pystr) (instructor_name : option pystr) (credits : option Z)
    (program_uri course_type : option pystr) (source_url : pystr)
    (ps : dict Person) (cs : dict Course) :
  (3 <= List.length (strip name))%nat ->
  dict_mem cs (create_uri (str "course") (strip name)) = false ->
  let r := _create_course_entity name instructor_name credits program_uri
             course_type source_url ps cs in
  exists course,
    dict_get (snd r) (create_uri (str "course") (strip name)) = Some course
    /\ co_name course = strip name
    /\ co_credit_points course = credits
    /\ co_part_of_program course = program_uri
    /\ (List.length (co_taught_by course) <= 1)%nat
    /\ Forall (fun k => dict_mem (fst r) k = true) (co_taught_by course)
    /\ (forall k, dict_mem ps k = true -> dict_mem (fst r) k = true)
    /\ (forall k,
          (forall i, instructor_name = Some i ->
                     k <> create_uri (str "person") (strip i)) ->
          dict_get (fst r) k = dict_get ps k)
    /\ (forall i,
          instructor_name = Some i -> i <> [] ->
          Forall (fun kv =>
                    contains (strip i) (p_name (snd kv)) = false
                    /\ contains (p_name (snd kv)) (strip i) = false) ps ->
          contains (str "Prof.") (strip i) || contains (str "Dr.") (strip i)
          = true ->
          co_taught_by course = [create_uri (str "person") (strip i)]
          /\ dict_get (fst r) (create_uri (str "person") (strip i))
             = Some {| p_uri := create_uri (str "person") (strip i);
                       p_name := strip i;
                       p_first_name :=
                         fst (fst (extract_name_parts (strip i)));
                       p_last_name :=
                         Some (snd (fst (extract_name_parts (strip i))));
                       p_title := snd (extract_name_parts (strip i));
                       p_category :=
                         Some (if contains (str "Prof.") (strip i)
                               then str "Professor" else str "Lecturer");
                       p_email := None; p_phone := None; p_office := None;
                       p_webpage := None; p_institute := None;
                       p_school := None; p_research_areas := [];
                       p_image_url := None; p_source_url := source_url |}).
Proof.
  intros L M. cbv zeta. unfold _create_course_entity.
  apply Nat.ltb_ge in L. rewrite L, M.
  assert (N : forall i,
             Forall (fun kv =>
                       contains (strip i) (p_name (snd kv)) = false
                       /\ contains (p_name (snd kv)) (strip i) = false) ps ->
             find_person_either_way ps (strip i) = None).
  { intros i H. unfold find_person_either_way. apply find_none_option_map.
    eapply Forall_impl; [|exact H]. intros kv [A B]. cbv beta in A, B |- *.
    now rewrite A, B. }
  destruct instructor_name as [[|c n]|].
  - eexists. cbn [fst snd]. rewrite dict_get_set_same.
    do 4 (split; [reflexivity|]). cbn [co_taught_by].
    split; [simpl; lia|]. split; [constructor|]. split; [auto|].
    split; [reflexivity|]. intros i E Hn. injection E as <-. contradiction.
  - destruct (find_person_either_way ps (strip (c :: n))) as [k|] eqn:F.
    + eexists. cbn [fst snd]. rewrite dict_get_set_same.
      do 4 (split; [reflexivity|]). cbn [co_taught_by].
      split; [simpl; lia|]. split.
      { constructor; [|constructor].
        unfold find_person_either_way in F. apply find_some_option_map in F.
        destruct F as [[k' p] [I [_ E]]]. simpl in E. subst k'.
        now apply (@In_dict_mem _ ps k p). }
      split; [auto|]. split; [reflexivity|].
      intros i E _ H. injection E as <-. rewrite (N _ H) in F. discriminate F.
    + destruct (contains (str "Prof.") (strip (c :: n))
                || contains (str "Dr.") (strip (c :: n))) eqn:D.
      * destruct (extract_name_parts (strip (c :: n))) as [[f l] ti] eqn:X.
        eexists. cbn [fst snd]. rewrite dict_get_set_same.
        do 4 (split; [reflexivity|]). cbn [co_taught_by p_uri].
        split; [simpl; lia|].
        split; [constructor; [apply dict_mem_set | constructor]|].
        split; [intros k H; now apply dict_mem_set_mono|].
        split; [intros k H; apply dict_get_set_other; now apply H|].
        intros i E _ _ _. injection E as <-. rewrite X. cbn [fst snd].
        split; [reflexivity | apply dict_get_set_same].
      * eexists. cbn [fst snd]. rewrite dict_get_set_same.
        do 4 (split; [reflexivity|]). cbn [co_taught_by].
        split; [simpl; lia|]. split; [constructor|]. split; [auto|].
        split; [reflexivity|].
        intros i E _ _ D'. injection E as <-. rewrite D in D'. discriminate D'.
  - eexists. cbn [fst snd]. rewrite dict_get_set_same.
    do 4 (split; [reflexivity|]). cbn [co_taught_by].
    split; [simpl; lia|]. split; [constructor|]. split; [auto|].
    split; [reflexivity|]. intros i E. discriminate E.
Qed.

(** X17. An instructor name that is not empty but consists of whitespace only
    is stripped to the empty string, which occurs in every name: the course
    is then attributed to the person registered first, whoever that is. *)
Theorem blank_instructor_is_first_person
    (name instructor : pystr) (credits : option Z)
    (program_uri course_type : option pystr) (source_url : pystr)
    (k : pystr) (p : Person) (ps : dict Person) (cs : dict Course) :
  (3 <= List.length (strip name))%nat ->
  dict_mem cs (create_uri (str "course") (strip name)) = false ->
  instructor <> [] ->
  strip instructor = [] ->
  let r := _create_course_entity name (Some instructor) credits program_uri
             course_type source_url ((k, p) :: ps) cs in
  fst r = (k, p) :: ps
  /\ option_map co_taught_by
       (dict_get (snd r) (create_uri (str "course") (strip name)))
     = Some [k].
Proof.
  intros L M N S. cbv zeta. unfold _create_course_entity.
  apply Nat.ltb_ge in L. rewrite L, M.
  destruct instructor as [|c n]; [congruence|].
  rewrite S. unfold find_person_either_way. cbn [find snd].
  replace (contains [] (p_name p)) with true
    by (symmetry; destruct (p_name p); reflexivity).
  cbn [orb option_map fst snd]. now rewrite dict_get_set_same.
Qed.

(** X18. The department of a Hiwi posting stored by
    _scrape_single_hiwi_position is never free text of the page: it is the
    name of a registered organisation of type Institute whose lower-cased
    name or abbreviation occurs in the lower-cased page text; and the
    address of the page is visited afterwards, stored or not. *)
Theorem hiwi_department_is_registered_institute
    (title url : pystr) (page : hiwi_page) (st : state) :
  let st' := _scrape_single_hiwi_position title url (Some page) st in
  set_mem (visited_urls st') url = true
  /\ organizations st' = organizations st
  /\ persons st' = persons st
  /\ forall k pos d,
       dict_mem (hiwi_positions st) k = false ->
       dict_get (hiwi_positions st') k = Some pos ->
       h_department pos = Some d ->
       exists ko o,
         In (ko, o) (organizations st)
         /\ o_name o = d
         /\ o_org_type o = str "Institute"
         /\ (contains (lower d) (lower (hp_text page)) = true
             \/ exists a, o_abbreviation o = Some a
                          /\ contains (lower a) (lower (hp_text page)) = true).
Proof.
  cbv zeta. unfold _scrape_single_hiwi_position.
  set (t := match hp_h1 page with Some t => t | None => title end).
  destruct (List.length t <? 5)%nat.
  { cbn [visited_urls organizations persons hiwi_positions with_visited].
    repeat split; [apply set_mem_add|].
    intros k pos d A B. unfold dict_mem in A. now rewrite B in A. }
  cbn [hiwi_positions with_visited].
  destruct (dict_mem (hiwi_positions st) _) eqn:M.
  { cbn [visited_urls organizations persons hiwi_positions with_visited].
    repeat split; [apply set_mem_add|].
    intros k pos d A B. unfold dict_mem in A. now rewrite B in A. }
  cbn [visited_urls organizations persons hiwi_positions with_visited
       with_hiwi_positions].
  repeat split; [apply set_mem_add|].
  intros k pos d A B D.
  destruct (eqb k (create_uri (str "hiwi-position") t)) eqn:E.
  - apply eqb_eq in E. subst k. rewrite dict_get_set_same in B.
    injection B as <-. cbn [h_department] in D.
    unfold find_department in D. apply find_some_option_map in D.
    destruct D as [[ko o] [I [T N]]]. cbn [snd] in *. subst d.
    exists ko, o. apply andb_true_iff in T. destruct T as [T1 T2].
    apply eqb_eq in T1. repeat split; auto.
    apply orb_true_iff in T2. destruct T2 as [T2 | T2]; [now left|].
    right. destruct (o_abbreviation o) as [[|c a]|]; try discriminate.
    now exists (c :: a).
  - rewrite dict_get_set_other in B by now apply eqb_neq.
    unfold dict_mem in A. now rewrite B in A.
Qed.

End References.

(** *** The sitemap file *)

Lemma split_on_first (sep : N) (s cur : pystr) :
  Forall (fun c => c <> sep) cur ->
  Forall (fun c => c <> sep) (hd [] (split_on sep cur s)).
Proof.
  revert cur. induction s as [|c s IH]; intros cur H; simpl.
  - now apply Forall_rev.
  - destruct (N.eqb c sep) eqn:E; simpl.
    + now apply Forall_rev.
    + apply IH. constructor; [|exact H]. now apply N.eqb_neq.
Qed.

Lemma split_on_without_separator (sep : N) (s cur : pystr) :
  Forall (fun c => c <> sep) s -> split_on sep cur s = [rev cur ++ s].
Proof.
  intros H. revert cur. induction H as [|c s Hc Hs IH]; intros cur; simpl.
  - now rewrite app_nil_r.
  - apply N.eqb_neq in Hc. rewrite Hc, IH. simpl.
    now rewrite <- app_assoc.
Qed.

Lemma flat_map_singletons {A} (f : A -> list A) (l : list A) :
  Forall (fun x => f x = [x]) l -> flat_map f l = l.
Proof.
  induction 1 as [|x l H _ IH]; simpl; [reflexivity|].
  now rewrite H, IH.
Qed.

Lemma flat_map_at_most_one {A B} (f : A -> list B) (l : list A) :
  (forall x, (List.length (f x) <= 1)%nat) ->
  (List.length (flat_map f l) <= List.length l)%nat.
Proof.
  intros H. induction l as [|x l IH]; simpl; [lia|].
  rewrite length_app. specialize (H x). lia.
Qed.

Section Sitemap.
Context {U : UnicodeDB}.

Lemma sitemap_line_url_shape (line u : pystr) :
  sitemap_line_url line = Some u ->
  startswith u (str "http") = true
  /\ strip u = u
  /\ Forall (fun c => c <> tab) u
  /\ startswith line (str "TYPO3") = false
  /\ startswith line (str "This XML") = false
  /\ startswith line (str "URL") = false.
Proof.
  unfold sitemap_line_url.
  destruct (startswith line (str "TYPO3")) eqn:A; [discriminate|].
  destruct (startswith line (str "This XML")) eqn:B; [discriminate|].
  destruct (startswith line (str "URL")) eqn:C; [discriminate|].
  cbn [orb].
  destruct (strip (hd [] (split_on tab [] line))) as [|c r] eqn:E;
    [discriminate|].
  destruct (startswith (c :: r) (str "http")) eqn:H; [|discriminate].
  intros I. injection I as <-. rewrite <- E.
  repeat split; auto.
  - now rewrite E.
  - apply strip_by_idempotent.
  - apply Forall_strip_by, split_on_first. constructor.
Qed.

Lemma sitemap_line_url_fixed (u : pystr) :
  startswith u (str "http") = true ->
  strip u = u ->
  Forall (fun c => c <> tab) u ->
  sitemap_line_url u = Some u.
Proof.
  intros H S T. unfold sitemap_line_url.
  rewrite (@split_on_without_separator tab u [] T). cbn [rev app hd].
  rewrite S, H.
  destruct u as [|c u]; [discriminate|].
  cbn in H. apply andb_true_iff in H. destruct H as [H _].
  apply N.eqb_eq in H. subst c. reflexivity.
Qed.

Lemma loaded_urls_accepted (sitemap_file : option (list pystr)) :
  Forall (fun u =>
            startswith u (str "http") = true
            /\ strip u = u
            /\ Forall (fun c => c <> tab) u)
         (load_sitemap_urls sitemap_file).
Proof.
  destruct sitemap_file as [lines|]; [|constructor].
  cbn [load_sitemap_urls].
  apply Forall_forall. intros u I. apply in_flat_map in I.
  destruct I as [line [_ I]].
  destruct (sitemap_line_url line) as [v|] eqn:E; [|destruct I].
  destruct I as [<- | []].
  destruct (@sitemap_line_url_shape line v E) as (A & B & C & _).
  now repeat split.
Qed.

(** X19. Load_sitemap_urls returns no address for a missing file and at most
    one per line; every address it returns starts with "http", has no
    whitespace at either end and contains no tab. *)
Theorem load_sitemap_urls_shape (sitemap_file : option (list pystr)) :
  Forall (fun u =>
            startswith u (str "http") = true
            /\ strip u = u
            /\ Forall (fun c => c <> tab) u)
         (load_sitemap_urls sitemap_file)
  /\ (List.length (load_sitemap_urls sitemap_file)
      <= match sitemap_file with
         | Some lines => List.length lines
         | None => 0
         end)%nat.
Proof.
  split; [apply loaded_urls_accepted|].
  destruct sitemap_file as [lines|]; [|reflexivity].
  cbn [load_sitemap_urls].
  apply flat_map_at_most_one. intros line.
  destruct (sitemap_line_url line); simpl; lia.
Qed.

(** X20. The addresses load_sitemap_urls returns are in the form it accepts:
    written one per line and loaded again they come back unchanged, in the
    same order and with their repetitions; and loading a file is the same
    as loading its parts one after the other. *)
Theorem load_sitemap_urls_reload
    (sitemap_file : option (list pystr)) (lines1 lines2 : list pystr) :
  load_sitemap_urls (Some (load_sitemap_urls sitemap_file))
  = load_sitemap_urls sitemap_file
  /\ load_sitemap_urls (Some (lines1 ++ lines2))
     = load_sitemap_urls (Some lines1) ++ load_sitemap_urls (Some lines2).
Proof.
  split; [|apply flat_map_app].
  pose proof (loaded_urls_accepted sitemap_file) as H.
  unfold load_sitemap_urls at 1. apply flat_map_singletons.
  eapply Forall_impl; [|exact H].
  intros u (A & B & C). cbv beta.
  now rewrite (@sitemap_line_url_fixed u A B C).
Qed.

End Sitemap.

(** *** What load_from_json leaves in the graph *)

Ltac in_graph :=
  repeat match goal with
         | |- In _ (add_all _ _) =>
             apply In_add_all;
             first [ right;
                     solve [rewrite ?in_app_iff; simpl; auto 12]
                   | left ]
         end.

Section Loaded.
Context {U : UnicodeDB}.

(** A triple that one record emits whatever the graph is, or that the graph
    held before, is in the loaded graph. *)
Lemma loaded (g : graph) (data : document) (x : triple) :
  In x g
  \/ (exists a, In a (d_organizations data)
                /\ forall g0, In x (add_organization g0 a))
  \/ (forall g0, In x (_create_core_academic_units g0))
  \/ (exists a, In a (d_chairs data) /\ forall g0, In x (add_chair g0 a))
  \/ (exists a, In a (d_hiwi_positions data)
                /\ forall g0, In x (add_hiwi_position g0 a))
  \/ (exists a, In a (d_persons data) /\ forall g0, In x (add_person g0 a))
  \/ (exists a, In a (d_programs data) /\ forall g0, In x (add_program g0 a))
  \/ (exists a, In a (d_minors data) /\ forall g0, In x (add_minor g0 a))
  \/ (exists a, In a (d_research_projects data)
                /\ forall g0, In x (add_research_project g0 a))
  \/ (exists a, In a (d_courses data) /\ forall g0, In x (add_course g0 a)) ->
  In x (load_from_json g data).
Proof.
  unfold load_from_json.
  intros [H | [[a [I H]] | [H | [[a [I H]] | [[a [I H]] | [[a [I H]]
         | [[a [I H]] | [[a [I H]] | [[a [I H]] | [a [I H]]]]]]]]]]].
  all: try (apply fold_left_emits with (a := a);
            auto using extends_add_course; fail).
  all: apply (extends_fold_left _ _ extends_add_course).
  all: try (apply fold_left_emits with (a := a);
            auto using extends_add_research_project; fail).
  all: apply (extends_fold_left _ _ extends_add_research_project).
  all: try (apply fold_left_emits with (a := a);
            auto using extends_add_minor; fail).
  all: apply (extends_fold_left _ _ extends_add_minor).
  all: try (apply fold_left_emits with (a := a);
            auto using extends_add_program; fail).
  all: apply (extends_fold_left _ _ extends_add_program).
  all: try (apply fold_left_emits with (a := a);
            auto using extends_add_person; fail).
  all: apply (extends_fold_left _ _ extends_add_person).
  all: try (apply fold_left_emits with (a := a);
            auto using extends_add_hiwi_position; fail).
  all: apply (extends_fold_left _ _ extends_add_hiwi_position).
  all: try (apply fold_left_emits with (a := a);
            auto using extends_add_chair; fail).
  all: apply (extends_fold_left _ _ extends_add_chair).
  all: try (apply H; fail).
  all: apply extends_create_core_academic_units.
  all: try (apply fold_left_emits with (a := a);
            auto using extends_add_organization; fail).
  apply (extends_fold_left _ _ extends_add_organization). exact H.
Qed.

Lemma add_person_base g p x :
  In x [(URIRef (p_uri p), RDF_type,
         match p_category p with
         | Some category =>
             table_get category_mapping category (LEUPH "AcademicStaff")
         | None => LEUPH "AcademicStaff"
         end);
        (URIRef (p_uri p), RDF_type, FOAF "Person");
        (URIRef (p_uri p), RDFS_label, lit (p_name p))] ->
  In x (add_person g p).
Proof.
  intros H. unfold add_person, uri_from_string.
  set (g1 := add_all g _).
  assert (H1 : In x g1).
  { subst g1. apply In_add_all. right. rewrite in_app_iff. left.
    simpl in *. intuition auto. }
  clearbody g1.
  destruct (p_institute p) as [[|c s]|];
    try destruct (find_institute g1 (c :: s)) as [i|];
    try destruct (node_set (Some i));
    destruct (p_school p) as [[|c' s']|]; cbn [negb];
    in_graph; assumption.
Qed.

Lemma add_person_linked g p :
  (exists o, In (URIRef (p_uri p), LEUPH "memberOf", o) (add_person g p))
  \/ (exists o, In (URIRef (p_uri p), LEUPH "worksAt", o) (add_person g p))
  \/ In (URIRef (p_uri p), LEUPH "affiliatedWith", university_uri)
       (add_person g p).
Proof.
  unfold add_person, uri_from_string.
  set (g1 := add_all g _). clearbody g1.
  destruct (p_institute p) as [[|c s]|];
    try destruct (find_institute g1 (c :: s)) as [i|];
    try destruct (node_set (Some i));
    destruct (p_school p) as [[|c' s']|]; cbn [negb];
    first [ right; right; in_graph; fail
          | right; left; eexists; in_graph; fail
          | left; eexists; in_graph; fail ].
Qed.

Lemma add_program_linked g p :
  exists o, In (URIRef (sp_uri p), LEUPH "offeredBy", o) (add_program g p)
            /\ In (o, LEUPH "offers", URIRef (sp_uri p)) (add_program g p).
Proof.
  unfold add_program, uri_from_string.
  set (g1 := add_all g _). clearbody g1.
  destruct (sp_offered_by p) as [[|c s]|]; eexists; split; in_graph.
Qed.

Lemma add_research_project_linked g p :
  exists o,
    In (URIRef (rp_uri p), LEUPH "conductedBy", o) (add_research_project g p)
    /\ In (o, LEUPH "conducts", URIRef (rp_uri p)) (add_research_project g p).
Proof.
  unfold add_research_project, uri_from_string.
  set (g1 := add_all g _). clearbody g1.
  destruct (rp_conducted_by p) as [[|c s]|]; eexists; split; in_graph.
Qed.

Lemma add_chair_linked g c :
  exists o, In (URIRef (c_uri c), LEUPH "partOf", o) (add_chair g c)
            /\ In (o, LEUPH "hasPart", URIRef (c_uri c)) (add_chair g c).
Proof.
  unfold add_chair, uri_from_string.
  destruct (c_parent c) as [[|x s]|]; eexists; split; in_graph.
Qed.

Lemma add_course_linked g c :
  (exists o, In (URIRef (co_uri c), LEUPH "partOf", o) (add_course g c))
  \/ In (URIRef (co_uri c), LEUPH "offeredBy", college_uri) (add_course g c).
Proof.
  unfold add_course, uri_from_string.
  destruct (co_part_of_program c) as [[|x s]|];
    [right | left; eexists | right]; in_graph.
Qed.

End Loaded.

Section LoadedRecords.
Context {U : UnicodeDB}.

Lemma core_unit_is_created g (unit : pystr * pystr * pystr) :
  In unit core_units ->
  In (URIRef (fst (fst unit)), RDF_type, LEUPH "School")
     (_create_core_academic_units g).
Proof.
  intros H. unfold _create_core_academic_units.
  revert g. induction core_units as [|u us IH]; intros g; [destruct H|].
  cbn [fold_left]. destruct H as [-> | H]; [|now apply IH].
  apply (extends_fold_left _ _ extends_create_core_unit).
  destruct unit as [[uri n] d]. unfold create_core_unit. cbn [fst].
  destruct (graph_mem g _) eqn:M; cbn [negb].
  - now apply graph_mem_In.
  - in_graph.
Qed.

(** X21. Load_from_json removes nothing from the graph it starts with, and
    every record of the document becomes a node with its class and its
    label: organisations with the class of their org_type (foaf:Organization
    for an unknown one), chairs as Chair and foaf:Organization, Hiwi
    postings, persons as foaf:Person and with the class of their category
    (AcademicStaff for an unknown or missing one), programmes with the class
    of their program_type (StudyProgram for an unknown one), minors, research
    projects and courses; and the three core units are there as Schools. *)
Theorem load_from_json_types_every_record (g : graph) (data : document) :
  let G := load_from_json g data in
  (forall x, In x g -> In x G)
  /\ (forall o, In o (d_organizations data) ->
        In (URIRef (o_uri o), RDF_type,
            table_get org_type_mapping (o_org_type o) (FOAF "Organization")) G
        /\ In (URIRef (o_uri o), RDFS_label, lit_en (o_name o)) G)
  /\ (forall c, In c (d_chairs data) ->
        In (URIRef (c_uri c), RDF_type, LEUPH "Chair") G
        /\ In (URIRef (c_uri c), RDF_type, FOAF "Organization") G
        /\ In (URIRef (c_uri c), RDFS_label, lit_en (c_name c)) G)
  /\ (forall h, In h (d_hiwi_positions data) ->
        In (URIRef (h_uri h), RDF_type, LEUPH "HiwiPosition") G
        /\ In (URIRef (h_uri h), RDFS_label, lit_en (h_title h)) G)
  /\ (forall p, In p (d_persons data) ->
        In (URIRef (p_uri p), RDF_type, FOAF "Person") G
        /\ In (URIRef (p_uri p), RDF_type,
               match p_category p with
               | Some category =>
                   table_get category_mapping category (LEUPH "AcademicStaff")
               | None => LEUPH "AcademicStaff"
               end) G
        /\ In (URIRef (p_uri p), RDFS_label, lit (p_name p)) G)
  /\ (forall p, In p (d_programs data) ->
        In (URIRef (sp_uri p), RDF_type,
            table_get program_type_mapping (sp_program_type p)
              (LEUPH "StudyProgram")) G
        /\ In (URIRef (sp_uri p), RDFS_label, lit_en (sp_name p)) G)
  /\ (forall m, In m (d_minors data) ->
        In (URIRef (m_uri m), RDF_type, LEUPH "Minor") G
        /\ In (URIRef (m_uri m), RDFS_label, lit_en (m_name m)) G)
  /\ (forall r, In r (d_research_projects data) ->
        In (URIRef (rp_uri r), RDF_type, LEUPH "ResearchProject") G
        /\ In (URIRef (rp_uri r), RDFS_label, lit_en (rp_name r)) G)
  /\ (forall c, In c (d_courses data) ->
        In (URIRef (co_uri c), RDF_type, LEUPH "Course") G
        /\ In (URIRef (co_uri c), RDF_type, SCHEMA "Course") G
        /\ In (URIRef (co_uri c), RDFS_label, lit_en (co_name c)) G)
  /\ (forall unit, In unit core_units ->
        In (URIRef (fst (fst unit)), RDF_type, LEUPH "School") G).
Proof.
  cbv zeta.
  split; [intros x H; apply loaded; now left|].
  split; [intros a H; repeat split; apply loaded; right; left; exists a;
          (split; [exact H|]); intros g0; unfold add_organization;
          in_graph|].
  split; [intros a H; repeat split; apply loaded; do 3 right; left; exists a;
          (split; [exact H|]); intros g0; unfold add_chair; in_graph|].
  split; [intros a H; repeat split; apply loaded; do 4 right; left; exists a;
          (split; [exact H|]); intros g0; unfold add_hiwi_position;
          in_graph|].
  split; [intros a H; repeat split; apply loaded; do 5 right; left; exists a;
          (split; [exact H|]); intros g0; apply add_person_base; simpl;
          auto|].
  split; [intros a H; repeat split; apply loaded; do 6 right; left; exists a;
          (split; [exact H|]); intros g0; unfold add_program;
          destruct (sp_offered_by a) as [[|c s]|]; in_graph|].
  split; [intros a H; repeat split; apply loaded; do 7 right; left; exists a;
          (split; [exact H|]); intros g0; unfold add_minor; in_graph|].
  split; [intros a H; repeat split; apply loaded; do 8 right; left; exists a;
          (split; [exact H|]); intros g0; unfold add_research_project;
          destruct (rp_conducted_by a) as [[|c s]|]; in_graph|].
  split; [intros a H; repeat split; apply loaded; do 9 right; exists a;
          (split; [exact H|]); intros g0; unfold add_course; in_graph|].
  intros unit H. apply loaded. right; right; left. intros g0.
  now apply core_unit_is_created.
Qed.

(** X22. No person, chair, programme, research project or course of the
    document is left without a link into the organisation: in the loaded
    graph a person is memberOf or worksAt something or else affiliatedWith
    the university, a chair is partOf something, a programme is offeredBy
    something, a project is conductedBy something, and a course is partOf
    something or else offeredBy the College; the links of chairs, programmes
    and projects come with their inverses. *)
Theorem load_from_json_links_every_record (g : graph) (data : document) :
  let G := load_from_json g data in
  (forall p, In p (d_persons data) ->
     (exists o, In (URIRef (p_uri p), LEUPH "memberOf", o) G)
     \/ (exists o, In (URIRef (p_uri p), LEUPH "worksAt", o) G)
     \/ In (URIRef (p_uri p), LEUPH "affiliatedWith", university_uri) G)
  /\ (forall c, In c (d_chairs data) ->
        exists o, In (URIRef (c_uri c), LEUPH "partOf", o) G
                  /\ In (o, LEUPH "hasPart", URIRef (c_uri c)) G)
  /\ (forall p, In p (d_programs data) ->
        exists o, In (URIRef (sp_uri p), LEUPH "offeredBy", o) G
                  /\ In (o, LEUPH "offers", URIRef (sp_uri p)) G)
  /\ (forall r, In r (d_research_projects data) ->
        exists o, In (URIRef (rp_uri r), LEUPH "conductedBy", o) G
                  /\ In (o, LEUPH "conducts", URIRef (rp_uri r)) G)
  /\ (forall c, In c (d_courses data) ->
        (exists o, In (URIRef (co_uri c), LEUPH "partOf", o) G)
        \/ In (URIRef (co_uri c), LEUPH "offeredBy", college_uri) G).
Proof.
  cbv zeta. unfold load_from_json.
  split; [|split; [|split; [|split]]].
  - intros p H.
    set (g1 := fold_left add_hiwi_position _ _). clearbody g1.
    apply in_split in H. destruct H as (l1 & l2 & ->).
    rewrite fold_left_app. cbn [fold_left].
    set (g2 := fold_left add_person l1 g1). clearbody g2.
    assert (E : forall x, In x (add_person g2 p) ->
                In x (fold_left add_course (d_courses data)
                        (fold_left add_research_project
                           (d_research_projects data)
                           (fold_left add_minor (d_minors data)
                              (fold_left add_program (d_programs data)
                                 (fold_left add_person l2
                                    (add_person g2 p))))))).
    { intros x Hx.
      apply (extends_fold_left _ _ extends_add_course).
      apply (extends_fold_left _ _ extends_add_research_project).
      apply (extends_fold_left _ _ extends_add_minor).
      apply (extends_fold_left _ _ extends_add_program).
      now apply (extends_fold_left _ _ extends_add_person). }
    destruct (add_person_linked g2 p) as [[o Ho] | [[o Ho] | Ho]].
    + left. exists o. now apply E.
    + right. left. exists o. now apply E.
    + right. right. now apply E.
  - intros c H.
    set (g1 := _create_core_academic_units _). clearbody g1.
    apply in_split in H. destruct H as (l1 & l2 & ->).
    rewrite fold_left_app. cbn [fold_left].
    set (g2 := fold_left add_chair l1 g1). clearbody g2.
    destruct (add_chair_linked g2 c) as [o [A B]]. exists o.
    split;
      apply (extends_fold_left _ _ extends_add_course);
      apply (extends_fold_left _ _ extends_add_research_project);
      apply (extends_fold_left _ _ extends_add_minor);
      apply (extends_fold_left _ _ extends_add_program);
      apply (extends_fold_left _ _ extends_add_person);
      apply (extends_fold_left _ _ extends_add_hiwi_position);
      apply (extends_fold_left _ _ extends_add_chair); assumption.
  - intros p H.
    set (g1 := fold_left add_person _ _). clearbody g1.
    apply in_split in H. destruct H as (l1 & l2 & ->).
    rewrite fold_left_app. cbn [fold_left].
    set (g2 := fold_left add_program l1 g1). clearbody g2.
    destruct (add_program_linked g2 p) as [o [A B]]. exists o.
    split;
      apply (extends_fold_left _ _ extends_add_course);
      apply (extends_fold_left _ _ extends_add_research_project);
      apply (extends_fold_left _ _ extends_add_minor);
      apply (extends_fold_left _ _ extends_add_program); assumption.
  - intros r H.
    set (g1 := fold_left add_minor _ _). clearbody g1.
    apply in_split in H. destruct H as (l1 & l2 & ->).
    rewrite fold_left_app. cbn [fold_left].
    set (g2 := fold_left add_research_project l1 g1). clearbody g2.
    destruct (add_research_project_linked g2 r) as [o [A B]]. exists o.
    split;
      apply (extends_fold_left _ _ extends_add_course);
      apply (extends_fold_left _ _ extends_add_research_project); assumption.
  - intros c H.
    set (g1 := fold_left add_research_project _ _). clearbody g1.
    apply in_split in H. destruct H as (l1 & l2 & ->).
    rewrite fold_left_app. cbn [fold_left].
    set (g2 := fold_left add_course l1 g1). clearbody g2.
    destruct (add_course_linked g2 c) as [[o A] | A].
    + left. exists o.
      now apply (extends_fold_left _ _ extends_add_course).
    + right. now apply (extends_fold_left _ _ extends_add_course).
Qed.

End LoadedRecords.

(** *** The institute of a person *)

Section PersonInstitute.
Context {U : UnicodeDB}.

Lemma institute_loop_first (g : graph) (abbrev : pystr) (cands : list term) :
  Forall (fun s => node_set (Some s) = true) cands ->
  institute_loop g abbrev None cands
  = find (fun s =>
            existsb (fun a => eqb (upper (term_str a)) abbrev)
              (objects g s (LEUPH "abbreviation"))
            || contains (lower abbrev) (lower (term_str s)))
      cands.
Proof.
  induction 1 as [|s cands Hs _ IH]; [reflexivity|].
  cbn [institute_loop find].
  destruct (existsb _ (objects g s (LEUPH "abbreviation"))).
  - rewrite Hs. cbn [negb andb orb]. now rewrite Hs.
  - cbn [node_set negb andb orb].
    destruct (contains (lower abbrev) (lower (term_str s))).
    + now rewrite Hs.
    + cbn [node_set]. exact IH.
Qed.

Lemma institute_loop_origin (g : graph) (abbrev : pystr) (cands : list term)
    (institute_uri : option term) (s : term) :
  institute_loop g abbrev institute_uri cands = Some s ->
  institute_uri = Some s \/ In s cands.
Proof.
  revert institute_uri. induction cands as [|c cands IH];
    intros institute_uri; cbn [institute_loop]; [now left|].
  set (u1 := if existsb _ _ then Some c else institute_uri).
  set (u2 := if negb (node_set u1) && _ then Some c else u1).
  intros H.
  assert (O2 : u2 = Some c \/ u2 = institute_uri).
  { subst u2 u1. destruct (existsb _ _); destruct (_ && _); auto. }
  destruct (node_set u2).
  - destruct O2 as [O2 | O2]; rewrite O2 in H.
    + injection H as <-. right. now left.
    + now left.
  - apply IH in H. destruct H as [H | H]; [|right; now right].
    destruct O2 as [O2 | O2]; rewrite O2 in H.
    + injection H as <-. right. now left.
    + now left.
Qed.

Lemma containing_loop_origin (abbrev : pystr) (cands : list term)
    (institute_uri : option term) (s : term) :
  containing_loop abbrev institute_uri cands = Some s ->
  institute_uri = Some s \/ In s cands.
Proof.
  unfold containing_loop. destruct (find _ cands) as [c|] eqn:F.
  - intros H. injection H as <-. right. now apply find_some in F.
  - now left.
Qed.

Lemma find_institute_origin (g : graph) (institute : pystr) (s : term) :
  find_institute g institute = Some s ->
  In (s, RDF_type, LEUPH "Institute") g
  \/ In (s, RDF_type, LEUPH "ResearchCenter") g
  \/ In (s, RDF_type, LEUPH "Chair") g.
Proof.
  unfold find_institute.
  set (u1 := institute_loop _ _ _ _).
  assert (O1 : forall x, u1 = Some x -> In (x, RDF_type, LEUPH "Institute") g).
  { intros x H. apply institute_loop_origin in H.
    destruct H as [H | H]; [discriminate | now apply In_subjects]. }
  clearbody u1.
  set (u2 := if node_set u1 then u1 else _).
  assert (O2 : forall x, u2 = Some x ->
               In (x, RDF_type, LEUPH "Institute") g
               \/ In (x, RDF_type, LEUPH "ResearchCenter") g).
  { intros x H. subst u2. destruct (node_set u1); [left; now apply O1|].
    apply containing_loop_origin in H.
    destruct H as [H | H]; [left; now apply O1|].
    right. now apply In_subjects. }
  clearbody u2.
  destruct (node_set u2); intros H.
  - destruct (O2 _ H); auto.
  - apply containing_loop_origin in H. destruct H as [H | H].
    + destruct (O2 _ H); auto.
    + right. right. now apply In_subjects.
Qed.

(** X23. The institute of a person is looked up among the nodes of the graph
    in a fixed order of preference: the first Institute that has the
    upper-cased text as an abbreviation or whose uri contains it, ignoring
    case; failing that the first ResearchCenter whose uri contains it;
    failing that the first Chair whose uri contains it; otherwise none.
    This holds when no subject of the graph is the empty uri. *)
Theorem find_institute_preference (g : graph) (institute : pystr) :
  Forall (fun t => node_set (Some (fst (fst t))) = true) g ->
  let in_uri := fun s =>
    contains (lower (upper institute)) (lower (term_str s)) in
  find_institute g institute
  = match find (fun s =>
                  existsb (fun a => eqb (upper (term_str a)) (upper institute))
                    (objects g s (LEUPH "abbreviation"))
                  || in_uri s)
            (subjects g RDF_type (LEUPH "Institute")) with
    | Some s => Some s
    | None =>
        match find in_uri (subjects g RDF_type (LEUPH "ResearchCenter")) with
        | Some s => Some s
        | None => find in_uri (subjects g RDF_type (LEUPH "Chair"))
        end
    end.
Proof.
  intros W. cbv zeta.
  assert (S : forall p o,
             Forall (fun s => node_set (Some s) = true) (subjects g p o)).
  { intros p o. unfold subjects. apply Forall_map.
    apply Forall_forall. intros t I. apply filter_In in I.
    destruct I as [I _]. rewrite Forall_forall in W. now apply W. }
  unfold find_institute.
  rewrite (@institute_loop_first g (upper institute) _
             (S RDF_type (LEUPH "Institute"))).
  destruct (find _ (subjects g RDF_type (LEUPH "Institute"))) as [s|] eqn:F1.
  - apply find_some in F1. destruct F1 as [I _].
    pose proof (S RDF_type (LEUPH "Institute")) as A.
    rewrite Forall_forall in A. rewrite (A s I). now rewrite (A s I).
  - cbn [node_set]. unfold containing_loop.
    destruct (find _ (subjects g RDF_type (LEUPH "ResearchCenter")))
      as [s|] eqn:F2.
    + apply find_some in F2. destruct F2 as [I _].
      pose proof (S RDF_type (LEUPH "ResearchCenter")) as A.
      rewrite Forall_forall in A. now rewrite (A s I).
    + cbn [node_set].
      match goal with |- _ = ?x => destruct x; reflexivity end.
Qed.

End PersonInstitute.

(** Two triples with different predicates are different; the predicates of
    the generator are closed terms. *)
Ltac other_predicate H :=
  exfalso;
  match type of H with
  | (_, ?p, _) = (_, ?q, _) =>
      let E := fresh in
      assert (E : term_eqb p q = true)
        by (apply term_eqb_eq; congruence);
      vm_compute in E; discriminate E
  end.

Ltac in_when_str H :=
  unfold when_str in H;
  match type of H with
  | In _ (match ?x with _ => _ end) =>
      destruct x as [[|? ?]|]; simpl in H
  end.

Section MemberOf.
Context {U : UnicodeDB}.

(** X24. Add_person draws memberOf only to a node the graph already holds as
    an Institute, a ResearchCenter or a Chair: a memberOf triple of the
    graph after add_person was there before, or it leads from the person
    to such a node and comes with its hasMember inverse. *)
Theorem member_of_leads_to_typed_node
    (g : graph) (person_data : Person) (s o : term) :
  In (s, LEUPH "memberOf", o) (add_person g person_data) ->
  In (s, LEUPH "memberOf", o) g
  \/ (s = URIRef (p_uri person_data)
      /\ In (o, LEUPH "hasMember", s) (add_person g person_data)
      /\ (In (o, RDF_type, LEUPH "Institute") (add_person g person_data)
          \/ In (o, RDF_type, LEUPH "ResearchCenter")
               (add_person g person_data)
          \/ In (o, RDF_type, LEUPH "Chair") (add_person g person_data))).
Proof.
  unfold add_person, uri_from_string.
  set (g1 := add_all g _).
  assert (B : In (s, LEUPH "memberOf", o) g1 -> In (s, LEUPH "memberOf", o) g).
  { subst g1. intros I. apply In_add_all in I. destruct I as [I | I];
      [exact I|]. exfalso.
    rewrite !in_app_iff in I.
    repeat (destruct I as [I | I]);
      try in_when_str I;
      repeat (destruct I as [I | I]); try contradiction;
      other_predicate I. }
  clearbody g1.
  destruct (p_institute person_data) as [[|c i]|];
    try (destruct (find_institute g1 (c :: i)) as [n|] eqn:F;
         [destruct (node_set (Some n))|]);
    destruct (p_school person_data) as [[|c' s']|]; cbn [negb];
    intros H;
    repeat (apply In_add_all in H; destruct H as [H | H]);
    try (left; apply B; exact H);
    try (apply in_map_iff in H; destruct H as [a [H _]]; symmetry in H);
    repeat (destruct H as [H | H]); try contradiction;
    try (other_predicate H).
  all: injection H as -> ->; right; split; [reflexivity|];
    (split; [in_graph|]);
    apply find_institute_origin in F;
    destruct F as [F | [F | F]];
    [left | right; left | right; right]; in_graph; exact F.
Qed.

End MemberOf.

(** *** The core units and the statistics *)

Lemma table_get_not (tbl : list (string * term)) (key : pystr)
    (default cls : term) :
  term_eqb default cls = false ->
  forallb (fun kv => negb (term_eqb (snd kv) cls)) tbl = true ->
  table_get tbl key default <> cls.
Proof.
  intros D. induction tbl as [|[k v] tbl IH]; simpl.
  - intros _ E. apply term_eqb_eq in E. congruence.
  - intros H. apply andb_true_iff in H. destruct H as [H1 H2].
    destruct (eqb (str k) key); [|now apply IH].
    intros E. apply term_eqb_eq in E. now rewrite E in H1.
Qed.

(** Takes a hypothesis [In x l] apart, for a list built from literal
    triples, optional fields and loops. *)
Ltac decompose_in H :=
  repeat first
    [ contradiction
    | destruct H as [H | H]
    | apply in_app_iff in H
    | apply in_flat_map in H; destruct H as [? [_ H]]
    | apply in_map_iff in H; destruct H as [? [H _]]
    | progress (unfold when_str, when_int in H)
    | match type of H with
      | In _ (match ?x with _ => _ end) => destruct x
      | In _ (if ?b then _ else _) => destruct b
      end
    | progress (cbn [In app] in H) ].

(** Closes a goal whose hypothesis equates two triples that differ in the
    predicate or in the object. *)
Ltac other_triple H :=
  exfalso;
  first
    [ match type of H with
      | (_, ?p, _) = (_, ?q, _) =>
          let E := fresh in
          assert (E : term_eqb p q = true)
            by (apply term_eqb_eq; congruence);
          vm_compute in E; discriminate E
      end
    | match type of H with
      | (_, _, table_get ?tbl ?k ?d) = (_, _, ?cls) =>
          apply (@table_get_not tbl k d cls);
          [vm_compute; reflexivity | vm_compute; reflexivity | congruence]
      end
    | match type of H with
      | (_, _, ?o) = (_, _, ?cls) =>
          let E := fresh in
          assert (E : term_eqb o cls = true)
            by (apply term_eqb_eq; congruence);
          vm_compute in E; discriminate E
      end ].

Section CoreUnits.
Context {U : UnicodeDB}.

Lemma create_core_unit_present g (unit : pystr * pystr * pystr) :
  In (URIRef (fst (fst unit)), RDF_type, LEUPH "School") g ->
  create_core_unit g unit = g.
Proof.
  destruct unit as [[u n] d]. cbn [fst]. intros H.
  apply graph_mem_In in H. unfold create_core_unit. now rewrite H.
Qed.

Lemma core_academic_units_present g :
  (forall unit, In unit core_units ->
     In (URIRef (fst (fst unit)), RDF_type, LEUPH "School") g) ->
  _create_core_academic_units g = g.
Proof.
  unfold _create_core_academic_units.
  induction core_units as [|u us IH]; intros H; [reflexivity|].
  cbn [fold_left]. rewrite create_core_unit_present by (apply H; now left).
  apply IH. intros unit I. apply H. now right.
Qed.

(** X25. _create_core_academic_units leaves a graph alone that already types
    College, Graduate School and Professional School as Schools, whatever
    names they carry there; running it twice is the same as running it
    once; and whatever document is loaded, the statistics report at least
    three schools. *)
Theorem core_academic_units_once (g : graph) (data : document) :
  ((forall unit, In unit core_units ->
      In (URIRef (fst (fst unit)), RDF_type, LEUPH "School") g) ->
   _create_core_academic_units g = g)
  /\ _create_core_academic_units (_create_core_academic_units g)
     = _create_core_academic_units g
  /\ (3 <= Statistics.schools
             (Statistics.get_statistics (load_from_json g data)))%nat.
Proof.
  split; [apply core_academic_units_present|].
  split.
  - apply core_academic_units_present. intros unit I.
    now apply core_unit_is_created.
  - cbn [Statistics.get_statistics Statistics.schools].
    unfold Statistics.count_type.
    change 3%nat
      with (List.length (map (fun u : pystr * pystr * pystr =>
                                URIRef (fst (fst u))) core_units)).
    apply NoDup_incl_length.
    + unfold core_units. cbn [map fst].
      repeat constructor; simpl; intros F;
        repeat (destruct F as [F | F]); try contradiction;
        apply term_eqb_eq in F; vm_compute in F; discriminate F.
    + intros s I. apply in_map_iff in I. destruct I as [unit [<- I]].
      apply In_subjects. apply loaded. right; right; left. intros g0.
      now apply core_unit_is_created.
Qed.

End CoreUnits.

Ltac emitted_elsewhere H :=
  repeat (apply In_add_all in H; destruct H as [H | H]);
  try assumption;
  decompose_in H; other_triple H.

Section ProgramsStatistic.
Context {U : UnicodeDB}.

Lemma add_organization_no_programme g d s :
  In (s, RDF_type, LEUPH "StudyProgram") (add_organization g d) -> In (s, RDF_type, LEUPH "StudyProgram") g.
Proof.
  unfold add_organization, uri_from_string. intros H.
  emitted_elsewhere H.
Qed.

Lemma add_chair_no_programme g d s :
  In (s, RDF_type, LEUPH "StudyProgram") (add_chair g d) -> In (s, RDF_type, LEUPH "StudyProgram") g.
Proof.
  unfold add_chair, uri_from_string. intros H.
  emitted_elsewhere H.
Qed.

Lemma add_hiwi_position_no_programme g d s :
  In (s, RDF_type, LEUPH "StudyProgram") (add_hiwi_position g d) -> In (s, RDF_type, LEUPH "StudyProgram") g.
Proof.
  unfold add_hiwi_position, uri_from_string. intros H.
  emitted_elsewhere H.
Qed.

Lemma add_minor_no_programme g d s :
  In (s, RDF_type, LEUPH "StudyProgram") (add_minor g d) -> In (s, RDF_type, LEUPH "StudyProgram") g.
Proof.
  unfold add_minor, uri_from_string. intros H.
  emitted_elsewhere H.
Qed.

Lemma add_course_no_programme g d s :
  In (s, RDF_type, LEUPH "StudyProgram") (add_course g d) -> In (s, RDF_type, LEUPH "StudyProgram") g.
Proof.
  unfold add_course, uri_from_string. intros H.
  emitted_elsewhere H.
Qed.

Lemma add_research_project_no_programme g d s :
  In (s, RDF_type, LEUPH "StudyProgram") (add_research_project g d) -> In (s, RDF_type, LEUPH "StudyProgram") g.
Proof.
  unfold add_research_project, uri_from_string. intros H.
  destruct (rp_conducted_by d) as [[|c r]|]; emitted_elsewhere H.
Qed.

Lemma add_person_no_programme g d s :
  In (s, RDF_type, LEUPH "StudyProgram") (add_person g d) -> In (s, RDF_type, LEUPH "StudyProgram") g.
Proof.
  unfold add_person, uri_from_string.
  set (g1 := add_all g _).
  assert (B : In (s, RDF_type, LEUPH "StudyProgram") g1 ->
              In (s, RDF_type, LEUPH "StudyProgram") g).
  { subst g1. intros H. destruct (p_category d); emitted_elsewhere H. }
  clearbody g1.
  destruct (p_institute d) as [[|c i]|];
    try (destruct (find_institute g1 (c :: i)) as [n|];
         [destruct (node_set (Some n))|]);
    destruct (p_school d) as [[|c' s']|]; cbn [negb];
    intros H;
    repeat (apply In_add_all in H; destruct H as [H | H]);
    try (apply B; exact H);
    decompose_in H; other_triple H.
Qed.

Lemma create_core_unit_no_programme g u s :
  In (s, RDF_type, LEUPH "StudyProgram") (create_core_unit g u) -> In (s, RDF_type, LEUPH "StudyProgram") g.
Proof.
  destruct u as [[u n] d]. unfold create_core_unit.
  destruct (negb _); intros H; [|exact H]. emitted_elsewhere H.
Qed.

Lemma add_program_programme g d s :
  In (s, RDF_type, LEUPH "StudyProgram") (add_program g d) ->
  In (s, RDF_type, LEUPH "StudyProgram") g
  \/ (s = URIRef (sp_uri d)
      /\ table_get program_type_mapping (sp_program_type d)
           (LEUPH "StudyProgram") = LEUPH "StudyProgram").
Proof.
  unfold add_program, uri_from_string. intros H.
  destruct (sp_offered_by d) as [[|c r]|];
    repeat (apply In_add_all in H; destruct H as [H | H]);
    try (left; assumption);
    try (apply in_app_iff in H; destruct H as [H | H];
         [destruct H as [H | H];
          [injection H as -> E; right; split; [reflexivity | exact E]|]|]);
    decompose_in H; other_triple H.
Qed.

Lemma fold_left_no_programme {A} (f : graph -> A -> graph) (l : list A) s :
  (forall g a, In (s, RDF_type, LEUPH "StudyProgram") (f g a) -> In (s, RDF_type, LEUPH "StudyProgram") g) ->
  forall g, In (s, RDF_type, LEUPH "StudyProgram") (fold_left f l g) -> In (s, RDF_type, LEUPH "StudyProgram") g.
Proof.
  intros F. induction l as [|a l IH]; intros g H; [exact H|].
  cbn [fold_left] in H. apply IH in H. now apply F in H.
Qed.

Lemma fold_left_programme (l : list StudyProgram) s g :
  In (s, RDF_type, LEUPH "StudyProgram") (fold_left add_program l g) ->
  In (s, RDF_type, LEUPH "StudyProgram") g
  \/ exists p, In p l
               /\ s = URIRef (sp_uri p)
               /\ table_get program_type_mapping (sp_program_type p)
                    (LEUPH "StudyProgram") = LEUPH "StudyProgram".
Proof.
  revert g. induction l as [|a l IH]; intros g H; [now left|].
  cbn [fold_left] in H. apply IH in H. destruct H as [H | [p [I H]]].
  - apply add_program_programme in H. destruct H as [H | H]; [now left|].
    right. exists a. split; [now left | exact H].
  - right. exists p. split; [now right | exact H].
Qed.

(** X26. The statistic "programs" counts the nodes typed StudyProgram, and in
    a graph loaded from a document these are exactly the programmes whose
    program_type is none of BachelorProgram, MasterProgram and
    DoctoralProgram: a document whose programmes all carry one of these
    three types is reported with 0 programs, however many it has. *)
Theorem programs_statistic_counts_untyped_programmes (data : document) :
  let G := load_from_json [] data in
  (forall s,
     In s (subjects G RDF_type (LEUPH "StudyProgram"))
     <-> exists p, In p (d_programs data)
                   /\ s = URIRef (sp_uri p)
                   /\ table_get program_type_mapping (sp_program_type p)
                        (LEUPH "StudyProgram") = LEUPH "StudyProgram")
  /\ (Forall (fun p => In (sp_program_type p)
                         [str "BachelorProgram"; str "MasterProgram";
                          str "DoctoralProgram"]) (d_programs data) ->
      Statistics.programs (Statistics.get_statistics G) = 0%nat).
Proof.
  cbv zeta.
  assert (C : forall s,
             In s (subjects (load_from_json [] data) RDF_type
                     (LEUPH "StudyProgram"))
             <-> exists p, In p (d_programs data)
                           /\ s = URIRef (sp_uri p)
                           /\ table_get program_type_mapping
                                (sp_program_type p) (LEUPH "StudyProgram")
                              = LEUPH "StudyProgram").
  { intros s. rewrite In_subjects. split.
    - unfold load_from_json. intros H.
      apply (@fold_left_no_programme _ add_course _ s
               (fun g a => @add_course_no_programme g a s)) in H.
      apply (@fold_left_no_programme _ add_research_project _ s
               (fun g a => @add_research_project_no_programme g a s)) in H.
      apply (@fold_left_no_programme _ add_minor _ s
               (fun g a => @add_minor_no_programme g a s)) in H.
      apply fold_left_programme in H. destruct H as [H | H]; [|exact H].
      apply (@fold_left_no_programme _ add_person _ s
               (fun g a => @add_person_no_programme g a s)) in H.
      apply (@fold_left_no_programme _ add_hiwi_position _ s
               (fun g a => @add_hiwi_position_no_programme g a s)) in H.
      apply (@fold_left_no_programme _ add_chair _ s
               (fun g a => @add_chair_no_programme g a s)) in H.
      apply (@fold_left_no_programme _ create_core_unit _ s
               (fun g a => @create_core_unit_no_programme g a s)) in H.
      apply (@fold_left_no_programme _ add_organization _ s
               (fun g a => @add_organization_no_programme g a s)) in H.
      destruct H.
    - intros [p [I [-> E]]]. apply loaded. do 6 right. left. exists p.
      split; [exact I|]. intros g0. unfold add_program. rewrite E.
      destruct (sp_offered_by p) as [[|c r]|]; in_graph. }
  split; [exact C|].
  intros T. cbn [Statistics.get_statistics Statistics.programs].
  unfold Statistics.count_type.
  destruct (subjects _ RDF_type (LEUPH "StudyProgram")) as [|s l] eqn:E;
    [reflexivity|].
  exfalso. assert (I : In s (s :: l)) by now left.
  apply C in I. destruct I as [p [I [_ X]]].
  rewrite Forall_forall in T. specialize (T p I).
  destruct T as [T | [T | [T | []]]]; rewrite <- T in X;
    apply term_eqb_eq in X; vm_compute in X; discriminate X.
Qed.

End ProgramsStatistic.

(** *** Relationships in both directions *)

Lemma filter_add (f : triple -> bool) (g : graph) (t : triple) :
  f t = false -> filter f (add g t) = filter f g.
Proof.
  intros H. unfold add. destruct (graph_mem g t); [reflexivity|].
  rewrite filter_app. simpl. rewrite H. apply app_nil_r.
Qed.

Lemma filter_add_all (f : triple -> bool) (ts : list triple) (g : graph) :
  Forall (fun t => f t = false) ts -> filter f (add_all g ts) = filter f g.
Proof.
  unfold add_all. intros H. revert g.
  induction H as [|t ts Ht _ IH]; intros g; simpl; [reflexivity|].
  rewrite IH. now apply filter_add.
Qed.

Lemma term_eqb_table_get (tbl : list (string * term)) (key : pystr)
    (default cls : term) :
  term_eqb default cls = false ->
  forallb (fun kv => negb (term_eqb (snd kv) cls)) tbl = true ->
  term_eqb (table_get tbl key default) cls = false.
Proof.
  intros D T. destruct (term_eqb (table_get tbl key default) cls) eqn:E;
    [|reflexivity].
  apply term_eqb_eq in E. now apply table_get_not in E.
Qed.

Section BothDirections.
Context {U : UnicodeDB}.

Lemma institute_loop_same (g g' : graph) (abbrev : pystr)
    (cands : list term) (institute_uri : option term) :
  (forall s, objects g' s (LEUPH "abbreviation")
             = objects g s (LEUPH "abbreviation")) ->
  institute_loop g' abbrev institute_uri cands
  = institute_loop g abbrev institute_uri cands.
Proof.
  intros H. revert institute_uri.
  induction cands as [|c cands IH]; intros institute_uri;
    cbn [institute_loop]; [reflexivity|].
  rewrite H. destruct (node_set _); [reflexivity | apply IH].
Qed.

(** Triples that neither type a node as Institute, ResearchCenter or Chair
    nor give an abbreviation do not change the institute lookup. *)
Lemma find_institute_add_all (g : graph) (ts : list triple)
    (institute : pystr) :
  Forall (fun t =>
            term_eqb (snd (fst t)) (LEUPH "abbreviation") = false
            /\ term_eqb (snd (fst t)) RDF_type
               && (term_eqb (snd t) (LEUPH "Institute")
                   || term_eqb (snd t) (LEUPH "ResearchCenter")
                   || term_eqb (snd t) (LEUPH "Chair")) = false) ts ->
  find_institute (add_all g ts) institute = find_institute g institute.
Proof.
  intros H.
  assert (S : forall cls,
             In cls [LEUPH "Institute"; LEUPH "ResearchCenter"; LEUPH "Chair"] ->
             subjects (add_all g ts) RDF_type cls = subjects g RDF_type cls).
  { intros cls I. unfold subjects. f_equal. apply filter_add_all.
    eapply Forall_impl; [|exact H]. intros t [_ T]. cbv beta.
    destruct (term_eqb (snd (fst t)) RDF_type); [|reflexivity].
    cbn [andb] in T |- *. apply orb_false_iff in T. destruct T as [T T3].
    apply orb_false_iff in T. destruct T as [T1 T2].
    destruct I as [<- | [<- | [<- | []]]]; assumption. }
  assert (O : forall s, objects (add_all g ts) s (LEUPH "abbreviation")
                        = objects g s (LEUPH "abbreviation")).
  { intros s. unfold objects. f_equal. apply filter_add_all.
    eapply Forall_impl; [|exact H]. intros t [A _]. cbv beta.
    now rewrite A, andb_false_r. }
  unfold find_institute.
  rewrite (S (LEUPH "Institute")) by (simpl; auto).
  rewrite (S (LEUPH "ResearchCenter")) by (simpl; auto).
  rewrite (S (LEUPH "Chair")) by (simpl; auto).
  now rewrite (@institute_loop_same g (add_all g ts) _ _ None O).
Qed.

(** The links [add_person] draws, each in both directions: to the institute
    found in the graph the person is added to, to the school, and to the
    university when there is neither. *)
Lemma add_person_links (g : graph) (p : Person) :
  let found :=
    match p_institute p with
    | Some ((_ :: _) as institute) => find_institute g institute
    | _ => None
    end in
  let G := add_person g p in
  (forall i, found = Some i -> node_set (Some i) = true ->
     paired G (URIRef (p_uri p)) "memberOf" "hasMember" i)
  /\ (forall school, p_school p = Some school -> school <> [] ->
        paired G (URIRef (p_uri p)) "worksAt" "hasEmployee"
          (name_to_uri (str "school") school))
  /\ (node_set found = false -> truthy (p_school p) = false ->
      paired G (URIRef (p_uri p)) "affiliatedWith" "hasAffiliate"
        university_uri).
Proof.
  cbv zeta. unfold paired, add_person, uri_from_string.
  match goal with
  | |- context [add_all g ?ts] =>
      assert (E : forall institute,
                 find_institute (add_all g ts) institute
                 = find_institute g institute)
  end.
  { intros institute. apply find_institute_add_all.
    apply Forall_forall. intros t I.
    destruct (p_category p);
      decompose_in I; subst t; cbn [fst snd];
      (split;
       [ vm_compute; reflexivity
       | first [ vm_compute; reflexivity
               | rewrite !term_eqb_table_get
                   by (vm_compute; reflexivity);
                 reflexivity ] ]). }
  set (g1 := add_all g _) in *. clearbody g1.
  destruct (p_institute p) as [[|c inst]|]; cbv beta iota zeta;
    try rewrite E;
    try (destruct (find_institute g (c :: inst)) as [n|]; cbv beta iota;
         [destruct (node_set (Some n)) eqn:Ns|]);
    destruct (p_school p) as [[|c' s']|]; cbv beta iota;
    cbn [negb truthy node_set];
    (split;
     [ intros i F Hn; try discriminate F; injection F as <-;
       first [ split; in_graph; fail
             | cbn [node_set] in Ns; congruence ]
     | split;
       [ intros school S Hs; try discriminate S; injection S as <-;
         first [ congruence | split; in_graph ]
       | intros A B; try discriminate A; try discriminate B;
         try (cbn [node_set] in Ns; congruence);
         split; in_graph ] ]).
Qed.

Lemma create_core_unit_links (g : graph) (unit : pystr * pystr * pystr) :
  graph_mem g (URIRef (fst (fst unit)), RDF_type, LEUPH "School") = false ->
  paired (create_core_unit g unit) (URIRef (fst (fst unit)))
    "partOf" "hasPart" university_uri.
Proof.
  destruct unit as [[u n] d]. cbn [fst]. intros H.
  unfold paired, create_core_unit. rewrite H. cbn [negb].
  split; in_graph.
Qed.

Lemma create_core_unit_types_only_itself (g : graph)
    (unit : pystr * pystr * pystr) (s : term) :
  In (s, RDF_type, LEUPH "School") (create_core_unit g unit) ->
  In (s, RDF_type, LEUPH "School") g \/ s = URIRef (fst (fst unit)).
Proof.
  destruct unit as [[u n] d]. cbn [fst]. unfold create_core_unit.
  destruct (negb _); [|now left]. intros H.
  apply In_add_all in H. destruct H as [H | H]; [now left|].
  destruct H as [H | H]; [right; congruence|].
  decompose_in H; other_triple H.
Qed.

Lemma core_units_links (g : graph) (unit : pystr * pystr * pystr) :
  In unit core_units ->
  graph_mem g (URIRef (fst (fst unit)), RDF_type, LEUPH "School") = false ->
  paired (_create_core_academic_units g) (URIRef (fst (fst unit)))
    "partOf" "hasPart" university_uri.
Proof.
  unfold _create_core_academic_units.
  assert (D : NoDup (map (fun u : pystr * pystr * pystr => fst (fst u))
                       core_units)).
  { unfold core_units. cbn [map fst].
    repeat constructor; simpl; intros F;
      repeat (destruct F as [F | F]); try contradiction;
      apply eqb_eq in F; vm_compute in F; discriminate F. }
  revert g D. induction core_units as [|u us IH]; intros g D I M;
    [destruct I|].
  cbn [fold_left]. cbn [map] in D. apply NoDup_cons_iff in D.
  destruct D as [D1 D2]. destruct I as [-> | I].
  - destruct (@create_core_unit_links g unit M) as [A B].
    split; apply (extends_fold_left _ _ extends_create_core_unit);
      assumption.
  - apply IH; [exact D2 | exact I |].
    destruct (graph_mem (create_core_unit g u) _) eqn:X; [|reflexivity].
    apply graph_mem_In in X.
    apply create_core_unit_types_only_itself in X. destruct X as [X | X].
    + apply graph_mem_In in X. congruence.
    + exfalso. apply D1. injection X as X. rewrite <- X.
      now apply (in_map (fun u : pystr * pystr * pystr => fst (fst u))).
Qed.

(** C4 (as amended). For every resolved relationship of every entity the
    builder processes, the fallback links included, both the forward triple
    and its named inverse are in the graph [load_from_json] builds: the
    parent of an organisation and of a chair (the university when a chair
    has none) over [partOf]/[hasPart], the core units it creates likewise;
    the head of a chair over [heads]/[headedBy] and its team members over
    [memberOf]/[hasMember]; for a person the institute found in the graph
    at that moment over [memberOf]/[hasMember], the school over
    [worksAt]/[hasEmployee], and the university over
    [affiliatedWith]/[hasAffiliate] when there is neither; the unit
    offering a programme (the university when none is given) and a minor
    over [offeredBy]/[offers]; the unit conducting a project (the
    university when none is given) over [conductedBy]/[conducts]; the
    programme of a course over [partOf]/[hasPart], or else the College over
    [offeredBy]/[offers]; the instructors of a course over
    [teaches]/[taughtBy].  Moreover every triple of the graph over one of
    these eight pairs has its mirror triple, if that held of the graph
    loaded into.  The department of a Hiwi posting ([postedBy]) and the
    principal investigator of a project ([worksOn]) are not among them. *)
Theorem load_from_json_bidirectional (g : graph) (data : document) :
  let G := load_from_json g data in
  let organisations := fold_left add_organization (d_organizations data) g in
  let before_persons :=
    fold_left add_hiwi_position (d_hiwi_positions data)
      (fold_left add_chair (d_chairs data)
         (_create_core_academic_units organisations)) in
  (forall o parent,
     In o (d_organizations data) -> o_parent o = Some parent -> parent <> [] ->
     paired G (URIRef (o_uri o)) "partOf" "hasPart" (URIRef parent))
  /\ (forall unit,
        In unit core_units ->
        graph_mem organisations
          (URIRef (fst (fst unit)), RDF_type, LEUPH "School") = false ->
        paired G (URIRef (fst (fst unit))) "partOf" "hasPart" university_uri)
  /\ (forall c,
        In c (d_chairs data) ->
        paired G (URIRef (c_uri c)) "partOf" "hasPart"
          match c_parent c with
          | Some ((_ :: _) as parent) => URIRef parent
          | _ => university_uri
          end
        /\ (forall h, c_headed_by c = Some h -> h <> [] ->
              paired G (URIRef h) "heads" "headedBy" (URIRef (c_uri c)))
        /\ (forall m, In m (c_team_members c) ->
              paired G (URIRef m) "memberOf" "hasMember" (URIRef (c_uri c))))
  /\ (forall l1 p l2,
        d_persons data = l1 ++ p :: l2 ->
        let found :=
          match p_institute p with
          | Some ((_ :: _) as institute) =>
              find_institute (fold_left add_person l1 before_persons)
                institute
          | _ => None
          end in
        (forall i, found = Some i -> node_set (Some i) = true ->
           paired G (URIRef (p_uri p)) "memberOf" "hasMember" i)
        /\ (forall school, p_school p = Some school -> school <> [] ->
              paired G (URIRef (p_uri p)) "worksAt" "hasEmployee"
                (name_to_uri (str "school") school))
        /\ (node_set found = false -> truthy (p_school p) = false ->
            paired G (URIRef (p_uri p)) "affiliatedWith" "hasAffiliate"
              university_uri))
  /\ (forall p,
        In p (d_programs data) ->
        exists o,
          paired G (URIRef (sp_uri p)) "offeredBy" "offers" o
          /\ (truthy (sp_offered_by p) = false -> o = university_uri))
  /\ (forall m o,
        In m (d_minors data) -> m_offered_by m = Some o -> o <> [] ->
        paired G (URIRef (m_uri m)) "offeredBy" "offers" (URIRef o))
  /\ (forall r,
        In r (d_research_projects data) ->
        exists o,
          paired G (URIRef (rp_uri r)) "conductedBy" "conducts" o
          /\ (truthy (rp_conducted_by r) = false -> o = university_uri))
  /\ (forall c,
        In c (d_courses data) ->
        match co_part_of_program c with
        | Some ((_ :: _) as program) =>
            paired G (URIRef (co_uri c)) "partOf" "hasPart" (URIRef program)
        | _ =>
            paired G (URIRef (co_uri c)) "offeredBy" "offers" college_uri
        end
        /\ (forall i, In i (co_taught_by c) ->
              paired G (URIRef i) "teaches" "taughtBy" (URIRef (co_uri c))))
  /\ (bidirectional g -> bidirectional G).
Proof.
  cbv zeta.
  split.
  { intros o parent I P N. destruct parent as [|x parent]; [contradiction|].
    split; apply loaded; right; left; exists o; (split; [exact I|]);
      intros g0; unfold add_organization, uri_from_string; rewrite P;
      in_graph. }
  split.
  { intros unit I M.
    destruct (@core_units_links
                (fold_left add_organization (d_organizations data) g)
                unit I M) as [A B].
    unfold load_from_json.
    split;
      apply (extends_fold_left _ _ extends_add_course);
      apply (extends_fold_left _ _ extends_add_research_project);
      apply (extends_fold_left _ _ extends_add_minor);
      apply (extends_fold_left _ _ extends_add_program);
      apply (extends_fold_left _ _ extends_add_person);
      apply (extends_fold_left _ _ extends_add_hiwi_position);
      apply (extends_fold_left _ _ extends_add_chair); assumption. }
  split.
  { intros c I. split; [|split].
    - split; apply loaded; do 3 right; left; exists c; (split; [exact I|]);
        intros g0; unfold add_chair, uri_from_string;
        destruct (c_parent c) as [[|x parent]|]; in_graph.
    - intros h H N. destruct h as [|x h]; [contradiction|].
      split; apply loaded; do 3 right; left; exists c; (split; [exact I|]);
        intros g0; unfold add_chair, uri_from_string; rewrite H;
        destruct (c_parent c) as [[|y parent]|]; in_graph.
    - intros m M.
      assert (F : forall x,
                 In x [(URIRef m, LEUPH "memberOf", URIRef (c_uri c));
                       (URIRef (c_uri c), LEUPH "hasMember", URIRef m)] ->
                 forall g0, In x (add_chair g0 c)).
      { intros x X g0. unfold add_chair, uri_from_string.
        apply In_add_all. right. rewrite !in_app_iff.
        do 4 right. left. apply in_flat_map. exists m. now split. }
      split; apply loaded; do 3 right; left; exists c; (split; [exact I|]);
        apply F; simpl; auto. }
  split.
  { intros l1 p l2 E.
    set (gk := fold_left add_person l1 _).
    assert (X : extends (add_person gk p) (load_from_json g data)).
    { intros x Hx. unfold load_from_json. rewrite E, fold_left_app.
      cbn [fold_left]. fold gk.
      apply (extends_fold_left _ _ extends_add_course).
      apply (extends_fold_left _ _ extends_add_research_project).
      apply (extends_fold_left _ _ extends_add_minor).
      apply (extends_fold_left _ _ extends_add_program).
      now apply (extends_fold_left _ _ extends_add_person). }
    destruct (add_person_links gk p) as [A [B C]].
    split; [|split].
    - intros i F N. destruct (A i F N). split; now apply X.
    - intros school S N. destruct (B school S N). split; now apply X.
    - intros F S. destruct (C F S). split; now apply X. }
  split.
  { intros p I.
    apply in_split in I. destruct I as (l1 & l2 & E).
    assert (X : forall gk, extends (add_program gk p)
                  (fold_left add_course (d_courses data)
                     (fold_left add_research_project
                        (d_research_projects data)
                        (fold_left add_minor (d_minors data)
                           (fold_left add_program l2 (add_program gk p)))))).
    { intros gk x Hx.
      apply (extends_fold_left _ _ extends_add_course).
      apply (extends_fold_left _ _ extends_add_research_project).
      apply (extends_fold_left _ _ extends_add_minor).
      now apply (extends_fold_left _ _ extends_add_program). }
    unfold load_from_json. rewrite E, fold_left_app. cbn [fold_left].
    set (gk := fold_left add_program l1 _). specialize (X gk).
    assert (L : exists o,
               paired (add_program gk p) (URIRef (sp_uri p))
                 "offeredBy" "offers" o
               /\ (truthy (sp_offered_by p) = false -> o = university_uri)).
    { unfold paired, add_program, uri_from_string.
      destruct (sp_offered_by p) as [[|x s]|]; eexists;
        (split; [split; in_graph | first [reflexivity | discriminate]]). }
    destruct L as [o [[A B] C]]. exists o.
    split; [split; now apply X | exact C]. }
  split.
  { intros m o I O N. destruct o as [|x o]; [contradiction|].
    split; apply loaded; do 7 right; left; exists m; (split; [exact I|]);
      intros g0; unfold add_minor, uri_from_string; rewrite O; in_graph. }
  split.
  { intros r I.
    apply in_split in I. destruct I as (l1 & l2 & E).
    assert (X : forall gk, extends (add_research_project gk r)
                  (fold_left add_course (d_courses data)
                     (fold_left add_research_project l2
                        (add_research_project gk r)))).
    { intros gk x Hx.
      apply (extends_fold_left _ _ extends_add_course).
      now apply (extends_fold_left _ _ extends_add_research_project). }
    unfold load_from_json. rewrite E, fold_left_app. cbn [fold_left].
    set (gk := fold_left add_research_project l1 _). specialize (X gk).
    assert (L : exists o,
               paired (add_research_project gk r) (URIRef (rp_uri r))
                 "conductedBy" "conducts" o
               /\ (truthy (rp_conducted_by r) = false
                   -> o = university_uri)).
    { unfold paired, add_research_project, uri_from_string.
      destruct (rp_conducted_by r) as [[|x s]|]; eexists;
        (split; [split; in_graph | first [reflexivity | discriminate]]). }
    destruct L as [o [[A B] C]]. exists o.
    split; [split; now apply X | exact C]. }
  split.
  { intros c I. split.
    - destruct (co_part_of_program c) as [[|x program]|] eqn:P;
        split; apply loaded; do 9 right; exists c; (split; [exact I|]);
        intros g0; unfold add_course, uri_from_string; rewrite P; in_graph.
    - intros i T.
      assert (F : forall x,
                 In x [(URIRef i, LEUPH "teaches", URIRef (co_uri c));
                       (URIRef (co_uri c), LEUPH "taughtBy", URIRef i)] ->
                 forall g0, In x (add_course g0 c)).
      { intros x X g0. unfold add_course, uri_from_string.
        apply In_add_all. right. rewrite !in_app_iff.
        do 7 right. left. apply in_flat_map. exists i. now split. }
      split; apply loaded; do 9 right; exists c; (split; [exact I|]);
        apply F; simpl; auto. }
  apply load_from_json_closed_under_inverses.
Qed.

End BothDirections.

(** *** The properties above at sample inputs *)

Lemma name_to_uri_trims_create_uri_witness :
  name_to_uri (str "chair") (str "- Public Law -")
  = URIRef (str "http://leuphana.de/resource/chair/public-law")
  /\ name_to_uri (str "chair") (str "- Public Law -")
     <> URIRef (create_uri (str "chair") (str "- Public Law -")).
Proof.
  pose proof
    (@name_to_uri_trims_create_uri Latin1.db (str "chair")
       (str "- Public Law -") eq_refl) as H.
  assert (N : Forall (fun c => c <> underscore) (str "- Public Law -"))
    by (repeat constructor; discriminate).
  destruct (H N) as [A B]. split.
  - rewrite A. reflexivity.
  - intros E. apply B in E. destruct E as [E _]. discriminate E.
Defined.

Lemma canonicalisers_ignore_ascii_case_witness :
  create_uri (str "person") (upper (str "Anna Schmidt"))
  = create_uri (str "person") (str "Anna Schmidt")
  /\ name_to_uri (str "person") (upper (str "Anna Schmidt"))
     = name_to_uri (str "person") (str "Anna Schmidt").
Proof.
  exact (@canonicalisers_ignore_ascii_case Latin1.db (str "person")
           (str "Anna Schmidt") eq_refl).
Defined.

Lemma canonicalisers_ignore_surrounding_whitespace_witness :
  create_uri (str "person") (str "  " ++ str "Anna Schmidt" ++ [10%N])
  = create_uri (str "person") (str "Anna Schmidt")
  /\ name_to_uri (str "person") (str "  " ++ str "Anna Schmidt" ++ [10%N])
     = name_to_uri (str "person") (str "Anna Schmidt").
Proof.
  exact (@canonicalisers_ignore_surrounding_whitespace Latin1.db
           (str "person") (str "  ") (str "Anna Schmidt") [10%N]
           eq_refl eq_refl eq_refl).
Defined.

Lemma extract_name_parts_tokens_witness :
  extract_name_parts (str "Prof. Dr. Anna Maria Schmidt")
  = (Some (str "Anna Maria"), str "Schmidt", Some (str "Prof. Dr.")).
Proof.
  rewrite (@extract_name_parts_tokens Latin1.db
             (str "Prof. Dr. Anna Maria Schmidt")
             [str "Prof."; str "Dr."]
             [str "Anna"; str "Maria"; str "Schmidt"]).
  - reflexivity.
  - reflexivity.
  - reflexivity.
  - discriminate.
  - reflexivity.
Defined.

Lemma professor_title_gives_professor_rank_witness :
  is_professor_rank
    (determine_person_category (str "Anna Schmidt") [] (str "Prof. Dr."))
  = true.
Proof.
  exact (@professor_title_gives_professor_rank Latin1.db (str "Anna Schmidt")
           [] (str "Prof. Dr.") eq_refl eq_refl eq_refl eq_refl).
Defined.

Lemma determine_person_category_ignores_ascii_case_witness :
  determine_person_category (upper (str "Research Assistant"))
    (upper (str "https://www.leuphana.de/staff")) (upper [])
  = determine_person_category (str "Research Assistant")
      (str "https://www.leuphana.de/staff") [].
Proof.
  exact (@determine_person_category_ignores_ascii_case Latin1.db
           (str "Research Assistant") (str "https://www.leuphana.de/staff")
           [] eq_refl eq_refl eq_refl).
Defined.

Lemma person_category_becomes_class_witness :
  In (URIRef (p_uri prof_anna_schmidt), RDF_type, LEUPH "Professor")
     (add_person [] prof_anna_schmidt).
Proof.
  exact (proj1 (@person_category_becomes_class Latin1.db []
                  prof_anna_schmidt Professor eq_refl)).
Defined.

Lemma registration_keeps_unique_uris_witness :
  unique_uris p_uri (persons one_professor)
  /\ unique_uris p_uri
       (persons
          (snd (scrape_person_list_page staff_page None
                  (Some [listed "Anna Schmidt"
                           "https://www.leuphana.de/person/1.html"])
                  one_professor))).
Proof.
  assert (P : unique_uris p_uri (persons one_professor)).
  { split; [repeat constructor|].
    repeat constructor. intros []. }
  assert (E : forall V (f : V -> pystr), unique_uris f []).
  { intros V f. split; constructor. }
  split; [exact P|].
  exact (proj1
           (@registration_keeps_unique_uris Latin1.db one_professor
              staff_page None
              (Some [listed "Anna Schmidt"
                       "https://www.leuphana.de/person/1.html"])
              None [] [] None [] None [] [] [] None None None None []
              [] None P (E _ _) (E _ _) (E _ _) (E _ _))).
Defined.

Lemma chair_from_heading_references_witness :
  let stored :=
    capital_name "ANNA SCHMIDT"
      "http://leuphana.de/resource/person/anna-schmidt" in
  let st' :=
    _create_chair_from_heading (str "Professorship for Public Law")
      (Some (str "Anna Schmidt")) staff_page (str "ipl")
      (registered_alone stored) in
  dict_get (persons (registered_alone stored)) (p_uri stored) = Some stored
  /\ option_map p_name (dict_get (persons st') (p_uri stored))
     = Some (str "Anna Schmidt")
  /\ option_map p_email (dict_get (persons st') (p_uri stored)) = Some None
  /\ (exists chair,
        dict_get (chairs st')
          (create_uri (str "chair") (strip (str "Professorship for Public Law")))
        = Some chair
        /\ c_headed_by chair = Some (p_uri stored)).
Proof.
  intros stored st'.
  assert (L : (10 <= List.length
                       (strip (str "Professorship for Public Law")))%nat)
    by (vm_compute; lia).
  assert (N : str "Anna Schmidt" <> []) by discriminate.
  assert (F : Forall (fun kv : pystr * Person =>
                        contains (str "Anna Schmidt") (p_name (snd kv))
                        = false)
                (persons (registered_alone stored)))
    by (repeat constructor).
  destruct (@chair_from_heading_references Latin1.db
              (str "Professorship for Public Law")
              (Some (str "Anna Schmidt")) staff_page (str "ipl")
              (registered_alone stored) L eq_refl)
    as [chair [A [_ [_ [_ [_ [_ [R _]]]]]]]].
  destruct (R (str "Anna Schmidt") eq_refl N F) as [H1 H2].
  split; [reflexivity|].
  change (create_uri (str "person") (str "Anna Schmidt"))
    with (p_uri stored) in H1, H2.
  fold st' in H2. rewrite H2.
  split; [reflexivity|]. split; [reflexivity|].
  exists chair. split; [exact A | exact H1].
Defined.

Lemma course_entity_references_witness :
  let stored :=
    capital_name "PROF. ANNA SCHMIDT"
      "http://leuphana.de/resource/person/prof-anna-schmidt" in
  let r :=
    _create_course_entity (str "Seminar Public Law")
      (Some (str "Prof. Anna Schmidt")) (Some 5%Z) None None staff_page
      [(p_uri stored, stored)] [] in
  option_map p_name (dict_get (fst r) (p_uri stored))
  = Some (str "Prof. Anna Schmidt")
  /\ option_map p_email (dict_get (fst r) (p_uri stored)) = Some None
  /\ (exists course,
        dict_get (snd r)
          (create_uri (str "course") (strip (str "Seminar Public Law")))
        = Some course
        /\ co_taught_by course = [p_uri stored]).
Proof.
  intros stored r.
  assert (L : (3 <= List.length (strip (str "Seminar Public Law")))%nat)
    by (vm_compute; lia).
  assert (N : str "Prof. Anna Schmidt" <> []) by discriminate.
  assert (F : Forall (fun kv : pystr * Person =>
                        contains (strip (str "Prof. Anna Schmidt"))
                          (p_name (snd kv)) = false
                        /\ contains (p_name (snd kv))
                             (strip (str "Prof. Anna Schmidt")) = false)
                [(p_uri stored, stored)])
    by (repeat constructor).
  destruct (@course_entity_references Latin1.db (str "Seminar Public Law")
              (Some (str "Prof. Anna Schmidt")) (Some 5%Z) None None
              staff_page [(p_uri stored, stored)] [] L eq_refl)
    as [course [A [_ [_ [_ [_ [_ [_ [_ R]]]]]]]]].
  destruct (R (str "Prof. Anna Schmidt") eq_refl N F eq_refl) as [H1 H2].
  change (create_uri (str "person") (strip (str "Prof. Anna Schmidt")))
    with (p_uri stored) in H1, H2.
  fold r in H2. rewrite H2.
  split; [reflexivity|]. split; [reflexivity|].
  exists course. split; [exact A | exact H1].
Defined.

Lemma blank_instructor_is_first_person_witness :
  option_map co_taught_by
    (dict_get
       (snd (_create_course_entity (str "Seminar Public Law")
               (Some (str "  ")) None None None staff_page
               ((p_uri prof_anna_schmidt, prof_anna_schmidt) :: []) []))
       (create_uri (str "course") (strip (str "Seminar Public Law"))))
  = Some [p_uri prof_anna_schmidt].
Proof.
  assert (L : (3 <= List.length (strip (str "Seminar Public Law")))%nat)
    by (vm_compute; lia).
  assert (N : str "  " <> []) by discriminate.
  exact (proj2
           (@blank_instructor_is_first_person Latin1.db
              (str "Seminar Public Law") (str "  ") None None None staff_page
              (p_uri prof_anna_schmidt) prof_anna_schmidt [] []
              L eq_refl N eq_refl)).
Defined.

Lemma find_institute_preference_witness :
  find_institute two_institutes (str "IB")
  = Some (URIRef (str "http://leuphana.de/resource/institute/library-science")).
Proof.
  assert (W : Forall (fun t => node_set (Some (fst (fst t))) = true)
                two_institutes)
    by (vm_compute; repeat constructor).
  rewrite (@find_institute_preference Latin1.db two_institutes (str "IB") W).
  reflexivity.
Defined.

Lemma member_of_leads_to_typed_node_witness :
  In (URIRef (str "http://leuphana.de/resource/institute/library-science"),
      RDF_type, LEUPH "Institute")
     (add_person two_institutes maria_klein).
Proof.
  assert (M : In (URIRef (p_uri maria_klein), LEUPH "memberOf",
                  URIRef (str "http://leuphana.de/resource/institute/library-science"))
                (add_person two_institutes maria_klein)).
  { vm_compute. repeat (first [left; reflexivity | right]). }
  destruct (@member_of_leads_to_typed_node Latin1.db two_institutes
              maria_klein _ _ M) as [H | [_ [_ [H | [H | H]]]]].
  - exfalso. vm_compute in H.
    repeat (destruct H as [H | H]; [discriminate H|]). exact H.
  - exact H.
  - exfalso. vm_compute in H.
    repeat (destruct H as [H | H]; [discriminate H|]). exact H.
  - exfalso. vm_compute in H.
    repeat (destruct H as [H | H]; [discriminate H|]). exact H.
Defined.

Lemma load_from_json_bidirectional_witness :
  let G := load_from_json [] chair_and_course in
  paired G (URIRef (c_uri public_law)) "partOf" "hasPart" university_uri
  /\ paired G (URIRef (p_uri prof_anna_schmidt)) "heads" "headedBy"
       (URIRef (c_uri public_law))
  /\ paired G (URIRef (p_uri maria_klein)) "memberOf" "hasMember"
       (URIRef (c_uri public_law))
  /\ paired G (URIRef (co_uri course)) "offeredBy" "offers" college_uri.
Proof.
  destruct (@load_from_json_bidirectional Latin1.db [] chair_and_course)
    as (_ & _ & C & _ & _ & _ & _ & K & _).
  destruct (C public_law (or_introl eq_refl)) as (C1 & C2 & C3).
  destruct (K course (or_introl eq_refl)) as (K1 & _).
  split; [exact C1|].
  split; [apply (C2 (p_uri prof_anna_schmidt) eq_refl); discriminate|].
  split; [apply (C3 (p_uri maria_klein)); now left | exact K1].
Defined.
